(** * split_silence: timeline reconstruction and segment extraction

    A shallow embedding of [examples/split_silence.py].  The script runs
    the transcoding engine once with the [silencedetect] filter, scans the
    engine's diagnostic text for silence markers, pairs them into
    non-silent intervals ([get_chunk_times]) and then extracts every
    interval into a file of its own, collecting one metadata record per
    interval ([split_audio]).

    Layout of the development:
    - [PyFloat]: Python's [float] as IEEE 754 binary64, on the kernel's
      [spec_float], with [float(text)] and ['{:.04f}'.format];
    - [Re]: the fragment of Python's [re] the three patterns use, as a
      backtracking matcher;
    - [Py]: exceptions and the few builtins the script calls
      ([str.splitlines], [os.path.dirname], [int], [float], [or]);
    - the script: the scan of [get_chunk_times] as a pure function of
      the lines, then both functions with their effects, as actions on
      the trace of events, the engine and the file system answering
      through a [runtime];
    - the vocabulary of the properties: the events of a stream, what a
      trace shows, what a match consumes;
    - the lemmas and the properties, C1 to C10. *)

From Stdlib Require Import ZArith List String Ascii Bool Lia.
From Stdlib Require Import Floats.SpecFloat Numbers.DecimalString.
Import ListNotations.

Local Open Scope string_scope.
Local Open Scope Z_scope.

(* ================================================================== *)
(** * Python floats *)

Module PyFloat.

(** A Python [float] is a binary64 number. *)
Definition float := spec_float.
Definition prec : Z := 53.
Definition emax : Z := 1024.

Definition zero : float := S754_zero false.

(** [float(n)] for an [int]; correctly rounded. *)
Definition of_Z (n : Z) : float := binary_normalize prec emax n 0 false.

Definition add (x y : float) : float := SFadd prec emax x y.
Definition sub (x y : float) : float := SFsub prec emax x y.
Definition ltb (x y : float) : bool := SFltb x y.
Definition eqb (x y : float) : bool := SFeqb x y.

(** Truth value of a float: every float but the two zeros is true. *)
Definition truthy (x : float) : bool :=
  match x with
  | S754_zero _ => false
  | _ => true
  end.

Definition is_finite (x : float) : bool :=
  match x with
  | S754_zero _ | S754_finite _ _ _ => true
  | _ => false
  end.

(** The float nearest to [n / 10^k] (ties to even), [0 <= n]: the
    quotient of two integers, rounded once. *)
Definition of_decimal (n : Z) (k : nat) : float :=
  match n with
  | Zpos p => SFdiv prec emax (S754_finite false p 0)
                    (S754_finite false (Z.to_pos (10 ^ Z.of_nat k)) 0)
  | _ => zero
  end.

Definition is_digit (c : ascii) : bool :=
  let n := N_of_ascii c in ((48 <=? n) && (n <=? 57))%N.

Definition digit_value (c : ascii) : Z := Z.of_N (N_of_ascii c) - 48.

(** The value of a run of decimal digits, continuing from [acc];
    [None] when a character is no digit. *)
Fixpoint digits_value (acc : Z) (s : string) : option Z :=
  match s with
  | EmptyString => Some acc
  | String c s' =>
      if is_digit c then digits_value (10 * acc + digit_value c) s' else None
  end.

(** The text before the first ["."], and the text after it if there
    is one. *)
Fixpoint split_point (s : string) : string * option string :=
  match s with
  | EmptyString => (EmptyString, None)
  | String c s' =>
      if Ascii.eqb c "." then (EmptyString, Some s')
      else let '(i, f) := split_point s' in (String c i, f)
  end.

(** [float(text)] on the texts the script hands to it, which its
    patterns restrict to digits and points: digits with at most one
    point and at least one digit give the nearest float, anything else
    is Python's [ValueError] ([None]). *)
Definition of_string (s : string) : option float :=
  let '(i, f) := split_point s in
  let f' := match f with Some t => t | None => EmptyString end in
  if (String.length i + String.length f' =? 0)%nat then None
  else
    match digits_value 0 i with
    | None => None
    | Some a =>
        match digits_value a f' with
        | None => None
        | Some n => Some (of_decimal n (String.length f'))
        end
    end.

(** [num / den] rounded to the nearest integer, ties to even
    ([0 <= num], [0 < den]). *)
Definition round_half_even (num den : Z) : Z :=
  let q := num / den in
  match (2 * (num mod den)) ?= den with
  | Lt => q
  | Gt => q + 1
  | Eq => if Z.even q then q else q + 1
  end.

(** [m * 2^e * 10^4] rounded to an integer. *)
Definition ten_thousandths (m : positive) (e : Z) : Z :=
  if 0 <=? e then Zpos m * 2 ^ e * 10000
  else round_half_even (Zpos m * 10000) (2 ^ (- e)).

Definition decimal (n : Z) : string := NilZero.string_of_uint (N.to_uint (Z.to_N n)).

Definition pad4 (s : string) : string :=
  match String.length s with
  | 0%nat => "0000" ++ s
  | 1%nat => "000" ++ s
  | 2%nat => "00" ++ s
  | 3%nat => "0" ++ s
  | _ => s
  end.

Definition sign_text (s : bool) : string := if s then "-" else "".

(** ['{:.04f}'.format(x)]: fixed point with four decimals, the exact
    binary value rounded half to even. *)
Definition format_04f (x : float) : string :=
  match x with
  | S754_nan => "nan"
  | S754_infinity s => sign_text s ++ "inf"
  | S754_zero s => sign_text s ++ "0.0000"
  | S754_finite s m e =>
      let n := ten_thousandths m e in
      sign_text s ++ decimal (n / 10000) ++ "." ++ pad4 (decimal (n mod 10000))
  end.

End PyFloat.

Abbreviation float := PyFloat.float.

(* ================================================================== *)
(** * Regular expressions *)

Module Re.

(** The constructs the script's three patterns are written with:
    literal text, a greedy repetition of one character class, sequence,
    a capturing group and [$]. *)
Inductive regex : Type :=
| Lit (text : string)
| Rep (cls : ascii -> bool) (lo : nat) (hi : option nat)
| Cat (r1 r2 : regex)
| Grp (name : option string) (r : regex)
| Eol.

(** What a match object keeps: the text of every named group. *)
Definition groups := list (string * string).

Fixpoint strip_prefix (p s : string) : option string :=
  match p, s with
  | EmptyString, _ => Some s
  | String a p', String b s' => if Ascii.eqb a b then strip_prefix p' s' else None
  | String _ _, EmptyString => None
  end.

Fixpoint run (cls : ascii -> bool) (s : string) : nat :=
  match s with
  | String c s' => if cls c then S (run cls s') else O
  | EmptyString => O
  end.

Fixpoint drop (n : nat) (s : string) : string :=
  match n, s with
  | S n', String _ s' => drop n' s'
  | _, _ => s
  end.

Fixpoint take (n : nat) (s : string) : string :=
  match n, s with
  | S n', String c s' => String c (take n' s')
  | _, _ => EmptyString
  end.

Definition bind_group (name : option string) (text : string) (g : groups) : groups :=
  match name with
  | Some x => (x, text) :: g
  | None => g
  end.

Section Matcher.
Context {R : Type}.

(** A greedy repetition tries the longest count first and gives
    characters back one at a time, never below [lo]. *)
Fixpoint backoff (k : nat -> option R) (lo n : nat) : option R :=
  if (n <? lo)%nat then None
  else
    match k n with
    | Some r => Some r
    | None =>
        match n with
        | O => None
        | S n' => backoff k lo n'
        end
    end.

(** [exec r s g k]: match [r] at the head of [s], then continue
    with [k] on what is left; a failing continuation makes the
    matcher backtrack. *)
Fixpoint exec (r : regex) (s : string) (g : groups)
         (k : string -> groups -> option R) : option R :=
  match r with
  | Lit p =>
      match strip_prefix p s with
      | Some s' => k s' g
      | None => None
      end
  | Rep cls lo hi =>
      let most := match hi with
                  | Some h => Nat.min h (run cls s)
                  | None => run cls s
                  end in
      backoff (fun i => k (drop i s) g) lo most
  | Cat r1 r2 => exec r1 s g (fun s' g' => exec r2 s' g' k)
  | Grp name r' =>
      exec r' s g
           (fun s' g' =>
              k s' (bind_group name (take (String.length s - String.length s') s) g'))
  | Eol =>
      match s with
      | EmptyString => k s g
      | String c EmptyString => if Ascii.eqb c "010" then k s g else None
      | _ => None
      end
  end.
End Matcher.

Definition match_here (r : regex) (s : string) : option groups :=
  exec r s [] (fun _ g => Some g).

(** [pattern.search(s)]: the match at the leftmost position that has
    one. *)
Fixpoint search (r : regex) (s : string) : option groups :=
  match match_here r s with
  | Some g => Some g
  | None =>
      match s with
      | EmptyString => None
      | String _ s' => search r s'
      end
  end.

(** [m.group(name)]. *)
Fixpoint group (name : string) (g : groups) : string :=
  match g with
  | [] => EmptyString
  | (x, text) :: g' => if String.eqb x name then text else group name g'
  end.

Definition digit : ascii -> bool := PyFloat.is_digit.
Definition point (c : ascii) : bool := Ascii.eqb c ".".
Definition digit_or_point (c : ascii) : bool := digit c || point c.
Definition not_space (c : ascii) : bool := negb (Ascii.eqb c " ").

Definition plus (cls : ascii -> bool) : regex := Rep cls 1 None.
Definition star (cls : ascii -> bool) : regex := Rep cls 0 None.
Definition opt (cls : ascii -> bool) : regex := Rep cls 0 (Some 1%nat).
Definition times (n : nat) (cls : ascii -> bool) : regex := Rep cls n (Some n).
Definition named (x : string) (r : regex) : regex := Grp (Some x) r.

End Re.

Infix "+++" := Re.Cat (at level 60, right associativity).

(** The number after a silence marker: [[0-9]+(\.?[0-9]{0,})], the
    source writing the last repetition as a star. *)
Definition number_re : Re.regex :=
  Re.plus Re.digit +++ Re.Grp None (Re.opt Re.point +++ Re.star Re.digit).

(** [' silence_start: (?P<start>NUMBER)$'] *)
Definition silence_start_re : Re.regex :=
  Re.Lit " silence_start: " +++ Re.named "start" number_re +++ Re.Eol.

(** [' silence_end: (?P<end>NUMBER) '] *)
Definition silence_end_re : Re.regex :=
  Re.Lit " silence_end: " +++ Re.named "end" number_re +++ Re.Lit " ".

(** ['size=[^ ]+ time=(?P<hours>[0-9]{2}):(?P<minutes>[0-9]{2}):(?P<seconds>[0-9\.]{5}) bitrate='] *)
Definition total_duration_re : Re.regex :=
  Re.Lit "size=" +++ Re.plus Re.not_space +++ Re.Lit " time=" +++
  Re.named "hours" (Re.times 2 Re.digit) +++ Re.Lit ":" +++
  Re.named "minutes" (Re.times 2 Re.digit) +++ Re.Lit ":" +++
  Re.named "seconds" (Re.times 5 Re.digit_or_point) +++ Re.Lit " bitrate=".

(* ================================================================== *)
(** * Python builtins *)

Module Py.

(** Exceptions the script can end with.  [SystemExit] is what
    [sys.exit] raises, [UnicodeDecodeError] what [bytes.decode] raises;
    Python makes it a subclass of [ValueError], and it is kept apart
    here from the [ValueError] of [float] and [int]. *)
Inductive exn : Type :=
| ValueError
| UnicodeDecodeError
| KeyError
| IndexError
| OSError (errno : Z)
| SystemExit (code : Z).

Inductive result (A : Type) : Type :=
| Ok (a : A)
| Err (e : exn).
Arguments Ok {A} a.
Arguments Err {A} e.

Definition bind {A B : Type} (r : result A) (f : A -> result B) : result B :=
  match r with
  | Ok a => f a
  | Err e => Err e
  end.

(** The bytes read from a pipe.  The script does one thing with them:
    it decodes them as UTF-8.  [Utf8 text] are the bytes that encode
    [text]; [NotUtf8] stands for bytes that are no UTF-8 at all. *)
Inductive bytes : Type :=
| Utf8 (text : string)
| NotUtf8.

(** [b.decode('utf-8')], raising [UnicodeDecodeError]. *)
Definition decode (b : bytes) : result string :=
  match b with
  | Utf8 text => Ok text
  | NotUtf8 => Err UnicodeDecodeError
  end.

(** [float(text)], raising [ValueError]. *)
Definition float_ (text : string) : result float :=
  match PyFloat.of_string text with
  | Some x => Ok x
  | None => Err ValueError
  end.

(** [int(text)] for an unsigned decimal numeral. *)
Definition int_ (text : string) : result Z :=
  match text with
  | EmptyString => Err ValueError
  | _ =>
      match PyFloat.digits_value 0 text with
      | Some n => Ok n
      | None => Err ValueError
      end
  end.

(** [x or y] on floats. *)
Definition or_ (x y : float) : float := if PyFloat.truthy x then x else y.

(** [x or y] where [x] may be [None]. *)
Definition or_none (x : option float) (y : float) : float :=
  match x with
  | Some v => or_ v y
  | None => y
  end.

(** The characters [str.splitlines] breaks a line at: LF, VT, FF, CR,
    FS, GS, RS and NEL (a CR directly followed by LF is one break). *)
Definition is_linebreak (c : ascii) : bool :=
  let n := N_of_ascii c in
  ((n =? 10) || (n =? 11) || (n =? 12) || (n =? 13) ||
   (n =? 28) || (n =? 29) || (n =? 30) || (n =? 133))%N.

Fixpoint splitlines_from (cur : string) (after_cr : bool) (s : string) : list string :=
  match s with
  | EmptyString => match cur with EmptyString => [] | _ => [cur] end
  | String c s' =>
      if after_cr && Ascii.eqb c "010" then splitlines_from cur false s'
      else if is_linebreak c then cur :: splitlines_from EmptyString (Ascii.eqb c "013") s'
      else splitlines_from (cur ++ String c EmptyString) false s'
  end.

(** [text.splitlines()] *)
Definition splitlines (text : string) : list string :=
  splitlines_from EmptyString false text.

Fixpoint has_sep (s : string) : bool :=
  match s with
  | EmptyString => false
  | String c s' => Ascii.eqb c "/" || has_sep s'
  end.

(** [p[:p.rfind('/') + 1]] *)
Fixpoint upto_last_sep (p : string) : string :=
  match p with
  | EmptyString => EmptyString
  | String c p' => if has_sep p then String c (upto_last_sep p') else EmptyString
  end.

Fixpoint all_sep (s : string) : bool :=
  match s with
  | EmptyString => true
  | String c s' => Ascii.eqb c "/" && all_sep s'
  end.

(** [s.rstrip('/')] *)
Fixpoint rstrip_sep (s : string) : string :=
  match s with
  | EmptyString => EmptyString
  | String c s' => if all_sep s then EmptyString else String c (rstrip_sep s')
  end.

(** [os.path.dirname(p)] (POSIX) *)
Definition dirname (p : string) : string :=
  let head := upto_last_sep p in
  if all_sep head then head else rstrip_sep head.

End Py.

Import Py.

Local Open Scope list_scope.

Notation "x <- r ;; k" := (Py.bind r (fun x => k))
  (at level 61, r at next level, right associativity).

(* ================================================================== *)
(** * The scan of [get_chunk_times] *)

(** The three variables the loop over the lines updates. *)
Record scan_state : Type := {
  chunk_starts : list float;
  chunk_ends : list float;
  end_time : option float
}.

(** [10000000.] *)
Definition sentinel : float := PyFloat.of_Z 10000000.

(** One turn of [for line in lines]: the three searches, then the
    [if]/[elif]/[elif] over their results.  [start_time] is the
    function's variable after its defaulting, which the loop only
    reads. *)
Definition scan_line (start_time : float) (st : scan_state) (line : string)
  : result scan_state :=
  let silence_start_match := Re.search silence_start_re line in
  let silence_end_match := Re.search silence_end_re line in
  let total_duration_match := Re.search total_duration_re line in
  match silence_start_match with
  | Some m =>
      t <- float_ (Re.group "start" m) ;;
      let ends := chunk_ends st ++ [t] in
      let starts :=
        if (List.length (chunk_starts st) =? 0)%nat
        then chunk_starts st ++ [or_ start_time PyFloat.zero]
        else chunk_starts st in
      Ok {| chunk_starts := starts; chunk_ends := ends; end_time := end_time st |}
  | None =>
      match silence_end_match with
      | Some m =>
          t <- float_ (Re.group "end" m) ;;
          Ok {| chunk_starts := chunk_starts st ++ [t];
                chunk_ends := chunk_ends st;
                end_time := end_time st |}
      | None =>
          match total_duration_match with
          | Some m =>
              hours <- int_ (Re.group "hours" m) ;;
              minutes <- int_ (Re.group "minutes" m) ;;
              seconds <- float_ (Re.group "seconds" m) ;;
              Ok {| chunk_starts := chunk_starts st;
                    chunk_ends := chunk_ends st;
                    end_time := Some (PyFloat.add
                                        (PyFloat.of_Z (hours * 3600 + minutes * 60))
                                        seconds) |}
          | None => Ok st
          end
      end
  end.

Fixpoint scan_lines (start_time : float) (st : scan_state) (lines : list string)
  : result scan_state :=
  match lines with
  | [] => Ok st
  | line :: rest =>
      st' <- scan_line start_time st line ;;
      scan_lines start_time st' rest
  end.

(** The two patches after the loop. *)
Definition patch_starts (start_time : float) (st : scan_state) : list float :=
  if (List.length (chunk_starts st) =? 0)%nat
  then chunk_starts st ++ [start_time]
  else chunk_starts st.

Definition patch_ends (starts : list float) (st : scan_state) : list float :=
  if (List.length (chunk_ends st) <? List.length starts)%nat
  then chunk_ends st ++ [or_none (end_time st) sentinel]
  else chunk_ends st.

(** [list(zip(chunk_starts, chunk_ends))] after the patches. *)
Definition pair_chunks (start_time : float) (st : scan_state) : list (float * float) :=
  let starts := patch_starts start_time st in
  let ends := patch_ends starts st in
  combine starts ends.

(** [start_time] after lines 47 to 50: the argument, or [0.] for [None]. *)
Definition default_start (start_time : option float) : float :=
  match start_time with
  | Some t => t
  | None => PyFloat.zero
  end.

(** Lines 68 to 98 of [get_chunk_times], from the lines of the engine's
    diagnostic text to the intervals. *)
Definition chunk_times_of_lines (start_time end_time : option float) (lines : list string)
  : result (list (float * float)) :=
  let start := default_start start_time in
  st <- scan_lines start
          {| chunk_starts := []; chunk_ends := []; end_time := end_time |} lines ;;
  Ok (pair_chunks start st).

(* ================================================================== *)
(** * The engine, the file system and the script's effects *)

(** What a compiled command line asks of the engine.  The argument
    lists themselves are built by the [ffmpeg] package; the model keeps
    the values the script passes to it. *)
Inductive command : Type :=
| SilenceDetect (in_filename : string) (ss t : option float) (n : Z) (d : float)
    (** [input(in_filename, ss, t)], [silencedetect] with [n] dB and
        [d] seconds, output [-] in format [null], [-nostats] *)
| Extract (in_filename : string) (ss t : float) (padding : option float)
    (out_filename : string).
    (** [input(in_filename, ss, t)], with [padding] seconds of [anullsrc]
        on both sides when given, written over [out_filename] *)

(** What [child.returncode] and [child.communicate()[1]] give once the
    child is done: the exit status and the bytes the child wrote to
    its standard error stream. *)
Record completed : Type := {
  returncode : Z;
  stderr_bytes : bytes
}.

(** A Python [dict] from text to text, in insertion order. *)
Definition dict := list (string * string).

Inductive level : Type := DEBUG | INFO.

Inductive event : Type :=
| Log (l : level) (message : string)
| LogCommand (cmd_line : command)         (** ['Running command: ...'], at [DEBUG] *)
| Popen (cmd_line : command) (piped : bool)
| StderrWrite (text : string)
| Makedirs (path : string)
| OpenW (path : string)
| JsonDump (path : string) (document : list dict).

(** The collaborators, each answering from the events so far:
    the engine's result for a command, [os.makedirs] and [open] (an
    [errno] when they raise), [os.path.isdir], and [str.format] with
    the chunk index as positional and as keyword argument [i]. *)
Record runtime : Type := {
  wait : list event -> command -> completed;
  os_makedirs : list event -> string -> option Z;
  os_path_isdir : list event -> string -> bool;
  open_w : list event -> string -> option Z;
  str_format : string -> nat -> result string
}.

(** A statement of the script: from the events so far to a value or
    an exception, and the events after it. *)
Definition action (A : Type) : Type := list event -> result A * list event.

Definition ret {A : Type} (a : A) : action A := fun tr => (Ok a, tr).

Definition raise {A : Type} (e : exn) : action A := fun tr => (Err e, tr).

Definition then_ {A B : Type} (a : action A) (f : A -> action B) : action B :=
  fun tr =>
    match a tr with
    | (Ok x, tr') => f x tr'
    | (Err e, tr') => (Err e, tr')
    end.

Definition emit (e : event) : action unit := fun tr => (Ok tt, tr ++ [e]).

Definition lift {A : Type} (r : result A) : action A := fun tr => (r, tr).

Notation "x <-- a ;;; k" := (then_ a (fun x => k))
  (at level 61, a at next level, right associativity).
Notation "a ;;; k" := (then_ a (fun _ => k))
  (at level 61, right associativity).

Definition EEXIST : Z := 17.

(** The exit status of the process when the script's top level ends
    with [r]: [0], the code of a [SystemExit], or [1] for any other
    uncaught exception. *)
Definition exit_status {A : Type} (r : result A) : Z :=
  match r with
  | Ok _ => 0
  | Err (SystemExit code) => code
  | Err _ => 1
  end.

Section Script.
Variable rt : runtime.

Definition _logged_popen (cmd_line : command) (piped : bool) : action command :=
  emit (LogCommand cmd_line) ;;;
  emit (Popen cmd_line piped) ;;;
  ret cmd_line.

Definition communicate (child : command) : action completed :=
  fun tr => (Ok (wait rt tr child), tr).

Definition sys_exit {A : Type} (code : Z) : action A := raise (SystemExit code).

Definition get_chunk_times (in_filename : string) (silence_threshold : Z)
           (silence_duration : float) (start_time end_time : option float)
  : action (list (float * float)) :=
  let ss := start_time in
  let start := default_start start_time in
  let t := option_map (fun e => PyFloat.sub e start) end_time in
  child <-- _logged_popen
              (SilenceDetect in_filename ss t silence_threshold silence_duration) true ;;;
  done <-- communicate child ;;;
  output <-- lift (decode (stderr_bytes done)) ;;;
  if negb (returncode done =? 0) then
    emit (StderrWrite output) ;;;
    sys_exit 1
  else
    emit (Log DEBUG output) ;;;
    lift (chunk_times_of_lines start_time end_time (splitlines output)).

Definition _makedirs (path : string) : action unit :=
  match path with
  | EmptyString => ret tt
  | _ =>
      emit (Makedirs path) ;;;
      fun tr =>
        match os_makedirs rt tr path with
        | None => (Ok tt, tr)
        | Some errno =>
            if negb (errno =? EEXIST) || negb (os_path_isdir rt tr path)
            then (Err (OSError errno), tr)
            else (Ok tt, tr)
        end
  end.

Section Split.
Variables (in_filename out_pattern : string) (padding : float) (verbose : bool).

(** The metadata entry of the chunk written to [out_filename]. *)
Definition chunk_entry (out_filename : string) (start_time end_time : float) : dict :=
  let time := PyFloat.sub end_time start_time in
  [("filename", out_filename);
   ("start", PyFloat.format_04f start_time);
   ("end", PyFloat.format_04f end_time);
   ("duration", PyFloat.format_04f time)].

(** The body of the loop of [split_audio] for chunk [i]; it returns
    the list [metadata] as the body leaves it. *)
Definition split_chunk (metadata : list dict) (i : nat) (chunk : float * float)
  : action (list dict) :=
  let '(start_time, end_time) := chunk in
  let time := PyFloat.sub end_time start_time in
  out_filename <-- lift (str_format rt out_pattern i) ;;;
  _makedirs (dirname out_filename) ;;;
  let start_text := PyFloat.format_04f start_time in
  let end_text := PyFloat.format_04f end_time in
  let duration_text := PyFloat.format_04f time in
  let metadata := metadata ++ [chunk_entry out_filename start_time end_time] in
  emit (Log INFO (out_filename ++ ": start=" ++ start_text ++ ", end=" ++ end_text
                    ++ ", duration=" ++ duration_text)%string) ;;;
  let input := Extract in_filename start_time time
                 (if PyFloat.ltb PyFloat.zero padding then Some padding else None)
                 out_filename in
  child <-- _logged_popen input (negb verbose) ;;;
  out <-- communicate child ;;;
  (if negb (returncode out =? 0) then
     if negb verbose then
       text <-- lift (decode (stderr_bytes out)) ;;;
       emit (StderrWrite text)
     else ret tt
   else ret tt) ;;;
  ret metadata.

(** [for i, (start_time, end_time) in enumerate(chunk_times)], from
    index [i] on. *)
Fixpoint split_chunks (metadata : list dict) (i : nat)
         (chunk_times : list (float * float)) : action (list dict) :=
  match chunk_times with
  | [] => ret metadata
  | chunk :: rest =>
      metadata' <-- split_chunk metadata i chunk ;;;
      split_chunks metadata' (S i) rest
  end.

(** Lines 160 to 163. *)
Definition write_metadata (metadata_filename : option string) (metadata : list dict)
  : action unit :=
  match metadata_filename with
  | Some path =>
      _makedirs (dirname path) ;;;
      emit (OpenW path) ;;;
      (fun tr => match open_w rt tr path with
                 | None => (Ok tt, tr)
                 | Some errno => (Err (OSError errno), tr)
                 end) ;;;
      emit (JsonDump path metadata)
  | None => ret tt
  end.

(** Lines 124 to 163: [split_audio] once the chunk times are known. *)
Definition split_audio_chunks (metadata_filename : option string)
           (chunk_times : list (float * float)) : action unit :=
  metadata <-- split_chunks [] 0 chunk_times ;;;
  write_metadata metadata_filename metadata.

Definition split_audio (silence_threshold : Z) (silence_duration : float)
           (start_time end_time : option float) (metadata_filename : option string)
  : action unit :=
  chunk_times <-- get_chunk_times in_filename silence_threshold silence_duration
                    start_time end_time ;;;
  split_audio_chunks metadata_filename chunk_times.
End Split.
End Script.

(* ================================================================== *)
(** * Events of a diagnostic stream *)

(** What one diagnostic line can carry. *)
Inductive silence_event : Type :=
| SilenceStart (t : float)
| SilenceEnd (t : float)
| DurationReport (hours minutes : Z) (seconds : float).

(** The event of a line, the patterns taken in the order of the
    [if]/[elif] chain; [ValueError] when the text of a group is no
    number. *)
Definition classify (line : string) : result (option silence_event) :=
  match Re.search silence_start_re line with
  | Some m => t <- float_ (Re.group "start" m) ;; Ok (Some (SilenceStart t))
  | None =>
      match Re.search silence_end_re line with
      | Some m => t <- float_ (Re.group "end" m) ;; Ok (Some (SilenceEnd t))
      | None =>
          match Re.search total_duration_re line with
          | Some m =>
              hours <- int_ (Re.group "hours" m) ;;
              minutes <- int_ (Re.group "minutes" m) ;;
              seconds <- float_ (Re.group "seconds" m) ;;
              Ok (Some (DurationReport hours minutes seconds))
          | None => Ok None
          end
      end
  end.

(** The events of the lines of a stream, in order. *)
Fixpoint classify_all (lines : list string) : result (list silence_event) :=
  match lines with
  | [] => Ok []
  | line :: rest =>
      ev <- classify line ;;
      evs <- classify_all rest ;;
      Ok (match ev with Some e => e :: evs | None => evs end)
  end.

(** [hours * 3600 + minutes * 60 + seconds] *)
Definition total_seconds (hours minutes : Z) (seconds : float) : float :=
  PyFloat.add (PyFloat.of_Z (hours * 3600 + minutes * 60)) seconds.

(** What one event does to the three variables of the scan. *)
Definition apply_event (start_time : float) (st : scan_state) (ev : silence_event)
  : scan_state :=
  match ev with
  | SilenceStart t =>
      {| chunk_starts := match chunk_starts st with
                         | [] => [or_ start_time PyFloat.zero]
                         | _ => chunk_starts st
                         end;
         chunk_ends := chunk_ends st ++ [t];
         end_time := end_time st |}
  | SilenceEnd t =>
      {| chunk_starts := chunk_starts st ++ [t];
         chunk_ends := chunk_ends st;
         end_time := end_time st |}
  | DurationReport h m s =>
      {| chunk_starts := chunk_starts st;
         chunk_ends := chunk_ends st;
         end_time := Some (total_seconds h m s) |}
  end.

Definition apply_line_event (start_time : float) (st : scan_state)
           (ev : option silence_event) : scan_state :=
  match ev with
  | Some e => apply_event start_time st e
  | None => st
  end.

Definition is_start (ev : silence_event) : bool :=
  match ev with SilenceStart _ => true | _ => false end.

Definition is_end (ev : silence_event) : bool :=
  match ev with SilenceEnd _ => true | _ => false end.

Definition is_marker (ev : silence_event) : bool := is_start ev || is_end ev.

(** The silence markers of a stream, without its duration reports. *)
Definition markers (evs : list silence_event) : list silence_event :=
  filter is_marker evs.

Definition count_starts (evs : list silence_event) : nat :=
  List.length (filter is_start evs).

Definition count_ends (evs : list silence_event) : nat :=
  List.length (filter is_end evs).

(** Times of the silence-start markers, of the silence-end markers, and
    of all markers, each in stream order. *)
Fixpoint start_times (evs : list silence_event) : list float :=
  match evs with
  | [] => []
  | SilenceStart t :: rest => t :: start_times rest
  | _ :: rest => start_times rest
  end.

Fixpoint end_times (evs : list silence_event) : list float :=
  match evs with
  | [] => []
  | SilenceEnd t :: rest => t :: end_times rest
  | _ :: rest => end_times rest
  end.

Fixpoint marker_times (evs : list silence_event) : list float :=
  match evs with
  | [] => []
  | SilenceStart t :: rest => t :: marker_times rest
  | SilenceEnd t :: rest => t :: marker_times rest
  | DurationReport _ _ _ :: rest => marker_times rest
  end.

(** The total durations reported, in stream order. *)
Fixpoint reported (evs : list silence_event) : list float :=
  match evs with
  | [] => []
  | DurationReport h m s :: rest => total_seconds h m s :: reported rest
  | _ :: rest => reported rest
  end.

(** The first silence marker of a stream. *)
Definition first_marker (evs : list silence_event) : option silence_event :=
  hd_error (markers evs).

Definition starts_with_silence_end (evs : list silence_event) : bool :=
  match first_marker evs with
  | Some (SilenceEnd _) => true
  | _ => false
  end.

(** The end time in force after the stream: the last duration
    reported, or without any the [end_time] argument. *)
Definition reported_end (end_time : option float) (evs : list silence_event)
  : option float :=
  last (map Some (reported evs)) end_time.

(** The effective end time of a stream: the last duration reported,
    without any the [end_time] argument, and [10000000.] only when
    there is neither. *)
Definition effective_end (end_time : option float) (evs : list silence_event) : float :=
  match reported_end end_time evs with
  | Some e => e
  | None => sentinel
  end.

(** The start the scan puts before a stream that opens with a
    silence start. *)
Definition lead (start_time : float) (evs : list silence_event) : list float :=
  match first_marker evs with
  | Some (SilenceStart _) => [or_ start_time PyFloat.zero]
  | _ => []
  end.

(** The two sequences after the loop and its two patches. *)
Definition accumulated (start_time end_time : option float) (lines : list string)
  : result (list float * list float) :=
  let start := default_start start_time in
  st <- scan_lines start
          {| chunk_starts := []; chunk_ends := []; end_time := end_time |} lines ;;
  let starts := patch_starts start st in
  Ok (starts, patch_ends starts st).

(** Neighbouring markers are of different kinds. *)
Fixpoint alternating (ms : list silence_event) : bool :=
  match ms with
  | a :: (b :: _) as rest => negb (Bool.eqb (is_start a) (is_start b)) && alternating rest
  | _ => true
  end.

(** Each time is strictly before the next one. *)
Fixpoint increasing (ts : list float) : bool :=
  match ts with
  | a :: (b :: _) as rest => PyFloat.ltb a b && increasing rest
  | _ => true
  end.

(** Equal as numbers: the same float, or two zeros. *)
Definition same_number (x y : float) : Prop :=
  x = y \/ (PyFloat.truthy x = false /\ PyFloat.truthy y = false).

(** Markers in rounds of a silence end followed by a silence start. *)
Inductive end_start_rounds : list silence_event -> Prop :=
| rounds_nil : end_start_rounds []
| rounds_cons (a b : float) (ms : list silence_event) :
    end_start_rounds ms ->
    end_start_rounds (SilenceEnd a :: SilenceStart b :: ms).

(** An interval whose start is strictly before its end. *)
Definition proper (chunk : float * float) : Prop :=
  PyFloat.ltb (fst chunk) (snd chunk) = true.

(* ================================================================== *)
(** * Reading a trace *)

(** The commands launched, in order. *)
Fixpoint launched (tr : list event) : list command :=
  match tr with
  | [] => []
  | Popen cmd_line _ :: rest => cmd_line :: launched rest
  | _ :: rest => launched rest
  end.

(** The texts the script passes to [sys.stderr.write] (lines 65 and
    158), in order.  Log records are not counted here; what they add
    to the stream is in [stderr_stream] below. *)
Fixpoint stderr_writes (tr : list event) : list string :=
  match tr with
  | [] => []
  | StderrWrite text :: rest => text :: stderr_writes rest
  | _ :: rest => stderr_writes rest
  end.

(** The file name of chunk [i]. *)
Definition out_name (rt : runtime) (out_pattern : string) (i : nat) : string :=
  match str_format rt out_pattern i with
  | Ok name => name
  | Err _ => EmptyString
  end.

(** The metadata entries of the chunks numbered from [i] on. *)
Fixpoint entries (rt : runtime) (out_pattern : string) (i : nat)
         (chunks : list (float * float)) : list dict :=
  match chunks with
  | [] => []
  | (a, b) :: rest =>
      chunk_entry (out_name rt out_pattern i) a b :: entries rt out_pattern (S i) rest
  end.

(** The extraction commands of the chunks numbered from [i] on. *)
Fixpoint extractions (rt : runtime) (in_filename out_pattern : string) (padding : float)
         (i : nat) (chunks : list (float * float)) : list command :=
  match chunks with
  | [] => []
  | (a, b) :: rest =>
      Extract in_filename a (PyFloat.sub b a)
              (if PyFloat.ltb PyFloat.zero padding then Some padding else None)
              (out_name rt out_pattern i)
      :: extractions rt in_filename out_pattern padding (S i) rest
  end.

(** The file system lets every directory be made and every file be
    opened for writing. *)
Definition filesystem_ok (rt : runtime) : Prop :=
  (forall path tr, fst (_makedirs rt path tr) = Ok tt) /\
  (forall path tr, open_w rt tr path = None).

(** Where the script decodes the output of an extraction, the output
    is UTF-8: that is for a child that returns a status other than
    zero, and not in verbose mode, where the output is not piped. *)
Definition failures_readable (rt : runtime) (verbose : bool) : Prop :=
  verbose = false ->
  forall tr cmd_line,
    returncode (wait rt tr cmd_line) <> 0 ->
    exists text, stderr_bytes (wait rt tr cmd_line) = Utf8 text.

(** The pattern formats with every index. *)
Definition pattern_ok (rt : runtime) (out_pattern : string) : Prop :=
  forall i, exists name, str_format rt out_pattern i = Ok name.

Fixpoint all_digits (s : string) : bool :=
  match s with
  | EmptyString => true
  | String c s' => PyFloat.is_digit c && all_digits s'
  end.

(** Decimal text with four decimals: an optional minus sign, digits,
    a point, four digits. *)
Definition fixed4 (s : string) : bool :=
  let body := match s with
              | String "-" rest => rest
              | _ => s
              end in
  match PyFloat.split_point body with
  | (i, Some f) =>
      negb (String.length i =? 0)%nat && all_digits i &&
      (String.length f =? 4)%nat && all_digits f
  | (_, None) => false
  end.

(** The metadata entry of an interval: filename, start, end and
    duration, the three numbers formatted with four decimals, the
    duration being the float difference of end and start. *)
Definition record_of (entry : dict) (chunk : float * float) : Prop :=
  exists name,
    entry = [("filename", name);
             ("start", PyFloat.format_04f (fst chunk));
             ("end", PyFloat.format_04f (snd chunk));
             ("duration", PyFloat.format_04f (PyFloat.sub (snd chunk) (fst chunk)))].

(** A runtime for examples: an engine answering with [engine], a file
    system without failures, and file names made of the pattern and
    the index. *)
Definition example_runtime (engine : list event -> command -> completed) : runtime :=
  {| wait := engine;
     os_makedirs := fun _ _ => None;
     os_path_isdir := fun _ _ => true;
     open_w := fun _ _ => None;
     str_format := fun pattern i => Ok (pattern ++ PyFloat.decimal (Z.of_nat i))%string |}.

(** An engine whose analysis fails with status 1. *)
Definition failing_analysis (tr : list event) (cmd_line : command) : completed :=
  match cmd_line with
  | SilenceDetect _ _ _ _ _ => {| returncode := 1; stderr_bytes := Utf8 "no such file" |}
  | Extract _ _ _ _ _ => {| returncode := 0; stderr_bytes := Utf8 "" |}
  end.

(** An engine whose extractions all fail with status 1. *)
Definition failing_extraction (tr : list event) (cmd_line : command) : completed :=
  match cmd_line with
  | SilenceDetect _ _ _ _ _ => {| returncode := 0; stderr_bytes := Utf8 "" |}
  | Extract _ _ _ _ _ => {| returncode := 1; stderr_bytes := Utf8 "disk full" |}
  end.

(** An engine whose analysis fails with status 1 and leaves bytes
    that are no UTF-8. *)
Definition undecodable_analysis (tr : list event) (cmd_line : command) : completed :=
  match cmd_line with
  | SilenceDetect _ _ _ _ _ => {| returncode := 1; stderr_bytes := NotUtf8 |}
  | Extract _ _ _ _ _ => {| returncode := 0; stderr_bytes := Utf8 "" |}
  end.

(** An engine whose extractions fail with status 1 and leave bytes
    that are no UTF-8. *)
Definition undecodable_extraction (tr : list event) (cmd_line : command) : completed :=
  match cmd_line with
  | SilenceDetect _ _ _ _ _ => {| returncode := 0; stderr_bytes := Utf8 "" |}
  | Extract _ _ _ _ _ => {| returncode := 1; stderr_bytes := NotUtf8 |}
  end.

(* ================================================================== *)
(** * What a match consumes *)

(** [matches r s g s' g']: the pattern [r] matches a head of [s],
    leaving [s'], and turns the groups [g] into [g']. *)
Inductive matches : Re.regex -> string -> Re.groups -> string -> Re.groups -> Prop :=
| matches_lit (p s s' : string) (g : Re.groups) :
    Re.strip_prefix p s = Some s' ->
    matches (Re.Lit p) s g s' g
| matches_rep (cls : ascii -> bool) (lo : nat) (hi : option nat) (s : string)
              (g : Re.groups) (i : nat) :
    (lo <= i)%nat -> (i <= Re.run cls s)%nat ->
    (forall h, hi = Some h -> (i <= h)%nat) ->
    matches (Re.Rep cls lo hi) s g (Re.drop i s) g
| matches_cat (r1 r2 : Re.regex) (s s1 s2 : string) (g g1 g2 : Re.groups) :
    matches r1 s g s1 g1 ->
    matches r2 s1 g1 s2 g2 ->
    matches (Re.Cat r1 r2) s g s2 g2
| matches_grp (name : option string) (r : Re.regex) (s s' : string) (g g' : Re.groups) :
    matches r s g s' g' ->
    matches (Re.Grp name r) s g s'
            (Re.bind_group name (Re.take (String.length s - String.length s') s) g')
| matches_eol (s : string) (g : Re.groups) :
    matches Re.Eol s g s g.

(** A number as [float] reads it: digits, at most one point among
    them, at least one digit. *)
Definition numeral (text : string) : Prop :=
  exists i p f,
    text = (i ++ p ++ f)%string /\
    all_digits i = true /\ all_digits f = true /\
    (p = EmptyString \/ p = ".") /\
    (0 < String.length i + String.length f)%nat.

(* ================================================================== *)
(** * Further vocabulary *)

(** The times of a list of intervals, each start followed by its end. *)
Fixpoint flatten (chunks : list (float * float)) : list float :=
  match chunks with
  | [] => []
  | (a, b) :: rest => a :: b :: flatten rest
  end.

(** [x1; y1; x2; y2; ...], ending with the last [x] when there is one
    [x] more than there are [y]. *)
Fixpoint interleave (xs ys : list float) : list float :=
  match xs, ys with
  | x :: xs', y :: ys' => x :: y :: interleave xs' ys'
  | x :: _, [] => [x]
  | [], _ => []
  end.

(** The number of points in a text. *)
Fixpoint points (s : string) : nat :=
  match s with
  | EmptyString => 0
  | String c s' => (if Ascii.eqb c "." then 1 else 0) + points s'
  end.

(** Texts of digits and points only. *)
Fixpoint digits_and_points (s : string) : bool :=
  match s with
  | EmptyString => true
  | String c s' => Re.digit_or_point c && digits_and_points s'
  end.

(** The text the number pattern accepts: digits, at least one, then
    possibly a point, then digits again. *)
Definition number_text (text : string) : Prop :=
  exists i p f,
    text = (i ++ p ++ f)%string /\
    all_digits i = true /\ i <> EmptyString /\
    (p = EmptyString \/ p = ".") /\
    all_digits f = true.

(** The line feed, as a text. *)
Definition newline : string := String "010" EmptyString.

(** The directories [os.makedirs] was called on, the files opened for
    writing and the documents dumped, each in order. *)
Fixpoint made (tr : list event) : list string :=
  match tr with
  | [] => []
  | Makedirs path :: rest => path :: made rest
  | _ :: rest => made rest
  end.

Fixpoint opened (tr : list event) : list string :=
  match tr with
  | [] => []
  | OpenW path :: rest => path :: opened rest
  | _ :: rest => opened rest
  end.

Fixpoint dumps (tr : list event) : list (string * list dict) :=
  match tr with
  | [] => []
  | JsonDump path document :: rest => (path, document) :: dumps rest
  | _ :: rest => dumps rest
  end.

(** Whether a logger whose level is [threshold] lets a record of
    level [l] through.  The module sets the level [INFO] (line 17), the
    command line's [-v] sets [DEBUG] (line 170). *)
Definition enabled (threshold l : level) : bool :=
  match threshold, l with
  | INFO, DEBUG => false
  | _, _ => true
  end.

(** What the script itself sends to the standard error stream, piece
    by piece: the texts of its [sys.stderr.write] calls and, through
    the handler that [logging.basicConfig] installs on line 15 with
    the format ['%(message)s'], the message of every record the logger
    lets through, with a line feed after it.  [cmdline] is
    [subprocess.list2cmdline] of a compiled command.  The output of a
    child that is not piped goes to the stream without passing through
    the script, and is not part of this. *)
Definition record_text (threshold l : level) (message : string) : list string :=
  if enabled threshold l then [(message ++ newline)%string] else [].

Fixpoint stderr_stream (cmdline : command -> string) (threshold : level)
         (tr : list event) : list string :=
  match tr with
  | [] => []
  | Log l message :: rest =>
      record_text threshold l message ++ stderr_stream cmdline threshold rest
  | LogCommand cmd_line :: rest =>
      record_text threshold DEBUG ("Running command: " ++ cmdline cmd_line)%string
        ++ stderr_stream cmdline threshold rest
  | StderrWrite text :: rest => text :: stderr_stream cmdline threshold rest
  | _ :: rest => stderr_stream cmdline threshold rest
  end.

(** What the loop sends to the stream for the chunks numbered from [i]
    on when no child's output is written: for every chunk the line
    with its file name and its three texts and, when the logger lets
    it through, the command line of its extraction. *)
Fixpoint progress (rt : runtime) (cmdline : command -> string) (threshold : level)
         (in_filename out_pattern : string) (padding : float) (i : nat)
         (chunks : list (float * float)) : list string :=
  match chunks with
  | [] => []
  | (a, b) :: rest =>
      let name := out_name rt out_pattern i in
      record_text threshold INFO
                  (name ++ ": start=" ++ PyFloat.format_04f a
                        ++ ", end=" ++ PyFloat.format_04f b
                        ++ ", duration=" ++ PyFloat.format_04f (PyFloat.sub b a))%string
        ++ record_text threshold DEBUG
             ("Running command: "
                ++ cmdline (Extract in_filename a (PyFloat.sub b a)
                                    (if PyFloat.ltb PyFloat.zero padding
                                     then Some padding else None) name))%string
        ++ progress rt cmdline threshold in_filename out_pattern padding (S i) rest
  end.

(** The directories of the files of the chunks numbered from [i] on,
    those that are not the empty path. *)
Fixpoint directories (rt : runtime) (out_pattern : string) (i : nat)
         (chunks : list (float * float)) : list string :=
  match chunks with
  | [] => []
  | _ :: rest =>
      match dirname (out_name rt out_pattern i) with
      | EmptyString => directories rt out_pattern (S i) rest
      | dir => dir :: directories rt out_pattern (S i) rest
      end
  end.

(** [entry[key]], when the key is there. *)
Fixpoint lookup (key : string) (entry : dict) : option string :=
  match entry with
  | [] => None
  | (k, v) :: rest => if String.eqb k key then Some v else lookup key rest
  end.

(** The entry tells of the extraction: the file it writes, where it
    starts in the input and how long it is. *)
Definition describes (entry : dict) (cmd_line : command) : Prop :=
  match cmd_line with
  | Extract _ ss t _ out_filename =>
      lookup "filename" entry = Some out_filename /\
      lookup "start" entry = Some (PyFloat.format_04f ss) /\
      lookup "duration" entry = Some (PyFloat.format_04f t)
  | SilenceDetect _ _ _ _ _ => False
  end.

(** A file system on which [os.makedirs] fails for the directory
    [bad] with [errno], and for no other. *)
Definition example_runtime_without (bad : string) (errno : Z)
           (engine : list event -> command -> completed) : runtime :=
  {| wait := engine;
     os_makedirs := fun _ path => if String.eqb path bad then Some errno else None;
     os_path_isdir := fun _ _ => false;
     open_w := fun _ _ => None;
     str_format := fun pattern i =>
                     Ok (pattern ++ PyFloat.decimal (Z.of_nat i) ++ "/a.wav")%string |}.

(** An engine whose analysis reports one silence, from 3.2 to 5
    seconds, in a recording of 8 seconds, and whose extractions
    succeed. *)
Definition example_engine (tr : list event) (cmd_line : command) : completed :=
  match cmd_line with
  | SilenceDetect _ _ _ _ _ =>
      {| returncode := 0;
         stderr_bytes :=
           Utf8 ("[silencedetect @ 0x55] silence_start: 3.2" ++ newline ++
                 "[silencedetect @ 0x55] silence_end: 5 | silence_duration: 1.8"
                 ++ newline ++
                 "size=N/A time=00:00:08.00 bitrate=N/A speed= 500x" ++ newline)%string |}
  | Extract _ _ _ _ _ => {| returncode := 0; stderr_bytes := Utf8 "" |}
  end.

(** An engine whose analysis prints a progress line with malformed
    seconds. *)
Definition example_engine_malformed (tr : list event) (cmd_line : command) : completed :=
  {| returncode := 0; stderr_bytes := Utf8 "size=N/A time=00:00:1.2.3 bitrate=N/A" |}.

(** The projections of a scan state, computed in a hypothesis. *)
Ltac project_state_in H := cbn [chunk_starts chunk_ends end_time] in H.

(** Rewriting what a trace shows along appended events, with the
    rewrite rules of the database [trace]. *)
Create Rewrite HintDb trace.

Ltac observe :=
  autorewrite with trace;
  cbn [launched stderr_writes made opened dumps stderr_stream app];
  rewrite ?app_nil_r.

(** The projections of a scan state, computed. *)
Ltac project_state := cbn [chunk_starts chunk_ends end_time].

(* ================================================================== *)
(** * The text of a formatted float *)

Lemma string_of_uint_digits (d : Decimal.uint) :
  all_digits (NilEmpty.string_of_uint d) = true.
Proof.
  induction d; simpl; auto.
Qed.

Lemma decimal_digits (n : Z) :
  all_digits (PyFloat.decimal n) = true /\ PyFloat.decimal n <> EmptyString.
Proof.
  unfold PyFloat.decimal, NilZero.string_of_uint.
  destruct (N.to_uint (Z.to_N n)) eqn:E;
    try (split; [apply string_of_uint_digits|discriminate]).
  split; [reflexivity|discriminate].
Qed.

Lemma pad4_decimal_checked :
  forallb (fun k => let s := PyFloat.pad4 (PyFloat.decimal (Z.of_nat k)) in
                    (String.length s =? 4)%nat && all_digits s)
          (seq 0 (Z.to_nat 10000)) = true.
Proof.
  vm_compute. reflexivity.
Qed.

Lemma pad4_decimal (r : Z) :
  0 <= r < 10000 ->
  String.length (PyFloat.pad4 (PyFloat.decimal r)) = 4%nat /\
  all_digits (PyFloat.pad4 (PyFloat.decimal r)) = true.
Proof.
  intros H.
  pose proof (proj1 (forallb_forall _ _) pad4_decimal_checked (Z.to_nat r)) as C.
  cbv beta zeta in C. rewrite Z2Nat.id in C by lia.
  apply andb_true_iff in C; [|apply in_seq; lia].
  destruct C as [C1 C2]. split; [apply Nat.eqb_eq; exact C1|exact C2].
Qed.

Lemma split_point_digits (i f : string) :
  all_digits i = true ->
  PyFloat.split_point (i ++ String "." f) = (i, Some f).
Proof.
  induction i as [|c i IH]; intros H; [reflexivity|].
  simpl in H. apply andb_true_iff in H. destruct H as [Hc Hi].
  cbn [append PyFloat.split_point].
  destruct (Ascii.eqb_spec c ".") as [->|_]; [discriminate|].
  rewrite (IH Hi). reflexivity.
Qed.

Lemma fixed4_unsigned (i f : string) :
  all_digits i = true -> i <> EmptyString ->
  all_digits f = true -> String.length f = 4%nat ->
  fixed4 (i ++ String "." f) = true /\ fixed4 (String "-" (i ++ String "." f)) = true.
Proof.
  intros Hi Hne Hf Hl.
  assert (B : (let '(i', f') := PyFloat.split_point (i ++ String "." f) in
               match f' with
               | Some f0 => negb (String.length i' =? 0)%nat && all_digits i' &&
                            (String.length f0 =? 4)%nat && all_digits f0
               | None => false
               end) = true).
  { rewrite (split_point_digits i f Hi). rewrite Hi, Hf, Hl.
    destruct i; [congruence|reflexivity]. }
  split; [|exact B].
  destruct i as [|c i]; [congruence|].
  unfold fixed4. cbn [append] in *.
  simpl in Hi. apply andb_true_iff in Hi. destruct Hi as [Hc _].
  destruct c as [[] [] [] [] [] [] [] []]; try discriminate Hc; exact B.
Qed.

(** A finite float formats as decimal text with four decimals. *)
Lemma format_04f_fixed4 (x : float) :
  PyFloat.is_finite x = true -> fixed4 (PyFloat.format_04f x) = true.
Proof.
  destruct x as [s|s| |s m e]; try discriminate; intros _.
  - destruct s; reflexivity.
  - unfold PyFloat.format_04f.
    set (n := PyFloat.ten_thousandths m e).
    destruct (decimal_digits (n / 10000)) as [D1 D2].
    destruct (pad4_decimal (n mod 10000)) as [P1 P2];
      [apply Z.mod_pos_bound; lia|].
    destruct (fixed4_unsigned _ _ D1 D2 P2 P1) as [U1 U2].
    destruct s; [exact U2|exact U1].
Qed.


(* ================================================================== *)
(** * The matcher *)

Lemma backoff_some {R : Type} (k : nat -> option R) (lo n : nat) (r : R) :
  Re.backoff k lo n = Some r ->
  exists i, (lo <= i)%nat /\ (i <= n)%nat /\ k i = Some r.
Proof.
  induction n as [|n IH]; simpl.
  - destruct (Nat.ltb_spec 0 lo) as [L|L]; [discriminate|].
    destruct (k 0%nat) eqn:K; [|discriminate].
    intros H; inversion H; subst. exists 0%nat. repeat split; [lia|lia|exact K].
  - destruct (Nat.ltb_spec (S n) lo) as [L|L]; [discriminate|].
    destruct (k (S n)) eqn:K.
    + intros H; inversion H; subst. exists (S n). repeat split; [lia|lia|exact K].
    + intros H. destruct (IH H) as (i & H1 & H2 & H3).
      exists i. repeat split; [lia|lia|exact H3].
Qed.

(** A successful run of the matcher went through a match of the
    pattern. *)
Lemma exec_sound {R : Type} (r : Re.regex) :
  forall (s : string) (g : Re.groups) (k : string -> Re.groups -> option R) (res : R),
    Re.exec r s g k = Some res ->
    exists s' g', matches r s g s' g' /\ k s' g' = Some res.
Proof.
  induction r as [p|cls lo hi|r1 IH1 r2 IH2|name r IH|]; intros s g k res H; simpl in H.
  - destruct (Re.strip_prefix p s) as [s'|] eqn:E; [|discriminate].
    exists s', g. split; [constructor; exact E|exact H].
  - apply backoff_some in H. destruct H as (i & H1 & H2 & H3).
    exists (Re.drop i s), g. split; [|exact H3].
    constructor; [exact H1| |].
    + destruct hi; lia.
    + intros h ->. lia.
  - apply IH1 in H. destruct H as (s1 & g1 & M1 & H).
    apply IH2 in H. destruct H as (s2 & g2 & M2 & H).
    exists s2, g2. split; [econstructor; eassumption|exact H].
  - apply IH in H. destruct H as (s' & g' & M & H).
    eexists s', _. split; [constructor; exact M|exact H].
  - exists s, g. split; [constructor|].
    destruct s as [|c [|d s]]; [exact H| |discriminate].
    destruct (Ascii.eqb c "010"); [exact H|discriminate].
Qed.

Lemma search_sound (r : Re.regex) (s : string) (m : Re.groups) :
  Re.search r s = Some m ->
  exists s0 s', matches r s0 [] s' m.
Proof.
  induction s as [|c s IH]; simpl; intros H.
  - destruct (Re.match_here r EmptyString) as [g|] eqn:E; [|discriminate].
    inversion H; subst. apply exec_sound in E. destruct E as (s' & g' & M & E).
    inversion E; subst. eauto.
  - destruct (Re.match_here r (String c s)) as [g|] eqn:E; [|exact (IH H)].
    inversion H; subst. apply exec_sound in E. destruct E as (s' & g' & M & E).
    inversion E; subst. eauto.
Qed.

Lemma drop_length (i : nat) (s : string) :
  String.length (Re.drop i s) = (String.length s - i)%nat.
Proof.
  revert s; induction i as [|i IH]; intros [|c s]; simpl; auto; lia.
Qed.

Lemma run_length (cls : ascii -> bool) (s : string) :
  (Re.run cls s <= String.length s)%nat.
Proof.
  induction s as [|c s IH]; simpl; [lia|]. destruct (cls c); lia.
Qed.

Lemma take_drop (i j : nat) (s : string) :
  Re.take (i + j) s = (Re.take i s ++ Re.take j (Re.drop i s))%string.
Proof.
  revert s; induction i as [|i IH]; intros s; simpl.
  - destruct j, s; reflexivity.
  - destruct s as [|c s]; simpl; [destruct j; reflexivity|].
    rewrite IH. reflexivity.
Qed.

Lemma take_digits (i : nat) (s : string) :
  (i <= Re.run Re.digit s)%nat ->
  String.length (Re.take i s) = i /\ all_digits (Re.take i s) = true.
Proof.
  revert s; induction i as [|i IH]; intros s H.
  - destruct s; split; reflexivity.
  - destruct s as [|c s]; simpl in H; [lia|].
    unfold Re.digit in H. destruct (PyFloat.is_digit c) eqn:C; [|lia].
    destruct (IH s) as [L A]; [unfold Re.digit; lia|].
    split; simpl; [congruence|]. rewrite C. exact A.
Qed.

Lemma take_point (j : nat) (s : string) :
  (j <= 1)%nat -> (j <= Re.run Re.point s)%nat ->
  Re.take j s = EmptyString \/ Re.take j s = ".".
Proof.
  intros H1 H2. destruct j as [|[|j]]; [left; destruct s; reflexivity| |lia].
  right. destruct s as [|c s]; simpl in H2; [lia|].
  unfold Re.point in H2. destruct (Ascii.eqb_spec c "."); [subst; reflexivity|lia].
Qed.

(** The text the number pattern consumes is a numeral. *)
Lemma number_re_numeral (s s' : string) (g g' : Re.groups) :
  matches number_re s g s' g' ->
  g' = g /\ numeral (Re.take (String.length s - String.length s') s).
Proof.
  unfold number_re, Re.plus, Re.opt, Re.star.
  intros M.
  inversion M as [| |? ? ? s1 ? ? g1 ? M1 M2| |]; subst; clear M.
  inversion M1 as [|? ? ? ? ? i Hi1 Hi2 Hi3| | |]; subst; clear M1.
  inversion M2 as [| | |? ? ? ? ? g2 M3|]; subst; clear M2.
  inversion M3 as [| |? ? ? s2 ? ? g3 ? M4 M5| |]; subst; clear M3.
  inversion M4 as [|? ? ? ? ? j Hj1 Hj2 Hj3| | |]; subst; clear M4.
  inversion M5 as [|? ? ? ? ? k Hk1 Hk2 Hk3| | |]; subst; clear M5.
  split; [reflexivity|].
  pose proof (run_length Re.digit s) as R1.
  pose proof (run_length Re.point (Re.drop i s)) as R2.
  pose proof (run_length Re.digit (Re.drop j (Re.drop i s))) as R3.
  pose proof (Hj3 1%nat eq_refl) as Hj4.
  rewrite !drop_length in *.
  replace (String.length s - (String.length s - i - j - k))%nat
    with (i + (j + k))%nat by lia.
  rewrite take_drop, take_drop.
  destruct (take_digits i s Hi2) as [L1 D1].
  destruct (take_digits k _ Hk2) as [L3 D3].
  exists (Re.take i s), (Re.take j (Re.drop i s)), (Re.take k (Re.drop j (Re.drop i s))).
  repeat split; auto.
  - apply take_point; assumption.
  - lia.
Qed.

Lemma digits_value_app (a b : string) :
  all_digits a = true -> all_digits b = true ->
  forall acc, exists n,
      PyFloat.digits_value acc a = Some n /\
      exists n', PyFloat.digits_value n b = Some n'.
Proof.
  intros Ha Hb.
  assert (D : forall t, all_digits t = true ->
                        forall acc, exists n, PyFloat.digits_value acc t = Some n).
  { induction t as [|c t IH]; intros H acc; simpl in *; [eauto|].
    apply andb_true_iff in H. destruct H as [Hc Ht]. rewrite Hc. apply IH. exact Ht. }
  intros acc. destruct (D a Ha acc) as [n Hn]. exists n. split; [exact Hn|apply D; exact Hb].
Qed.

Lemma split_point_plain (i : string) :
  all_digits i = true -> PyFloat.split_point i = (i, None).
Proof.
  induction i as [|c i IH]; intros H; [reflexivity|].
  simpl in H. apply andb_true_iff in H. destruct H as [Hc Hi].
  cbn [PyFloat.split_point].
  destruct (Ascii.eqb_spec c ".") as [->|_]; [discriminate|].
  rewrite (IH Hi). reflexivity.
Qed.

(** [float] reads every numeral. *)
Lemma float_numeral (text : string) :
  numeral text -> exists x, float_ text = Ok x.
Proof.
  intros (i & p & f & -> & Di & Df & Hp & Hl).
  unfold float_, PyFloat.of_string.
  destruct (digits_value_app i f Di Df 0) as (a & Ha & n & Hn).
  destruct Hp as [-> | ->].
  - replace (i ++ "" ++ f)%string with (i ++ f)%string by reflexivity.
    assert (Dif : all_digits (i ++ f) = true).
    { clear -Di Df. induction i as [|c i IH]; simpl in *; [exact Df|].
      apply andb_true_iff in Di. destruct Di as [Hc Hi]. rewrite Hc. auto. }
    rewrite (split_point_plain _ Dif). cbn [String.length].
    assert (Lif : String.length (i ++ f) = (String.length i + String.length f)%nat).
    { clear. induction i; simpl; congruence. }
    rewrite Nat.add_0_r, Lif.
    destruct (Nat.eqb_spec (String.length i + String.length f) 0); [lia|].
    destruct (digits_value_app (i ++ f) "" Dif eq_refl 0) as (b & Hb & _).
    rewrite Hb. simpl. eauto.
  - change (i ++ "." ++ f)%string with (i ++ String "." f)%string.
    rewrite (split_point_digits i f Di).
    destruct (Nat.eqb_spec (String.length i + String.length f) 0); [lia|].
    rewrite Ha, Hn. eauto.
Qed.

Lemma int_digits (text : string) :
  all_digits text = true -> text <> EmptyString -> exists n, int_ text = Ok n.
Proof.
  intros D N. unfold int_.
  destruct (digits_value_app text "" D eq_refl 0) as (n & Hn & _).
  destruct text; [congruence|]. rewrite Hn. eauto.
Qed.

(** The text of [count] digits that [[0-9]{count}] consumes. *)
Lemma times_digits (count : nat) (s s' : string) (g g' : Re.groups) :
  matches (Re.times count Re.digit) s g s' g' ->
  g' = g /\
  all_digits (Re.take (String.length s - String.length s') s) = true /\
  String.length (Re.take (String.length s - String.length s') s) = count.
Proof.
  unfold Re.times. intros M.
  inversion M as [|? ? ? ? ? i Hi1 Hi2 Hi3| | |]; subst; clear M.
  pose proof (Hi3 count eq_refl) as Hi4.
  pose proof (run_length Re.digit s) as R.
  rewrite drop_length.
  replace (String.length s - (String.length s - i))%nat with i by lia.
  destruct (take_digits i s Hi2) as [L D].
  repeat split; [exact D|lia].
Qed.

(** A line the silence-start pattern matches carries a time. *)
Lemma silence_start_time (line : string) (m : Re.groups) :
  Re.search silence_start_re line = Some m ->
  exists t, float_ (Re.group "start" m) = Ok t.
Proof.
  intros H. apply search_sound in H. destruct H as (s0 & s' & M).
  unfold silence_start_re, Re.named in M.
  inversion M as [| |? ? ? s1 ? ? g1 ? M1 M2| |]; subst; clear M.
  inversion M1; subst; clear M1.
  inversion M2 as [| |? ? ? s2 ? ? g2 ? M3 M4| |]; subst; clear M2.
  inversion M4; subst; clear M4.
  inversion M3 as [| | |? ? ? ? ? g3 M5|]; subst; clear M3.
  destruct (number_re_numeral _ _ _ _ M5) as [-> N].
  cbn. apply float_numeral. exact N.
Qed.

(** A line the silence-end pattern matches carries a time. *)
Lemma silence_end_time (line : string) (m : Re.groups) :
  Re.search silence_end_re line = Some m ->
  exists t, float_ (Re.group "end" m) = Ok t.
Proof.
  intros H. apply search_sound in H. destruct H as (s0 & s' & M).
  unfold silence_end_re, Re.named in M.
  inversion M as [| |? ? ? s1 ? ? g1 ? M1 M2| |]; subst; clear M.
  inversion M1; subst; clear M1.
  inversion M2 as [| |? ? ? s2 ? ? g2 ? M3 M4| |]; subst; clear M2.
  inversion M4; subst; clear M4.
  inversion M3 as [| | |? ? ? ? ? g3 M5|]; subst; clear M3.
  destruct (number_re_numeral _ _ _ _ M5) as [-> N].
  cbn. apply float_numeral. exact N.
Qed.

(** A line the duration pattern matches carries hours and minutes. *)
Lemma total_duration_hours_minutes (line : string) (m : Re.groups) :
  Re.search total_duration_re line = Some m ->
  exists h mi, int_ (Re.group "hours" m) = Ok h /\ int_ (Re.group "minutes" m) = Ok mi.
Proof.
  intros H. apply search_sound in H. destruct H as (s0 & s' & M).
  unfold total_duration_re, Re.named in M.
  repeat match goal with
         | M : matches (Re.Cat _ _) _ _ _ _ |- _ => inversion M; subst; clear M
         | M : matches (Re.Lit _) _ _ _ _ |- _ => inversion M; subst; clear M
         | M : matches (Re.plus _) _ _ _ _ |- _ => inversion M; subst; clear M
         | M : matches (Re.Grp _ _) _ _ _ _ |- _ => inversion M; subst; clear M
         end.
  repeat match goal with
         | M : matches (Re.times _ Re.digit) _ _ _ _ |- _ =>
             let E := fresh "E" in
             let D := fresh "D" in
             let L := fresh "L" in
             destruct (times_digits _ _ _ _ _ M) as (E & D & L); subst; clear M
         | M : matches (Re.times _ Re.digit_or_point) _ _ _ _ |- _ =>
             inversion M; subst; clear M
         end.
  cbn [Re.bind_group Re.group String.eqb Ascii.eqb Bool.eqb].
  match goal with
  | D1 : all_digits ?a = true, L1 : String.length ?a = 2%nat,
    D2 : all_digits ?b = true, L2 : String.length ?b = 2%nat |- _ =>
      destruct (int_digits a D1) as [x Hx]; [intros Z; rewrite Z in L1; discriminate|];
      destruct (int_digits b D2) as [y Hy]; [intros Z; rewrite Z in L2; discriminate|]
  end.
  cbn. eauto.
Qed.

(** Classifying a line raises only for a duration report whose seconds
    [float] cannot read. *)
Lemma classify_raises (line : string) (e : exn) :
  classify line = Err e ->
  Re.search silence_start_re line = None /\
  Re.search silence_end_re line = None /\
  exists m, Re.search total_duration_re line = Some m /\
            float_ (Re.group "seconds" m) = Err e.
Proof.
  unfold classify.
  destruct (Re.search silence_start_re line) as [m|] eqn:S.
  { destruct (silence_start_time _ _ S) as [t ->]. discriminate. }
  destruct (Re.search silence_end_re line) as [m|] eqn:E.
  { destruct (silence_end_time _ _ E) as [t ->]. discriminate. }
  destruct (Re.search total_duration_re line) as [m|] eqn:D; [|discriminate].
  destruct (total_duration_hours_minutes _ _ D) as (h & mi & -> & ->). simpl.
  destruct (float_ (Re.group "seconds" m)) as [x|e'] eqn:F; [discriminate|].
  intros H; inversion H; subst. eauto.
Qed.

(** A stream whose duration reports all have seconds that [float]
    reads classifies as a whole. *)
Lemma classify_all_readable (lines : list string) :
  (forall line m,
      In line lines ->
      Re.search total_duration_re line = Some m ->
      exists x, float_ (Re.group "seconds" m) = Ok x) ->
  exists evs, classify_all lines = Ok evs.
Proof.
  induction lines as [|line rest IH]; intros H; [exists []; reflexivity|].
  destruct IH as [evs E]; [intros l m Hl; apply H; right; exact Hl|].
  simpl. rewrite E.
  destruct (classify line) as [ev|e] eqn:C; [simpl; eauto|].
  destruct (classify_raises _ _ C) as (_ & _ & m & D & F).
  destruct (H line m (or_introl eq_refl) D) as [x Hx]. congruence.
Qed.

(* ================================================================== *)
(** * The scan, event by event *)

(** The loop body does to the state what the event of the line says,
    and raises when classifying the line raises. *)
Lemma scan_line_classify (start_time : float) (st : scan_state) (line : string) :
  scan_line start_time st line =
  (ev <- classify line ;; Ok (apply_line_event start_time st ev)).
Proof.
  unfold scan_line, classify.
  destruct (Re.search silence_start_re line) as [m|].
  - destruct (float_ (Re.group "start" m)) as [t|e]; simpl; [|reflexivity].
    destruct (chunk_starts st); reflexivity.
  - destruct (Re.search silence_end_re line) as [m|].
    + destruct (float_ (Re.group "end" m)); reflexivity.
    + destruct (Re.search total_duration_re line) as [m|]; [|reflexivity].
      destruct (int_ (Re.group "hours" m)); simpl; [|reflexivity].
      destruct (int_ (Re.group "minutes" m)); simpl; [|reflexivity].
      destruct (float_ (Re.group "seconds" m)); reflexivity.
Qed.

(** A stream whose lines all classify is scanned without an exception,
    to the state its events fold to. *)
Lemma scan_lines_events (start_time : float) (lines : list string) :
  forall (st : scan_state) (evs : list silence_event),
    classify_all lines = Ok evs ->
    scan_lines start_time st lines = Ok (fold_left (apply_event start_time) evs st).
Proof.
  induction lines as [|line rest IH]; intros st evs H; simpl in *.
  - inversion H; reflexivity.
  - rewrite scan_line_classify.
    destruct (classify line) as [ev|e]; simpl in *; [|discriminate].
    destruct (classify_all rest) as [evs'|e]; simpl in *; [|discriminate].
    inversion H; subst; clear H.
    destruct ev as [ev|]; simpl; apply IH; reflexivity.
Qed.

(** A stream with a line that does not classify makes the scan raise. *)
Lemma scan_lines_raises (start_time : float) (lines : list string) :
  forall (st : scan_state) (e : exn),
    classify_all lines = Err e ->
    exists e', scan_lines start_time st lines = Err e'.
Proof.
  induction lines as [|line rest IH]; intros st e H; simpl in *.
  - discriminate.
  - rewrite scan_line_classify.
    destruct (classify line) as [ev|e1]; simpl in *; [|eexists; reflexivity].
    destruct (classify_all rest) as [evs'|e2] eqn:E; simpl in *; [discriminate|].
    eapply IH; reflexivity.
Qed.

Lemma last_app_singleton {A : Type} (l : list A) (x d : A) : last (l ++ [x]) d = x.
Proof.
  induction l as [|a l IH]; [reflexivity|].
  simpl. destruct (l ++ [x]) eqn:E; [destruct l; discriminate|exact IH].
Qed.

Lemma last_cons_default {A : Type} (l : list A) (x d : A) : last (x :: l) d = last l x.
Proof.
  revert x d; induction l as [|a l IH]; intros x d; [reflexivity|].
  change (last (x :: a :: l) d) with (last (a :: l) d).
  rewrite (IH a d), (IH a x). reflexivity.
Qed.

(** Once [chunk_starts] is not empty, every event appends its time to
    the sequence of its kind. *)
Lemma fold_events_started (start_time : float) (evs : list silence_event) :
  forall st : scan_state,
    chunk_starts st <> [] ->
    fold_left (apply_event start_time) evs st =
    {| chunk_starts := chunk_starts st ++ end_times evs;
       chunk_ends := chunk_ends st ++ start_times evs;
       end_time := reported_end (end_time st) evs |}.
Proof.
  unfold reported_end.
  induction evs as [|ev rest IH]; intros st Hne.
  - simpl. rewrite !app_nil_r. destruct st; reflexivity.
  - destruct ev as [t|t|h m s]; simpl fold_left.
    + rewrite IH; simpl.
      * destruct (chunk_starts st) eqn:E; [congruence|].
        rewrite <- app_assoc. reflexivity.
      * destruct (chunk_starts st); [congruence|discriminate].
    + rewrite IH; simpl.
      * rewrite <- app_assoc. reflexivity.
      * destruct (chunk_starts st); discriminate.
    + rewrite IH by exact Hne.
      cbn [apply_event chunk_starts chunk_ends end_time reported map].
      rewrite last_cons_default. reflexivity.
Qed.

(** From the empty [chunk_starts] of the beginning: a stream that opens
    with a silence start gets the start time put in front. *)
Lemma fold_events_fresh (start_time : float) (evs : list silence_event) :
  forall st : scan_state,
    chunk_starts st = [] ->
    fold_left (apply_event start_time) evs st =
    {| chunk_starts := lead start_time evs ++ end_times evs;
       chunk_ends := chunk_ends st ++ start_times evs;
       end_time := reported_end (end_time st) evs |}.
Proof.
  unfold reported_end, lead, first_marker, markers.
  induction evs as [|ev rest IH]; intros st He.
  - simpl. rewrite app_nil_r. destruct st; simpl in *; subst; reflexivity.
  - destruct ev as [t|t|h m s]; simpl fold_left.
    + rewrite fold_events_started; simpl.
      * rewrite He. simpl. rewrite <- app_assoc. reflexivity.
      * rewrite He. discriminate.
    + rewrite fold_events_started; simpl.
      * rewrite He. reflexivity.
      * rewrite He. discriminate.
    + rewrite IH by exact He.
      cbn [apply_event chunk_starts chunk_ends end_time reported map filter is_marker
           is_start is_end orb].
      rewrite last_cons_default. reflexivity.
Qed.

(** The intervals of a stream whose lines all classify, from the
    events alone. *)
Lemma chunk_times_events (start_time end_time : option float) (lines : list string)
      (evs : list silence_event) :
  classify_all lines = Ok evs ->
  chunk_times_of_lines start_time end_time lines =
  Ok (pair_chunks (default_start start_time)
        {| chunk_starts := lead (default_start start_time) evs ++ end_times evs;
           chunk_ends := start_times evs;
           end_time := reported_end end_time evs |}).
Proof.
  intros H. unfold chunk_times_of_lines.
  rewrite (scan_lines_events _ _ _ _ H). simpl.
  rewrite fold_events_fresh by reflexivity. reflexivity.
Qed.

Lemma start_times_length (evs : list silence_event) :
  List.length (start_times evs) = count_starts evs.
Proof.
  unfold count_starts.
  induction evs as [|[t|t|h m s] rest IH]; simpl; congruence.
Qed.

Lemma end_times_length (evs : list silence_event) :
  List.length (end_times evs) = count_ends evs.
Proof.
  unfold count_ends.
  induction evs as [|[t|t|h m s] rest IH]; simpl; congruence.
Qed.

(** What the first marker says about the two sequences of times. *)
Lemma first_marker_none (evs : list silence_event) :
  first_marker evs = None -> start_times evs = [] /\ end_times evs = [].
Proof.
  unfold first_marker, markers.
  induction evs as [|[t|t|h m s] rest IH]; simpl; intros H;
    try discriminate; auto.
Qed.

Lemma first_marker_start (evs : list silence_event) (t : float) :
  first_marker evs = Some (SilenceStart t) ->
  exists rest, start_times evs = t :: rest.
Proof.
  unfold first_marker, markers.
  induction evs as [|[u|u|h m s] rest IH]; simpl; intros H; try discriminate.
  - inversion H; subst. eexists; reflexivity.
  - auto.
Qed.

Lemma first_marker_end (evs : list silence_event) (t : float) :
  first_marker evs = Some (SilenceEnd t) ->
  exists rest, end_times evs = t :: rest.
Proof.
  unfold first_marker, markers.
  induction evs as [|[u|u|h m s] rest IH]; simpl; intros H; try discriminate.
  - inversion H; subst. eexists; reflexivity.
  - auto.
Qed.

Lemma first_marker_not_report (evs : list silence_event) (h m : Z) (s : float) :
  first_marker evs <> Some (DurationReport h m s).
Proof.
  unfold first_marker, markers.
  induction evs as [|[u|u|h' m' s'] rest IH]; simpl; try discriminate; auto.
Qed.

(** How many intervals the pairing leaves, from the number [a] of
    silence starts and [b] of silence ends. *)
Lemma pair_chunks_length (start : float) (et : option float) (evs : list silence_event) :
  List.length (pair_chunks start
                 {| chunk_starts := lead start evs ++ end_times evs;
                    chunk_ends := start_times evs;
                    end_time := et |}) =
  if starts_with_silence_end evs
  then Nat.min (S (count_starts evs)) (count_ends evs)
  else S (Nat.min (count_starts evs) (count_ends evs)).
Proof.
  unfold pair_chunks, patch_starts, patch_ends, starts_with_silence_end, lead.
  cbn [chunk_starts chunk_ends end_time].
  rewrite <- start_times_length, <- end_times_length.
  destruct (first_marker evs) as [[t|t|h m s]|] eqn:F.
  - destruct (first_marker_start _ _ F) as [r Hr]. rewrite Hr.
    cbn [app List.length Nat.eqb].
    destruct (Nat.ltb_spec (S (List.length r)) (S (List.length (end_times evs))));
      rewrite length_combine; cbn [List.length]; try rewrite length_app;
        cbn [List.length]; lia.
  - destruct (first_marker_end _ _ F) as [r Hr]. rewrite Hr.
    cbn [app List.length Nat.eqb].
    destruct (Nat.ltb_spec (List.length (start_times evs)) (S (List.length r)));
      rewrite length_combine; cbn [List.length]; try rewrite length_app;
        cbn [List.length]; lia.
  - exfalso. exact (first_marker_not_report _ _ _ _ F).
  - destruct (first_marker_none _ F) as [Hs He]. rewrite Hs, He. reflexivity.
Qed.

(** The number of intervals of a stream with [a] silence starts and [b]
    silence ends: [min (a + 1) b] when the first marker is a silence
    end, [min a b + 1] otherwise. *)
Lemma interval_count (start_time end_time : option float) (lines : list string)
      (evs : list silence_event) :
  classify_all lines = Ok evs ->
  exists chunks,
    chunk_times_of_lines start_time end_time lines = Ok chunks /\
    List.length chunks =
    if starts_with_silence_end evs
    then Nat.min (S (count_starts evs)) (count_ends evs)
    else S (Nat.min (count_starts evs) (count_ends evs)).
Proof.
  intros H. eexists. split; [apply chunk_times_events; exact H|].
  apply pair_chunks_length.
Qed.

(* ================================================================== *)
(** * Alternating markers in time order *)

Lemma markers_idempotent (evs : list silence_event) : markers (markers evs) = markers evs.
Proof.
  unfold markers. induction evs as [|[t|t|h m s] rest IH]; simpl; congruence.
Qed.

Lemma start_times_markers (evs : list silence_event) :
  start_times (markers evs) = start_times evs.
Proof.
  unfold markers. induction evs as [|[t|t|h m s] rest IH]; simpl; congruence.
Qed.

Lemma end_times_markers (evs : list silence_event) :
  end_times (markers evs) = end_times evs.
Proof.
  unfold markers. induction evs as [|[t|t|h m s] rest IH]; simpl; congruence.
Qed.

Lemma marker_times_markers (evs : list silence_event) :
  marker_times (markers evs) = marker_times evs.
Proof.
  unfold markers. induction evs as [|[t|t|h m s] rest IH]; simpl; congruence.
Qed.

Lemma markers_all (evs : list silence_event) : Forall (fun e => is_marker e = true) (markers evs).
Proof.
  unfold markers. induction evs as [|[t|t|h m s] rest IH]; simpl; auto.
Qed.

Lemma start_times_app (l1 l2 : list silence_event) :
  start_times (l1 ++ l2) = start_times l1 ++ start_times l2.
Proof.
  induction l1 as [|[t|t|h m s] rest IH]; simpl; congruence.
Qed.

Lemma end_times_app (l1 l2 : list silence_event) :
  end_times (l1 ++ l2) = end_times l1 ++ end_times l2.
Proof.
  induction l1 as [|[t|t|h m s] rest IH]; simpl; congruence.
Qed.

Lemma marker_times_app (l1 l2 : list silence_event) :
  marker_times (l1 ++ l2) = marker_times l1 ++ marker_times l2.
Proof.
  induction l1 as [|[t|t|h m s] rest IH]; simpl; congruence.
Qed.

(** Alternating markers that open with a silence end and have as many
    starts as ends come in rounds. *)
Lemma alternating_rounds (n : nat) :
  forall ms : list silence_event,
    (List.length ms <= n)%nat ->
    Forall (fun e => is_marker e = true) ms ->
    alternating ms = true ->
    (forall t, hd_error ms <> Some (SilenceStart t)) ->
    List.length (start_times ms) = List.length (end_times ms) ->
    end_start_rounds ms.
Proof.
  induction n as [|n IH]; intros ms Hn Hm Ha Hh Hc.
  - destruct ms; [constructor|simpl in Hn; lia].
  - destruct ms as [|[a|a|h m s] ms]; [constructor| | |].
    + exfalso. apply (Hh a). reflexivity.
    + destruct ms as [|[b|b|h m s] ms].
      * simpl in Hc. discriminate.
      * constructor. apply IH.
        -- simpl in Hn. lia.
        -- inversion Hm as [|? ? ? Hm']; inversion Hm'; assumption.
        -- simpl in Ha. destruct ms; [reflexivity|].
           apply andb_true_iff in Ha. destruct Ha as [_ Ha]. exact Ha.
        -- intros t Ht. destruct ms as [|[c|c|h m s] ms]; simpl in Ha, Ht; discriminate.
        -- simpl in Hc. lia.
      * simpl in Ha. discriminate.
      * inversion Hm as [|? ? ? Hm']; inversion Hm'; discriminate.
    + inversion Hm; discriminate.
Qed.

(** With one silence end more than starts, the rounds are followed by
    a last silence end. *)
Lemma alternating_rounds_open (n : nat) :
  forall ms : list silence_event,
    (List.length ms <= n)%nat ->
    Forall (fun e => is_marker e = true) ms ->
    alternating ms = true ->
    (forall t, hd_error ms <> Some (SilenceStart t)) ->
    List.length (end_times ms) = S (List.length (start_times ms)) ->
    exists (l : list silence_event) (a : float),
      ms = l ++ [SilenceEnd a] /\ end_start_rounds l.
Proof.
  induction n as [|n IH]; intros ms Hn Hm Ha Hh Hc.
  - destruct ms; [discriminate|simpl in Hn; lia].
  - destruct ms as [|[a|a|h m s] ms]; [discriminate| | |].
    + exfalso. apply (Hh a). reflexivity.
    + destruct ms as [|[b|b|h m s] ms].
      * exists [], a. split; [reflexivity|constructor].
      * destruct (IH ms) as (l & z & El & Rl).
        -- simpl in Hn. lia.
        -- inversion Hm as [|? ? ? Hm']; inversion Hm'; assumption.
        -- simpl in Ha. destruct ms; [reflexivity|].
           apply andb_true_iff in Ha. destruct Ha as [_ Ha]. exact Ha.
        -- intros t Ht. destruct ms as [|[c|c|h m s] ms]; simpl in Ha, Ht; discriminate.
        -- simpl in Hc. lia.
        -- exists (SilenceEnd a :: SilenceStart b :: l), z. subst ms.
           split; [reflexivity|constructor; exact Rl].
      * simpl in Ha. discriminate.
      * inversion Hm as [|? ? ? Hm']; inversion Hm'; discriminate.
    + inversion Hm; discriminate.
Qed.

Lemma increasing_tail (x : float) (l : list float) :
  increasing (x :: l) = true -> increasing l = true.
Proof.
  destruct l; [reflexivity|]. simpl. intros H.
  apply andb_true_iff in H. apply H.
Qed.

Lemma increasing_app_l (l1 l2 : list float) :
  increasing (l1 ++ l2) = true -> increasing l1 = true.
Proof.
  induction l1 as [|a l1 IH]; [reflexivity|].
  destruct l1 as [|b l1]; [reflexivity|].
  simpl. intros H. apply andb_true_iff in H. destruct H as [H1 H2].
  rewrite H1. apply IH. exact H2.
Qed.

Lemma increasing_app_r (l1 l2 : list float) :
  increasing (l1 ++ l2) = true -> increasing l2 = true.
Proof.
  induction l1 as [|a l1 IH]; [auto|].
  intros H. apply IH. simpl app in H. exact (increasing_tail _ _ H).
Qed.

Lemma increasing_two (a b : float) (l : list float) :
  increasing (a :: b :: l) = true -> PyFloat.ltb a b = true.
Proof.
  simpl. intros H. apply andb_true_iff in H. apply H.
Qed.

(** Rounds in time order pair every silence end with a later silence
    start. *)
Lemma rounds_proper (ms : list silence_event) :
  end_start_rounds ms ->
  increasing (marker_times ms) = true ->
  List.length (end_times ms) = List.length (start_times ms) /\
  Forall proper (combine (end_times ms) (start_times ms)).
Proof.
  induction 1 as [|a b ms R IH]; intros Hi.
  - split; [reflexivity|constructor].
  - cbn [marker_times end_times start_times combine List.length].
    cbn [marker_times] in Hi.
    destruct IH as [L F].
    + exact (increasing_tail _ _ (increasing_tail _ _ Hi)).
    + split; [congruence|].
      constructor; [|exact F].
      exact (increasing_two _ _ _ Hi).
Qed.

Lemma truthy_false_zero (x : float) :
  PyFloat.truthy x = false -> exists s, x = S754_zero s.
Proof.
  destruct x; simpl; try discriminate. eexists; reflexivity.
Qed.

(** [start_time or 0.] compares like [start_time]. *)
Lemma ltb_or_zero (x y : float) :
  PyFloat.ltb (or_ x PyFloat.zero) y = PyFloat.ltb x y.
Proof.
  unfold or_. destruct (PyFloat.truthy x) eqn:T; [reflexivity|].
  destruct (truthy_false_zero _ T) as [s ->].
  destruct y; reflexivity.
Qed.

Lemma or_zero_same_number (x : float) : same_number (or_ x PyFloat.zero) x.
Proof.
  unfold same_number, or_. destruct (PyFloat.truthy x) eqn:T; [left; reflexivity|].
  right. split; reflexivity.
Qed.

Lemma combine_app_same {A B : Type} (l1 : list A) (l2 : list B) (x : A) (y : B) :
  List.length l1 = List.length l2 ->
  combine (l1 ++ [x]) (l2 ++ [y]) = combine l1 l2 ++ [(x, y)].
Proof.
  revert l2; induction l1 as [|a l1 IH]; intros [|b l2] H; simpl in *;
    try discriminate; [reflexivity|].
  rewrite IH by lia. reflexivity.
Qed.

(* ================================================================== *)
(** * Properties of the timeline reconstruction *)

(** C1 (as the specification states it).  The four lines of the
    scenario, taken as they are written there, carry no silence marker
    for the patterns: the marker patterns start with a space, the
    silence-end pattern wants a space after the number and the
    silence-start pattern wants the number to end the line.  Only the
    progress line is recognised, and the result is the single interval
    from 0 to 8 seconds. *)
Lemma scenario_as_written :
  chunk_times_of_lines None None
    ["silence_end: 0.500000"; "silence_start: 3.200000 "; "silence_end: 5.000000";
     "size=... time=00:00:08.00 bitrate=..."]
  = Ok [(PyFloat.zero, PyFloat.of_decimal 8 0)]
  /\ Ok [(PyFloat.zero, PyFloat.of_decimal 8 0)]
     <> Ok [(PyFloat.of_decimal 5 1, PyFloat.of_decimal 32 1);
            (PyFloat.of_decimal 5 0, PyFloat.of_decimal 8 0)].
Proof.
  split; [vm_compute; reflexivity|discriminate].
Qed.

(** C1 (amended).  With the markers written the way the patterns read
    them (a space before the marker, a space after the number of a
    silence end, the number of a silence start at the end of its line),
    the four lines give the intervals [(0.5, 3.2), (5.0, 8.0)]. *)
Theorem scenario_two_intervals :
  chunk_times_of_lines None None
    [" silence_end: 0.500000 "; " silence_start: 3.200000"; " silence_end: 5.000000 ";
     "size=... time=00:00:08.00 bitrate=..."]
  = Ok [(PyFloat.of_decimal 5 1, PyFloat.of_decimal 32 1);
        (PyFloat.of_decimal 5 0, PyFloat.of_decimal 8 0)].
Proof.
  vm_compute. reflexivity.
Qed.

(** C2 (as the specification states it).  One silence start and one
    silence end, in time order and inside the range, give two intervals
    and not one: the sound before the silence and the sound after it.
    And two markers of each kind, in time order but not alternating,
    give an interval that ends before it starts. *)
Lemma balanced_stream_counterexample :
  (classify_all [" silence_start: 1.000000"; " silence_end: 2.000000 "]
   = Ok [SilenceStart (PyFloat.of_decimal 1 0); SilenceEnd (PyFloat.of_decimal 2 0)]
   /\ count_starts [SilenceStart (PyFloat.of_decimal 1 0); SilenceEnd (PyFloat.of_decimal 2 0)] = 1%nat
   /\ count_ends [SilenceStart (PyFloat.of_decimal 1 0); SilenceEnd (PyFloat.of_decimal 2 0)] = 1%nat
   /\ chunk_times_of_lines None None [" silence_start: 1.000000"; " silence_end: 2.000000 "]
      = Ok [(PyFloat.zero, PyFloat.of_decimal 1 0); (PyFloat.of_decimal 2 0, sentinel)])
  /\
  (chunk_times_of_lines None (Some (PyFloat.of_decimal 9 0))
     [" silence_end: 1.000000 "; " silence_start: 2.000000"; " silence_start: 3.000000";
      " silence_end: 4.000000 "]
   = Ok [(PyFloat.of_decimal 1 0, PyFloat.of_decimal 2 0);
         (PyFloat.of_decimal 4 0, PyFloat.of_decimal 3 0)]
   /\ PyFloat.ltb (PyFloat.of_decimal 4 0) (PyFloat.of_decimal 3 0) = false).
Proof.
  repeat split; vm_compute; reflexivity.
Qed.

(** C2 (amended).  A stream whose lines all classify, with [n] silence
    starts and [n] silence ends, gives [n] intervals when its first marker is a silence end and
    [n + 1] otherwise (no marker at all, or a silence start first: the
    sound before the first silence and the sound after the last one are
    both intervals).  When moreover the markers alternate and the start
    time, the marker times in stream order and the end time in force
    increase strictly, every interval starts before it ends. *)
Theorem balanced_stream_intervals
        (start_time end_time : option float) (lines : list string)
        (evs : list silence_event) (n : nat) :
  classify_all lines = Ok evs ->
  count_starts evs = n ->
  count_ends evs = n ->
  exists chunks,
    chunk_times_of_lines start_time end_time lines = Ok chunks /\
    List.length chunks = (if starts_with_silence_end evs then n else S n) /\
    (alternating (markers evs) = true ->
     increasing (default_start start_time :: marker_times evs
                   ++ [or_none (reported_end end_time evs) sentinel]) = true ->
     Forall proper chunks).
Proof.
  intros Hc Hs He.
  eexists. split; [apply chunk_times_events; exact Hc|].
  split.
  - rewrite pair_chunks_length, Hs, He.
    destruct (starts_with_silence_end evs); lia.
  - intros Ha Hi.
    set (start := default_start start_time) in *.
    set (stop := or_none (reported_end end_time evs) sentinel) in *.
    assert (Hlen : List.length (start_times (markers evs)) =
                   List.length (end_times (markers evs))).
    { rewrite start_times_markers, end_times_markers,
        start_times_length, end_times_length. congruence. }
    unfold pair_chunks, patch_starts, patch_ends, lead, first_marker.
    project_state.
    fold stop.
    rewrite <- (start_times_markers evs), <- (end_times_markers evs).
    rewrite <- (marker_times_markers evs) in Hi.
    pose proof (markers_all evs) as Hm.
    destruct (markers evs) as [|[b|a|h m s] ms] eqn:M.
    + (* no marker *)
      cbn. constructor; [|constructor].
      cbn in Hi. unfold proper. cbn [fst snd].
      apply andb_true_iff in Hi. apply Hi.
    + (* a silence start first *)
      cbn [hd_error start_times end_times app List.length Nat.eqb].
      destruct (alternating_rounds_open (List.length ms) ms) as (l & z & El & Rl).
      * lia.
      * inversion Hm; assumption.
      * simpl in Ha. destruct ms; [reflexivity|].
        apply andb_true_iff in Ha. apply Ha.
      * intros t Ht. destruct ms as [|[c|c|h m s] ms']; simpl in Ha, Ht; discriminate.
      * cbn [start_times end_times List.length] in Hlen. lia.
      * subst ms.
        cbn [marker_times] in Hi.
        rewrite marker_times_app in Hi. cbn [marker_times app] in Hi.
        rewrite end_times_app, start_times_app. cbn [end_times start_times].
        rewrite app_nil_r.
        destruct (rounds_proper l Rl) as [L F].
        { apply increasing_tail, increasing_tail in Hi.
          rewrite <- app_assoc in Hi. exact (increasing_app_l _ _ Hi). }
        match goal with
        | |- context [(?x <? ?y)%nat] => destruct (Nat.ltb_spec x y) as [Hlt|Hge]
        end; [|rewrite length_app in Hge; cbn [List.length] in Hge; lia].
        cbn [app combine].
        rewrite combine_app_same by exact L.
        constructor.
        -- unfold proper. cbn [fst snd]. rewrite ltb_or_zero.
           exact (increasing_two _ _ _ Hi).
        -- apply Forall_app. split; [exact F|].
           constructor; [|constructor].
           unfold proper. cbn [fst snd].
           apply increasing_tail, increasing_tail in Hi.
           rewrite <- app_assoc in Hi. apply increasing_app_r in Hi.
           exact (increasing_two _ _ _ Hi).
    + (* a silence end first *)
      cbn [hd_error app].
      assert (R : end_start_rounds (SilenceEnd a :: ms)).
      { apply (alternating_rounds (S (List.length ms))).
        - reflexivity.
        - exact Hm.
        - exact Ha.
        - discriminate.
        - exact Hlen. }
      destruct (rounds_proper _ R) as [L F].
      { apply increasing_tail in Hi. exact (increasing_app_l _ _ Hi). }
      cbn [end_times List.length Nat.eqb] in *.
      match goal with
      | |- context [(?x <? ?y)%nat] => destruct (Nat.ltb_spec x y) as [Hlt|Hge]
      end; [lia|].
      exact F.
    + inversion Hm; discriminate.
Qed.

(** C3.  The streams are those whose lines all classify: the ones
    whose duration reports have seconds that [float] reads
    ([classify_all_readable]).  When the first silence marker of such a
    stream is a silence start,
    the first interval runs from the start time in force (the
    [start_time] argument, [0.] without one) to the time of that
    marker: the marker's time is the interval's end, not its start.
    The start is the value of [start_time or 0.], the same number as
    the start time in force. *)
Theorem leading_sound_interval
        (start_time end_time : option float) (lines : list string)
        (evs : list silence_event) (t : float) :
  classify_all lines = Ok evs ->
  first_marker evs = Some (SilenceStart t) ->
  exists rest,
    chunk_times_of_lines start_time end_time lines
    = Ok ((or_ (default_start start_time) PyFloat.zero, t) :: rest) /\
    same_number (or_ (default_start start_time) PyFloat.zero) (default_start start_time).
Proof.
  intros Hc F.
  rewrite (chunk_times_events _ _ _ _ Hc).
  unfold pair_chunks, patch_starts, patch_ends, lead.
  project_state.
  rewrite F.
  destruct (first_marker_start _ _ F) as [r ->].
  cbn [app List.length Nat.eqb].
  match goal with
  | |- context [(?x <? ?y)%nat] => destruct (x <? y)%nat
  end; cbn [app combine]; eexists; (split; [reflexivity|apply or_zero_same_number]).
Qed.

(** Without silence markers the scan gives one interval, from the
    start time in force to the value of [end_time or 10000000.] for
    the end time in force after the stream. *)
Lemma no_silence_interval
      (start_time end_time : option float) (lines : list string)
      (evs : list silence_event) :
  classify_all lines = Ok evs ->
  count_starts evs = 0%nat ->
  count_ends evs = 0%nat ->
  chunk_times_of_lines start_time end_time lines
  = Ok [(default_start start_time, or_none (reported_end end_time evs) sentinel)].
Proof.
  intros Hc Hs He.
  rewrite (chunk_times_events _ _ _ _ Hc).
  rewrite <- start_times_length in Hs. rewrite <- end_times_length in He.
  unfold pair_chunks, patch_starts, patch_ends, lead.
  project_state.
  destruct (first_marker evs) as [[t|t|h m s]|] eqn:F.
  - destruct (first_marker_start _ _ F) as [r Hr]. rewrite Hr in Hs. discriminate.
  - destruct (first_marker_end _ _ F) as [r Hr]. rewrite Hr in He. discriminate.
  - exfalso. exact (first_marker_not_report _ _ _ _ F).
  - destruct (start_times evs); [|discriminate].
    destruct (end_times evs); [|discriminate].
    reflexivity.
Qed.

(** What holds of C4: without silence markers, and with an effective
    end time other than zero, the one interval goes from the effective
    start time to the effective end time. *)
Lemma no_silence_interval_nonzero
      (start_time end_time : option float) (lines : list string)
      (evs : list silence_event) :
  classify_all lines = Ok evs ->
  count_starts evs = 0%nat ->
  count_ends evs = 0%nat ->
  PyFloat.truthy (effective_end end_time evs) = true ->
  chunk_times_of_lines start_time end_time lines
  = Ok [(default_start start_time, effective_end end_time evs)].
Proof.
  intros Hc Hs He Ht.
  rewrite (no_silence_interval _ _ _ _ Hc Hs He).
  unfold effective_end in *. unfold or_none, or_.
  destruct (reported_end end_time evs) as [e|]; [rewrite Ht|]; reflexivity.
Qed.

(** C4, at the failing inputs.  A stream without silence markers whose
    one progress line reports a total duration of zero, and the empty
    stream with an [end_time] of [0.0]: the effective end time is
    [0.0], and the one interval ends at [10000000.].  The empty stream
    with start 1.0 and end 4.0 gives [(1.0, 4.0)]. *)
Theorem no_silence_zero_end_replaced_by_sentinel :
  let lines := ["size=N/A time=00:00:00.00 bitrate=N/A"] in
  let evs := [DurationReport 0 0 PyFloat.zero] in
  classify_all lines = Ok evs
  /\ count_starts evs = 0%nat
  /\ count_ends evs = 0%nat
  /\ effective_end None evs = PyFloat.zero
  /\ chunk_times_of_lines None None lines = Ok [(PyFloat.zero, sentinel)]
  /\ effective_end (Some PyFloat.zero) [] = PyFloat.zero
  /\ chunk_times_of_lines None (Some PyFloat.zero) [] = Ok [(PyFloat.zero, sentinel)]
  /\ sentinel = PyFloat.of_decimal 10000000 0
  /\ PyFloat.eqb sentinel PyFloat.zero = false
  /\ chunk_times_of_lines (Some (PyFloat.of_decimal 10 1)) (Some (PyFloat.of_decimal 40 1)) []
     = Ok [(PyFloat.of_decimal 1 0, PyFloat.of_decimal 4 0)].
Proof.
  repeat split; vm_compute; reflexivity.
Qed.

Lemma combine_longer_left {A B : Type} (l1 : list A) (l2 : list B) (y : B) :
  (List.length l2 < List.length l1)%nat ->
  exists pre x, combine l1 (l2 ++ [y]) = pre ++ [(x, y)].
Proof.
  revert l2; induction l1 as [|a l1 IH]; intros l2 H; [simpl in H; lia|].
  destruct l2 as [|b l2].
  - exists [], a. simpl. destruct l1; reflexivity.
  - destruct (IH l2) as (pre & x & E); [simpl in H; lia|].
    exists ((a, b) :: pre), x. simpl. rewrite E. reflexivity.
Qed.

(** What holds of C5: when the scan leaves more starts than ends, the
    last interval ends at the value of [end_time or 10000000.], for the
    end time in force after the stream. *)
Lemma trailing_sound_interval
      (start_time end_time : option float) (lines : list string)
      (evs : list silence_event) :
  classify_all lines = Ok evs ->
  (count_starts evs < List.length (lead (default_start start_time) evs) + count_ends evs)%nat ->
  exists before s,
    chunk_times_of_lines start_time end_time lines
    = Ok (before ++ [(s, or_none (reported_end end_time evs) sentinel)]).
Proof.
  intros Hc Hlt.
  rewrite (chunk_times_events _ _ _ _ Hc).
  rewrite <- start_times_length, <- end_times_length, <- length_app in Hlt.
  unfold pair_chunks, patch_starts, patch_ends.
  project_state.
  set (starts := lead (default_start start_time) evs ++ end_times evs) in *.
  destruct (Nat.eqb_spec (List.length starts) 0) as [Z|NZ]; [lia|].
  destruct (Nat.ltb_spec (List.length (start_times evs)) (List.length starts)); [|lia].
  destruct (combine_longer_left starts (start_times evs)
              (or_none (reported_end end_time evs) sentinel)) as (pre & x & E); [lia|].
  exists pre, x. rewrite E. reflexivity.
Qed.

(** The end time in force, when it is not zero, is what
    [end_time or 10000000.] gives; a zero makes it [10000000.]. *)
Lemma or_none_cases (e : option float) :
  match e with
  | Some x => if PyFloat.truthy x then or_none e sentinel = x else or_none e sentinel = sentinel
  | None => or_none e sentinel = sentinel
  end.
Proof.
  destruct e as [x|]; [|reflexivity].
  unfold or_none, or_. destruct (PyFloat.truthy x); reflexivity.
Qed.

(** C5, at the failing input.  The stream ends in sound after a silence
    end, and its last progress line reports a total duration of zero;
    no [end_time] is given.  The end time in force is the reported
    [0.0], and the interval ends at [10000000.]. *)
Theorem zero_duration_replaced_by_sentinel :
  let lines := [" silence_end: 0.000000 | silence_duration: 0.000000";
                "size=N/A time=00:00:00.00 bitrate=N/A"] in
  classify_all lines = Ok [SilenceEnd PyFloat.zero; DurationReport 0 0 PyFloat.zero]
  /\ reported_end None [SilenceEnd PyFloat.zero; DurationReport 0 0 PyFloat.zero]
     = Some PyFloat.zero
  /\ chunk_times_of_lines None None lines = Ok [(PyFloat.zero, sentinel)]
  /\ sentinel = PyFloat.of_decimal 10000000 0.
Proof.
  repeat split; vm_compute; reflexivity.
Qed.

(** C9.  Whatever the stream, once the scan and the two patches have
    left the sequences [starts] and [ends], the intervals are their
    pairing position by position: as many as the shorter sequence has
    entries, the entries beyond that left out, and no exception for
    the difference.  The function raises only where the scan does. *)
Theorem pairing_keeps_the_shorter_length
        (start_time end_time : option float) (lines : list string) :
  match accumulated start_time end_time lines with
  | Ok (starts, ends) =>
      chunk_times_of_lines start_time end_time lines = Ok (combine starts ends) /\
      List.length (combine starts ends) = Nat.min (List.length starts) (List.length ends) /\
      combine starts ends
      = combine (firstn (Nat.min (List.length starts) (List.length ends)) starts)
                (firstn (Nat.min (List.length starts) (List.length ends)) ends)
  | Err e => chunk_times_of_lines start_time end_time lines = Err e
  end.
Proof.
  unfold accumulated, chunk_times_of_lines, pair_chunks.
  destruct (scan_lines _ _ lines) as [st|e]; simpl; [|reflexivity].
  split; [reflexivity|]. split; [apply length_combine|].
  generalize (patch_ends (patch_starts (default_start start_time) st) st) as ends.
  generalize (patch_starts (default_start start_time) st) as starts.
  induction starts as [|a starts IH]; intros [|b ends]; simpl; try reflexivity.
  rewrite <- IH. reflexivity.
Qed.

(** Unbalanced streams: three silence ends in a row leave three starts
    and one end, three silence starts in a row leave one start and
    three ends; both give a single interval. *)
Lemma unbalanced_streams :
  accumulated None None [" silence_end: 1 "; " silence_end: 2 "; " silence_end: 3 "]
  = Ok ([PyFloat.of_decimal 1 0; PyFloat.of_decimal 2 0; PyFloat.of_decimal 3 0], [sentinel])
  /\ chunk_times_of_lines None None [" silence_end: 1 "; " silence_end: 2 "; " silence_end: 3 "]
     = Ok [(PyFloat.of_decimal 1 0, sentinel)]
  /\ accumulated None None [" silence_start: 1"; " silence_start: 2"; " silence_start: 3"]
     = Ok ([PyFloat.zero], [PyFloat.of_decimal 1 0; PyFloat.of_decimal 2 0; PyFloat.of_decimal 3 0])
  /\ chunk_times_of_lines None None [" silence_start: 1"; " silence_start: 2"; " silence_start: 3"]
     = Ok [(PyFloat.zero, PyFloat.of_decimal 1 0)].
Proof.
  repeat split; vm_compute; reflexivity.
Qed.

(** C10.  One line changes the state by at most one event, found in
    the order of the [if]/[elif] chain: a match of the silence-start
    pattern decides alone, whatever the other two searches found; the
    silence-end pattern counts only without a silence-start match; the
    duration pattern only without both; a line matching none leaves
    the state as it is. *)
Theorem one_event_per_line (start_time : float) (st : scan_state) (line : string) :
  (forall m,
      Re.search silence_start_re line = Some m ->
      scan_line start_time st line =
      (t <- float_ (Re.group "start" m) ;;
       Ok (apply_event start_time st (SilenceStart t))))
  /\ (forall m,
         Re.search silence_start_re line = None ->
         Re.search silence_end_re line = Some m ->
         scan_line start_time st line =
         (t <- float_ (Re.group "end" m) ;;
          Ok (apply_event start_time st (SilenceEnd t))))
  /\ (forall m,
         Re.search silence_start_re line = None ->
         Re.search silence_end_re line = None ->
         Re.search total_duration_re line = Some m ->
         scan_line start_time st line =
         (hours <- int_ (Re.group "hours" m) ;;
          minutes <- int_ (Re.group "minutes" m) ;;
          seconds <- float_ (Re.group "seconds" m) ;;
          Ok (apply_event start_time st (DurationReport hours minutes seconds))))
  /\ (Re.search silence_start_re line = None ->
      Re.search silence_end_re line = None ->
      Re.search total_duration_re line = None ->
      scan_line start_time st line = Ok st)
  /\ scan_line start_time st line =
     (ev <- classify line ;; Ok (apply_line_event start_time st ev)).
Proof.
  repeat split; try apply scan_line_classify.
  - intros m H. unfold scan_line. rewrite H.
    destruct (float_ (Re.group "start" m)); simpl; [|reflexivity].
    destruct (chunk_starts st); reflexivity.
  - intros m H1 H2. unfold scan_line. rewrite H1, H2. reflexivity.
  - intros m H1 H2 H3. unfold scan_line. rewrite H1, H2, H3. reflexivity.
  - intros H1 H2 H3. unfold scan_line. rewrite H1, H2, H3. reflexivity.
Qed.

(** A line that all three patterns match: only the silence start
    counts.  The state keeps its starts and its end time. *)
Lemma line_matching_all_patterns :
  let line := "size=1 time=00:00:09.00 bitrate= silence_end: 1  silence_start: 2" in
  let st := {| chunk_starts := [PyFloat.zero]; chunk_ends := []; end_time := None |} in
  Re.search silence_start_re line = Some [("start", "2")]
  /\ Re.search silence_end_re line = Some [("end", "1")]
  /\ Re.search total_duration_re line
     = Some [("seconds", "09.00"); ("minutes", "00"); ("hours", "00")]
  /\ scan_line PyFloat.zero st line
     = Ok {| chunk_starts := [PyFloat.zero];
             chunk_ends := [PyFloat.of_decimal 2 0];
             end_time := None |}.
Proof.
  repeat split; vm_compute; reflexivity.
Qed.

(* ================================================================== *)
(** * Properties of the effects *)

Lemma launched_app (tr1 tr2 : list event) :
  launched (tr1 ++ tr2) = launched tr1 ++ launched tr2.
Proof.
  induction tr1 as [|[] tr1 IH]; simpl; congruence.
Qed.

Lemma stderr_writes_app (tr1 tr2 : list event) :
  stderr_writes (tr1 ++ tr2) = stderr_writes tr1 ++ stderr_writes tr2.
Proof.
  induction tr1 as [|[] tr1 IH]; simpl; congruence.
Qed.

Lemma made_app (tr1 tr2 : list event) : made (tr1 ++ tr2) = made tr1 ++ made tr2.
Proof. induction tr1 as [|[] tr1 IH]; simpl; congruence. Qed.

Lemma opened_app (tr1 tr2 : list event) : opened (tr1 ++ tr2) = opened tr1 ++ opened tr2.
Proof. induction tr1 as [|[] tr1 IH]; simpl; congruence. Qed.

Lemma dumps_app (tr1 tr2 : list event) : dumps (tr1 ++ tr2) = dumps tr1 ++ dumps tr2.
Proof. induction tr1 as [|[] tr1 IH]; simpl; congruence. Qed.

Lemma stderr_stream_app (cmdline : command -> string) (threshold : level)
      (tr1 tr2 : list event) :
  stderr_stream cmdline threshold (tr1 ++ tr2)
  = stderr_stream cmdline threshold tr1 ++ stderr_stream cmdline threshold tr2.
Proof.
  induction tr1 as [|[] tr1 IH]; simpl; rewrite ?IH, ?app_assoc; reflexivity.
Qed.

#[local] Hint Rewrite launched_app stderr_writes_app made_app opened_app dumps_app
  stderr_stream_app : trace.

(** [get_chunk_times], outcome and trace, case by case: the output
    is decoded before the status is looked at. *)
Lemma get_chunk_times_cases
      (rt : runtime) (in_filename : string) (silence_threshold : Z)
      (silence_duration : float) (start_time end_time : option float) (tr : list event) :
  let analysis :=
    SilenceDetect in_filename start_time
                  (option_map (fun e => PyFloat.sub e (default_start start_time)) end_time)
                  silence_threshold silence_duration in
  let child := wait rt (tr ++ [LogCommand analysis; Popen analysis true]) analysis in
  get_chunk_times rt in_filename silence_threshold silence_duration start_time end_time tr
  = match decode (stderr_bytes child) with
    | Err e => (Err e, tr ++ [LogCommand analysis; Popen analysis true])
    | Ok output =>
        if returncode child =? 0
        then (chunk_times_of_lines start_time end_time (splitlines output),
              tr ++ [LogCommand analysis; Popen analysis true; Log DEBUG output])
        else (Err (SystemExit 1),
              tr ++ [LogCommand analysis; Popen analysis true; StderrWrite output])
    end.
Proof.
  intros analysis child.
  unfold get_chunk_times, _logged_popen, communicate, then_, emit, ret, sys_exit, raise, lift.
  cbn beta iota.
  rewrite <- !app_assoc. cbn [app].
  fold analysis. fold child.
  destruct (decode (stderr_bytes child)) as [output|e]; [|reflexivity].
  destruct (returncode child =? 0); cbn; rewrite <- app_assoc; reflexivity.
Qed.

(** C6.  When the analysis child exits with a status other than zero,
    the run fails with an exit status other than zero, having launched
    the analysis once and nothing else: no interval is returned, no
    extraction is launched, no second attempt is made.  When the
    child's output is UTF-8, [get_chunk_times] writes it to the
    standard error stream and raises [SystemExit(1)], and [split_audio]
    ends the same way.  When it is not, the decoding raises before the
    status is looked at, and the output is not written. *)
Theorem analysis_failure_is_fatal
        (rt : runtime) (in_filename out_pattern : string) (padding : float)
        (verbose : bool) (silence_threshold : Z) (silence_duration : float)
        (start_time end_time : option float) (metadata_filename : option string)
        (tr : list event) :
  let analysis :=
    SilenceDetect in_filename start_time
                  (option_map (fun e => PyFloat.sub e (default_start start_time)) end_time)
                  silence_threshold silence_duration in
  let launch := tr ++ [LogCommand analysis; Popen analysis true] in
  let child := wait rt launch analysis in
  let run := split_audio rt in_filename out_pattern padding verbose silence_threshold
                         silence_duration start_time end_time metadata_filename tr in
  returncode child <> 0 ->
  exit_status (fst run) <> 0
  /\ launched (snd run) = launched tr ++ [analysis]
  /\ made (snd run) = made tr
  /\ dumps (snd run) = dumps tr
  /\ (forall output,
         decode (stderr_bytes child) = Ok output ->
         get_chunk_times rt in_filename silence_threshold silence_duration
                         start_time end_time tr
         = (Err (SystemExit 1), launch ++ [StderrWrite output])
         /\ run = (Err (SystemExit 1), launch ++ [StderrWrite output])
         /\ stderr_writes (snd run) = stderr_writes tr ++ [output])
  /\ (decode (stderr_bytes child) = Err UnicodeDecodeError ->
      get_chunk_times rt in_filename silence_threshold silence_duration
                      start_time end_time tr
      = (Err UnicodeDecodeError, launch)
      /\ run = (Err UnicodeDecodeError, launch)
      /\ stderr_writes (snd run) = stderr_writes tr).
Proof.
  intros analysis launch child run Hrc.
  pose proof (get_chunk_times_cases rt in_filename silence_threshold silence_duration
                                    start_time end_time tr) as G.
  cbn zeta in G. fold analysis in G. fold launch in G. fold child in G.
  assert (R : run = match decode (stderr_bytes child) with
                    | Ok output => (Err (SystemExit 1), launch ++ [StderrWrite output])
                    | Err e => (Err e, launch)
                    end).
  { unfold run, split_audio, then_. rewrite G.
    destruct (decode (stderr_bytes child)) as [output|e]; [|reflexivity].
    destruct (Z.eqb_spec (returncode child) 0) as [E|_]; [contradiction|].
    unfold launch. rewrite <- app_assoc. reflexivity. }
  rewrite R. rewrite G.
  destruct (Z.eqb_spec (returncode child) 0) as [E|_]; [contradiction|].
  unfold launch.
  destruct (stderr_bytes child) as [text|]; cbn [decode fst snd exit_status].
  - split; [discriminate|]. observe.
    do 3 (split; [reflexivity|]).
    split; [|discriminate].
    intros output H. inversion H; subst output.
    rewrite <- app_assoc. cbn [app]. observe. repeat split; reflexivity.
  - split; [discriminate|]. observe.
    do 3 (split; [reflexivity|]).
    split; [discriminate|].
    intros _. observe. repeat split; reflexivity.
Qed.

(** [_makedirs] launches nothing. *)
Lemma makedirs_launched (rt : runtime) (path : string) (tr : list event) :
  launched (snd (_makedirs rt path tr)) = launched tr.
Proof.
  unfold _makedirs. destruct path as [|c path]; [reflexivity|].
  unfold then_, emit.
  destruct (os_makedirs rt (tr ++ [Makedirs (String c path)]) (String c path)) as [errno|];
    [destruct (negb (errno =? EEXIST) || negb (os_path_isdir rt _ _))|];
    cbn [snd]; rewrite launched_app; cbn; apply app_nil_r.
Qed.

(** The loop body, outcome and trace, case by case. *)
Lemma split_chunk_cases
      (rt : runtime) (in_filename out_pattern : string) (padding : float) (verbose : bool)
      (metadata : list dict) (i : nat) (a b : float) (tr : list event) :
  split_chunk rt in_filename out_pattern padding verbose metadata i (a, b) tr
  = match str_format rt out_pattern i with
    | Err e => (Err e, tr)
    | Ok name =>
        match _makedirs rt (dirname name) tr with
        | (Err e, tr1) => (Err e, tr1)
        | (Ok _, tr1) =>
            let cmd := Extract in_filename a (PyFloat.sub b a)
                               (if PyFloat.ltb PyFloat.zero padding
                                then Some padding else None) name in
            let tr2 := tr1 ++ [Log INFO (name ++ ": start=" ++ PyFloat.format_04f a
                                              ++ ", end=" ++ PyFloat.format_04f b
                                              ++ ", duration="
                                              ++ PyFloat.format_04f (PyFloat.sub b a))%string;
                               LogCommand cmd; Popen cmd (negb verbose)] in
            if negb (returncode (wait rt tr2 cmd) =? 0) && negb verbose
            then match decode (stderr_bytes (wait rt tr2 cmd)) with
                 | Ok text => (Ok (metadata ++ [chunk_entry name a b]),
                               tr2 ++ [StderrWrite text])
                 | Err e => (Err e, tr2)
                 end
            else (Ok (metadata ++ [chunk_entry name a b]), tr2)
        end
    end.
Proof.
  unfold split_chunk, then_, lift.
  destruct (str_format rt out_pattern i) as [name|e]; [|reflexivity].
  destruct (_makedirs rt (dirname name) tr) as [[[]|e] tr1]; [|reflexivity].
  unfold _logged_popen, communicate, then_, emit, ret.
  cbn beta iota zeta.
  rewrite <- !app_assoc. cbn [app].
  match goal with
  | |- context [negb (returncode ?c =? 0)] => destruct (negb (returncode c =? 0))
  end; [destruct verbose|]; cbn [negb andb]; try reflexivity.
  match goal with
  | |- context [decode ?x] => destruct (decode x)
  end; reflexivity.
Qed.

(** The loop body on a chunk whose file name formats and whose
    directory can be made, with a child whose output can be decoded
    where the script decodes it: the entry is appended and the
    extraction is launched, whatever status the child then returns. *)
Lemma split_chunk_runs (rt : runtime) (in_filename out_pattern : string) (padding : float)
      (verbose : bool) (metadata : list dict) (i : nat) (a b : float) (tr : list event) :
  (forall path tr, fst (_makedirs rt path tr) = Ok tt) ->
  (exists name, str_format rt out_pattern i = Ok name) ->
  failures_readable rt verbose ->
  exists tr',
    split_chunk rt in_filename out_pattern padding verbose metadata i (a, b) tr
    = (Ok (metadata ++ entries rt out_pattern i [(a, b)]), tr') /\
    launched tr' = launched tr ++ extractions rt in_filename out_pattern padding i [(a, b)].
Proof.
  intros Hfs [name Hname] Hread.
  rewrite split_chunk_cases. unfold entries, extractions, out_name.
  rewrite Hname.
  pose proof (Hfs (dirname name) tr) as Hm.
  pose proof (makedirs_launched rt (dirname name) tr) as Hl.
  destruct (_makedirs rt (dirname name) tr) as [r tr1].
  cbn [fst snd] in Hm, Hl. subst r. cbn zeta.
  match goal with
  | |- context [returncode ?ch =? 0] =>
      pose proof (fun V => Hread V _ _ : returncode ch <> 0 -> _) as W;
      destruct (Z.eqb_spec (returncode ch) 0) as [E|N]
  end; cbn [negb andb].
  - eexists. split; [reflexivity|]. observe. rewrite Hl. reflexivity.
  - destruct verbose; cbn [negb].
    + eexists. split; [reflexivity|]. observe. rewrite Hl. reflexivity.
    + cbn [negb] in W. destruct (W eq_refl N) as [text ->]. cbn [decode].
      eexists. split; [reflexivity|]. observe. rewrite Hl. reflexivity.
Qed.

Lemma entries_length (rt : runtime) (out_pattern : string) (chunks : list (float * float)) :
  forall i, List.length (entries rt out_pattern i chunks) = List.length chunks.
Proof.
  induction chunks as [|[a b] rest IH]; intros i; simpl; [reflexivity|].
  rewrite IH. reflexivity.
Qed.

(** C7.  With a file system that raises nothing, a pattern that
    formats, and failed children whose output can be decoded where the
    script decodes it, the loop of [split_audio] goes through the
    whole batch whatever statuses the extraction children return: it
    returns the metadata with one entry per interval appended, in
    order, having launched one extraction per interval, in order; and
    the run ends normally, with exit status 0. *)
Theorem extraction_failures_are_not_fatal
        (rt : runtime) (in_filename out_pattern : string) (padding : float)
        (verbose : bool) (chunks : list (float * float)) :
  filesystem_ok rt ->
  pattern_ok rt out_pattern ->
  failures_readable rt verbose ->
  (forall (metadata : list dict) (i : nat) (tr : list event),
      exists tr',
        split_chunks rt in_filename out_pattern padding verbose metadata i chunks tr
        = (Ok (metadata ++ entries rt out_pattern i chunks), tr') /\
        launched tr' = launched tr ++ extractions rt in_filename out_pattern padding i chunks)
  /\ (forall (metadata_filename : option string) (tr : list event),
         fst (split_audio_chunks rt in_filename out_pattern padding verbose
                                 metadata_filename chunks tr) = Ok tt /\
         exit_status (fst (split_audio_chunks rt in_filename out_pattern padding verbose
                                              metadata_filename chunks tr)) = 0).
Proof.
  intros [Hmk Hop] Hpat Hread.
  assert (Loop : forall (metadata : list dict) (i : nat) (tr : list event),
             exists tr',
               split_chunks rt in_filename out_pattern padding verbose metadata i chunks tr
               = (Ok (metadata ++ entries rt out_pattern i chunks), tr') /\
               launched tr' = launched tr
                              ++ extractions rt in_filename out_pattern padding i chunks).
  { induction chunks as [|[a b] rest IH]; intros metadata i tr.
    - exists tr. simpl. unfold ret. rewrite !app_nil_r. split; reflexivity.
    - destruct (split_chunk_runs rt in_filename out_pattern padding verbose
                                 metadata i a b tr Hmk (Hpat i) Hread) as (tr1 & E1 & L1).
      destruct (IH (metadata ++ entries rt out_pattern i [(a, b)]) (S i) tr1)
        as (tr2 & E2 & L2).
      exists tr2. cbn [split_chunks]. unfold then_ at 1. rewrite E1, E2.
      split.
      + cbn [entries]. rewrite <- app_assoc. reflexivity.
      + rewrite L2, L1. cbn [extractions]. rewrite <- app_assoc. reflexivity. }
  split; [exact Loop|].
  intros metadata_filename tr.
  assert (R : fst (split_audio_chunks rt in_filename out_pattern padding verbose
                                      metadata_filename chunks tr) = Ok tt).
  { unfold split_audio_chunks, then_.
    destruct (Loop [] 0%nat tr) as (tr1 & E1 & _). rewrite E1.
    unfold write_metadata. destruct metadata_filename as [path|]; [|reflexivity].
    unfold then_.
    pose proof (Hmk (dirname path) tr1) as Hm.
    destruct (_makedirs rt (dirname path) tr1) as [r tr2]. cbn [fst] in Hm. subst r.
    unfold emit. rewrite Hop. reflexivity. }
  rewrite R. split; reflexivity.
Qed.

Lemma example_runtime_filesystem_ok (engine : list event -> command -> completed) :
  filesystem_ok (example_runtime engine).
Proof.
  split; [|reflexivity].
  intros [|c path] tr; reflexivity.
Qed.

Lemma example_runtime_pattern_ok (engine : list event -> command -> completed)
      (out_pattern : string) :
  pattern_ok (example_runtime engine) out_pattern.
Proof.
  intros i. eexists. reflexivity.
Qed.

(** The two example engines with failures leave UTF-8, and so does
    the one without. *)
Lemma failing_extraction_readable (verbose : bool) :
  failures_readable (example_runtime failing_extraction) verbose.
Proof.
  intros _ tr [] _; eexists; reflexivity.
Qed.

Lemma example_engine_readable (verbose : bool) :
  failures_readable (example_runtime example_engine) verbose.
Proof.
  intros _ tr [] _; eexists; reflexivity.
Qed.

(** C6 as written, at an analysis that fails and leaves bytes that
    are no UTF-8: the run fails, and nothing is written to the
    standard error stream. *)
Lemma undecodable_analysis_is_not_written :
  let analysis := SilenceDetect "in.wav" None None (-30) (PyFloat.of_decimal 3 1) in
  let run := split_audio (example_runtime undecodable_analysis) "in.wav" "out/chunk_"
                         PyFloat.zero false (-30) (PyFloat.of_decimal 3 1)
                         None None None [] in
  returncode (undecodable_analysis [LogCommand analysis; Popen analysis true] analysis) <> 0
  /\ run = (Err UnicodeDecodeError, [LogCommand analysis; Popen analysis true])
  /\ stderr_writes (snd run) = []
  /\ (forall text, ~ In (StderrWrite text) (snd run)).
Proof.
  split; [discriminate|].
  split; [vm_compute; reflexivity|].
  split; [vm_compute; reflexivity|].
  intros text [H|[H|[]]]; discriminate.
Qed.

(** C7 as written, at extractions that fail and leave bytes that are
    no UTF-8, not in verbose mode: on a file system that raises
    nothing, the first failure ends the run with
    [UnicodeDecodeError]; the second interval is not extracted and no
    metadata is written. *)
Lemma undecodable_extraction_aborts_the_batch :
  let rt := example_runtime undecodable_extraction in
  let chunks := [(PyFloat.of_decimal 5 1, PyFloat.of_decimal 32 1);
                 (PyFloat.of_decimal 5 0, PyFloat.of_decimal 8 0)] in
  let run := split_audio_chunks rt "in.wav" "out/chunk_" PyFloat.zero false
                                (Some "out/meta.json") chunks [] in
  filesystem_ok rt
  /\ pattern_ok rt "out/chunk_"
  /\ fst run = Err UnicodeDecodeError
  /\ exit_status (fst run) = 1
  /\ launched (snd run)
     = [Extract "in.wav" (PyFloat.of_decimal 5 1)
                (PyFloat.sub (PyFloat.of_decimal 32 1) (PyFloat.of_decimal 5 1))
                None "out/chunk_0"]
  /\ dumps (snd run) = []
  /\ List.length chunks = 2%nat.
Proof.
  split; [apply example_runtime_filesystem_ok|].
  split; [apply example_runtime_pattern_ok|].
  repeat split; vm_compute; reflexivity.
Qed.

(* ================================================================== *)
(** * The metadata document *)

(** A loop that returns has appended the entries of its chunks. *)
Lemma split_chunks_returns (rt : runtime) (in_filename out_pattern : string)
      (padding : float) (verbose : bool) (chunks : list (float * float)) :
  forall (metadata : list dict) (i : nat) (tr tr' : list event) (result : list dict),
    split_chunks rt in_filename out_pattern padding verbose metadata i chunks tr
    = (Ok result, tr') ->
    result = metadata ++ entries rt out_pattern i chunks.
Proof.
  induction chunks as [|[a b] rest IH]; intros metadata i tr tr' result H.
  - simpl in H. unfold ret in H. inversion H. rewrite app_nil_r. reflexivity.
  - cbn [split_chunks] in H. unfold then_ at 1 in H.
    destruct (split_chunk rt in_filename out_pattern padding verbose metadata i (a, b) tr)
      as [[md|e] tr1] eqn:E; [|discriminate].
    apply IH in H. subst result.
    assert (M : md = metadata ++ [chunk_entry (out_name rt out_pattern i) a b]).
    { rewrite split_chunk_cases in E. unfold out_name.
      destruct (str_format rt out_pattern i) as [name|e]; [|discriminate].
      destruct (_makedirs rt (dirname name) tr) as [[[]|e] tr2]; [|discriminate].
      cbn zeta in E.
      match type of E with
      | context [if ?c then _ else _] => destruct c
      end; [|inversion E; reflexivity].
      match type of E with
      | context [decode ?x] => destruct (decode x)
      end; inversion E; reflexivity. }
    subst md. cbn [entries]. rewrite <- app_assoc. reflexivity.
Qed.

Lemma entries_records (rt : runtime) (out_pattern : string) (chunks : list (float * float)) :
  forall i, Forall2 record_of (entries rt out_pattern i chunks) chunks.
Proof.
  induction chunks as [|[a b] rest IH]; intros i; simpl; constructor; [|apply IH].
  eexists. reflexivity.
Qed.

(** C8.  A run of [split_audio] over the intervals [chunks] that is
    given a metadata path and returns has, as its last event, dumped to
    that path the list of one record per interval, in the order of the
    intervals; each record holds filename, start, end and duration,
    the three numbers as ['{:.04f}'] text, the duration being the text
    of [end - start]; and the text of every finite number is decimal
    text with four decimals. *)
Theorem metadata_document
        (rt : runtime) (in_filename out_pattern : string) (padding : float)
        (verbose : bool) (path : string) (chunks : list (float * float))
        (tr tr' : list event) :
  split_audio_chunks rt in_filename out_pattern padding verbose (Some path) chunks tr
  = (Ok tt, tr') ->
  exists before document,
    tr' = before ++ [JsonDump path document] /\
    List.length document = List.length chunks /\
    Forall2 record_of document chunks /\
    (forall x, PyFloat.is_finite x = true -> fixed4 (PyFloat.format_04f x) = true).
Proof.
  intros H.
  unfold split_audio_chunks, then_ in H.
  destruct (split_chunks rt in_filename out_pattern padding verbose [] 0 chunks tr)
    as [[md|e] tr1] eqn:E; [|discriminate].
  apply split_chunks_returns in E. simpl in E. subst md.
  unfold write_metadata, then_ in H.
  destruct (_makedirs rt (dirname path) tr1) as [[[]|e] tr2]; [|discriminate].
  unfold emit in H.
  destruct (open_w rt (tr2 ++ [OpenW path]) path); [discriminate|].
  inversion H; subst tr'.
  exists (tr2 ++ [OpenW path]), (entries rt out_pattern 0 chunks).
  split; [reflexivity|].
  split; [apply entries_length|].
  split; [apply entries_records|].
  exact format_04f_fixed4.
Qed.

(* ================================================================== *)
(** * Instances *)

Lemma balanced_stream_intervals_witness :
  classify_all [" silence_end: 0.500000 "; " silence_start: 3.200000"]
  = Ok [SilenceEnd (PyFloat.of_decimal 5 1); SilenceStart (PyFloat.of_decimal 32 1)]
  /\ chunk_times_of_lines None None [" silence_end: 0.500000 "; " silence_start: 3.200000"]
     = Ok [(PyFloat.of_decimal 5 1, PyFloat.of_decimal 32 1)]
  /\ Forall proper [(PyFloat.of_decimal 5 1, PyFloat.of_decimal 32 1)].
Proof.
  split; [reflexivity|].
  destruct (balanced_stream_intervals
              None None [" silence_end: 0.500000 "; " silence_start: 3.200000"]
              [SilenceEnd (PyFloat.of_decimal 5 1); SilenceStart (PyFloat.of_decimal 32 1)]
              1%nat eq_refl eq_refl eq_refl) as (chunks & H1 & H2 & H3).
  assert (C : chunks = [(PyFloat.of_decimal 5 1, PyFloat.of_decimal 32 1)]).
  { vm_compute in H1. inversion H1. reflexivity. }
  subst chunks. split; [exact H1|].
  apply H3; reflexivity.
Defined.

Lemma leading_sound_interval_witness :
  classify_all [" silence_start: 3.200000"; " silence_end: 5.000000 "]
  = Ok [SilenceStart (PyFloat.of_decimal 32 1); SilenceEnd (PyFloat.of_decimal 5 0)]
  /\ first_marker [SilenceStart (PyFloat.of_decimal 32 1); SilenceEnd (PyFloat.of_decimal 5 0)]
     = Some (SilenceStart (PyFloat.of_decimal 32 1))
  /\ exists rest,
      chunk_times_of_lines None None [" silence_start: 3.200000"; " silence_end: 5.000000 "]
      = Ok ((PyFloat.zero, PyFloat.of_decimal 32 1) :: rest)
      /\ same_number PyFloat.zero PyFloat.zero.
Proof.
  split; [reflexivity|]. split; [reflexivity|].
  exact (leading_sound_interval
           None None [" silence_start: 3.200000"; " silence_end: 5.000000 "]
           [SilenceStart (PyFloat.of_decimal 32 1); SilenceEnd (PyFloat.of_decimal 5 0)]
           (PyFloat.of_decimal 32 1) eq_refl eq_refl).
Defined.

Lemma one_event_per_line_witness :
  Re.search silence_start_re
            "size=1 time=00:00:09.00 bitrate= silence_end: 1  silence_start: 2"
  = Some [("start", "2")]
  /\ scan_line PyFloat.zero
               {| chunk_starts := [PyFloat.zero]; chunk_ends := []; end_time := None |}
               "size=1 time=00:00:09.00 bitrate= silence_end: 1  silence_start: 2"
     = Ok {| chunk_starts := [PyFloat.zero];
             chunk_ends := [PyFloat.of_decimal 2 0];
             end_time := None |}.
Proof.
  split; [reflexivity|].
  exact (proj1 (one_event_per_line
                  PyFloat.zero
                  {| chunk_starts := [PyFloat.zero]; chunk_ends := []; end_time := None |}
                  "size=1 time=00:00:09.00 bitrate= silence_end: 1  silence_start: 2")
               [("start", "2")] eq_refl).
Defined.

Lemma analysis_failure_is_fatal_witness :
  returncode (failing_analysis
                [LogCommand (SilenceDetect "in.wav" None None (-30) (PyFloat.of_decimal 3 1));
                 Popen (SilenceDetect "in.wav" None None (-30) (PyFloat.of_decimal 3 1)) true]
                (SilenceDetect "in.wav" None None (-30) (PyFloat.of_decimal 3 1))) <> 0
  /\ split_audio (example_runtime failing_analysis) "in.wav" "out/chunk_" PyFloat.zero false
                 (-30) (PyFloat.of_decimal 3 1) None None None []
     = (Err (SystemExit 1),
        [LogCommand (SilenceDetect "in.wav" None None (-30) (PyFloat.of_decimal 3 1));
         Popen (SilenceDetect "in.wav" None None (-30) (PyFloat.of_decimal 3 1)) true;
         StderrWrite "no such file"]).
Proof.
  split; [simpl; discriminate|].
  refine (proj1 (proj2 (proj1 (proj2 (proj2 (proj2 (proj2
            (analysis_failure_is_fatal
               (example_runtime failing_analysis) "in.wav" "out/chunk_"
               PyFloat.zero false (-30) (PyFloat.of_decimal 3 1)
               None None None [] _)))))
            "no such file" eq_refl))).
  simpl. discriminate.
Defined.

Lemma extraction_failures_are_not_fatal_witness :
  filesystem_ok (example_runtime failing_extraction)
  /\ pattern_ok (example_runtime failing_extraction) "out/chunk_"
  /\ failures_readable (example_runtime failing_extraction) false
  /\ exists tr',
      split_chunks (example_runtime failing_extraction) "in.wav" "out/chunk_" PyFloat.zero
                   false [] 0
                   [(PyFloat.of_decimal 5 1, PyFloat.of_decimal 32 1);
                    (PyFloat.of_decimal 5 0, PyFloat.of_decimal 8 0)] []
      = (Ok [[("filename", "out/chunk_0"); ("start", "0.5000"); ("end", "3.2000");
              ("duration", "2.7000")];
             [("filename", "out/chunk_1"); ("start", "5.0000"); ("end", "8.0000");
              ("duration", "3.0000")]], tr')
      /\ launched tr'
         = [Extract "in.wav" (PyFloat.of_decimal 5 1)
                    (PyFloat.sub (PyFloat.of_decimal 32 1) (PyFloat.of_decimal 5 1))
                    None "out/chunk_0";
            Extract "in.wav" (PyFloat.of_decimal 5 0)
                    (PyFloat.sub (PyFloat.of_decimal 8 0) (PyFloat.of_decimal 5 0))
                    None "out/chunk_1"].
Proof.
  split; [apply example_runtime_filesystem_ok|].
  split; [apply example_runtime_pattern_ok|].
  split; [apply failing_extraction_readable|].
  exact (proj1 (extraction_failures_are_not_fatal
                  (example_runtime failing_extraction) "in.wav" "out/chunk_" PyFloat.zero
                  false
                  [(PyFloat.of_decimal 5 1, PyFloat.of_decimal 32 1);
                   (PyFloat.of_decimal 5 0, PyFloat.of_decimal 8 0)]
                  (example_runtime_filesystem_ok failing_extraction)
                  (example_runtime_pattern_ok failing_extraction "out/chunk_")
                  (failing_extraction_readable false))
               [] 0%nat []).
Defined.

Lemma metadata_document_witness :
  fst (split_audio_chunks (example_runtime failing_extraction) "in.wav" "out/chunk_"
                          PyFloat.zero false (Some "out/meta.json")
                          [(PyFloat.of_decimal 5 1, PyFloat.of_decimal 32 1);
                           (PyFloat.of_decimal 5 0, PyFloat.of_decimal 8 0)] [])
  = Ok tt
  /\ exists before document,
      snd (split_audio_chunks (example_runtime failing_extraction) "in.wav" "out/chunk_"
                              PyFloat.zero false (Some "out/meta.json")
                              [(PyFloat.of_decimal 5 1, PyFloat.of_decimal 32 1);
                               (PyFloat.of_decimal 5 0, PyFloat.of_decimal 8 0)] [])
      = before ++ [JsonDump "out/meta.json" document]
      /\ List.length document = 2%nat
      /\ Forall2 record_of document
                 [(PyFloat.of_decimal 5 1, PyFloat.of_decimal 32 1);
                  (PyFloat.of_decimal 5 0, PyFloat.of_decimal 8 0)]
      /\ (forall x, PyFloat.is_finite x = true -> fixed4 (PyFloat.format_04f x) = true).
Proof.
  split; [vm_compute; reflexivity|].
  apply (metadata_document (example_runtime failing_extraction) "in.wav" "out/chunk_"
                           PyFloat.zero false "out/meta.json"
                           [(PyFloat.of_decimal 5 1, PyFloat.of_decimal 32 1);
                            (PyFloat.of_decimal 5 0, PyFloat.of_decimal 8 0)] []).
  vm_compute. reflexivity.
Defined.

(** The run of the two lemmas above, event by event: both extractions
    fail, both entries are written. *)
Lemma two_failed_extractions_trace :
  launched
    (snd (split_audio_chunks (example_runtime failing_extraction) "in.wav" "out/chunk_"
                             PyFloat.zero false (Some "out/meta.json")
                             [(PyFloat.of_decimal 5 1, PyFloat.of_decimal 32 1);
                              (PyFloat.of_decimal 5 0, PyFloat.of_decimal 8 0)] []))
  = extractions (example_runtime failing_extraction) "in.wav" "out/chunk_" PyFloat.zero 0
                [(PyFloat.of_decimal 5 1, PyFloat.of_decimal 32 1);
                 (PyFloat.of_decimal 5 0, PyFloat.of_decimal 8 0)]
  /\ stderr_writes
       (snd (split_audio_chunks (example_runtime failing_extraction) "in.wav" "out/chunk_"
                                PyFloat.zero false (Some "out/meta.json")
                                [(PyFloat.of_decimal 5 1, PyFloat.of_decimal 32 1);
                                 (PyFloat.of_decimal 5 0, PyFloat.of_decimal 8 0)] []))
     = ["disk full"; "disk full"]
  /\ last (snd (split_audio_chunks (example_runtime failing_extraction) "in.wav" "out/chunk_"
                                   PyFloat.zero false (Some "out/meta.json")
                                   [(PyFloat.of_decimal 5 1, PyFloat.of_decimal 32 1);
                                    (PyFloat.of_decimal 5 0, PyFloat.of_decimal 8 0)] []))
          (OpenW "")
     = JsonDump "out/meta.json"
                [[("filename", "out/chunk_0"); ("start", "0.5000"); ("end", "3.2000");
                  ("duration", "2.7000")];
                 [("filename", "out/chunk_1"); ("start", "5.0000"); ("end", "8.0000");
                  ("duration", "3.0000")]].
Proof.
  repeat split; vm_compute; reflexivity.
Qed.

(* ================================================================== *)
(** * More on the scan *)

Lemma scan_lines_app (start_time : float) (l1 l2 : list string) :
  forall st : scan_state,
    scan_lines start_time st (l1 ++ l2) =
    (st' <- scan_lines start_time st l1 ;; scan_lines start_time st' l2).
Proof.
  induction l1 as [|line l1 IH]; intros st; [reflexivity|].
  simpl. destruct (scan_line start_time st line) as [st'|e]; simpl; [apply IH|reflexivity].
Qed.

(** X1.  A line that none of the three patterns matches can be put
    anywhere into a stream, or taken out of it, without a change of
    the result, be it the intervals or an exception. *)
Theorem unmatched_line_is_ignored
        (start_time end_time : option float) (before after : list string) (line : string) :
  Re.search silence_start_re line = None ->
  Re.search silence_end_re line = None ->
  Re.search total_duration_re line = None ->
  chunk_times_of_lines start_time end_time (before ++ line :: after)
  = chunk_times_of_lines start_time end_time (before ++ after).
Proof.
  intros H1 H2 H3. unfold chunk_times_of_lines.
  rewrite !scan_lines_app.
  destruct (scan_lines _ _ before) as [st|e]; simpl; [|reflexivity].
  unfold scan_line. rewrite H1, H2, H3. reflexivity.
Qed.

Lemma unmatched_line_is_ignored_witness :
  chunk_times_of_lines None None
    ([" silence_end: 0.5 |"] ++ "Press [q] to stop" :: [" silence_start: 3.2"])
  = chunk_times_of_lines None None ([" silence_end: 0.5 |"] ++ [" silence_start: 3.2"]).
Proof.
  apply (unmatched_line_is_ignored None None [" silence_end: 0.5 |"]
           [" silence_start: 3.2"] "Press [q] to stop"); reflexivity.
Defined.

(** The exception of a scan does not depend on the state it starts
    from. *)
Lemma scan_lines_error_any_state (start_time : float) (lines : list string) (e : exn) :
  forall st1 st2 : scan_state,
    scan_lines start_time st1 lines = Err e ->
    scan_lines start_time st2 lines = Err e.
Proof.
  induction lines as [|line rest IH]; intros st1 st2; simpl; [discriminate|].
  rewrite !scan_line_classify.
  destruct (classify line) as [ev|e']; simpl; [apply IH|auto].
Qed.

(** A scan that returns has classified every line. *)
Lemma scan_lines_returns (start_time : float) (lines : list string) (st st' : scan_state) :
  scan_lines start_time st lines = Ok st' ->
  exists evs, classify_all lines = Ok evs.
Proof.
  intros H. destruct (classify_all lines) as [evs|e] eqn:C; [eauto|].
  destruct (scan_lines_raises start_time lines st e C) as [e' E]. congruence.
Qed.

Lemma chunk_times_returns (start_time end_time : option float) (lines : list string)
      (chunks : list (float * float)) :
  chunk_times_of_lines start_time end_time lines = Ok chunks ->
  exists evs, classify_all lines = Ok evs.
Proof.
  unfold chunk_times_of_lines. intros H.
  destruct (scan_lines _ _ lines) as [st|e] eqn:S; [|discriminate].
  exact (scan_lines_returns _ _ _ _ S).
Qed.

Lemma last_nonempty_any_default {A : Type} (l : list A) (d1 d2 : A) :
  l <> [] -> last l d1 = last l d2.
Proof.
  induction l as [|a l IH]; [congruence|]. intros _.
  destruct l as [|b l]; [reflexivity|].
  change (last (a :: b :: l) d1) with (last (b :: l) d1).
  change (last (a :: b :: l) d2) with (last (b :: l) d2).
  apply IH. discriminate.
Qed.

Lemma classify_all_in (lines : list string) :
  forall (evs : list silence_event) (line : string) (ev : silence_event),
    classify_all lines = Ok evs ->
    In line lines ->
    classify line = Ok (Some ev) ->
    In ev evs.
Proof.
  induction lines as [|l rest IH]; intros evs line ev H Hin Hc; [contradiction|].
  simpl in H.
  destruct (classify l) as [e1|] eqn:C1; simpl in H; [|discriminate].
  destruct (classify_all rest) as [evs'|] eqn:C2; simpl in H; [|discriminate].
  inversion H; subst; clear H.
  destruct Hin as [->|Hin].
  - rewrite Hc in C1. inversion C1; subst. left; reflexivity.
  - specialize (IH evs' line ev eq_refl Hin Hc).
    destruct e1; [right|]; exact IH.
Qed.

Lemma reported_in (evs : list silence_event) (h m : Z) (s : float) :
  In (DurationReport h m s) evs -> reported evs <> [].
Proof.
  induction evs as [|[t|t|h' m' s'] rest IH]; simpl; intros H.
  - contradiction.
  - destruct H as [H|H]; [discriminate|auto].
  - destruct H as [H|H]; [discriminate|auto].
  - discriminate.
Qed.

Lemma classify_all_line (lines : list string) :
  forall (evs : list silence_event) (line : string),
    classify_all lines = Ok evs ->
    In line lines ->
    exists ev, classify line = Ok ev.
Proof.
  induction lines as [|l rest IH]; intros evs line H Hin; [contradiction|].
  simpl in H.
  destruct (classify l) as [e1|] eqn:C1; simpl in H; [|discriminate].
  destruct (classify_all rest) as [evs'|] eqn:C2; simpl in H; [|discriminate].
  destruct Hin as [->|Hin]; [eauto|].
  exact (IH evs' line eq_refl Hin).
Qed.

(** A line that only the duration pattern matches, when it classifies,
    is a duration report. *)
Lemma classify_duration_line (line : string) (m : Re.groups) (ev : option silence_event) :
  Re.search silence_start_re line = None ->
  Re.search silence_end_re line = None ->
  Re.search total_duration_re line = Some m ->
  classify line = Ok ev ->
  exists h mi s, ev = Some (DurationReport h mi s).
Proof.
  intros H1 H2 H3. unfold classify. rewrite H1, H2, H3.
  destruct (int_ (Re.group "hours" m)); simpl; [|discriminate].
  destruct (int_ (Re.group "minutes" m)); simpl; [|discriminate].
  destruct (float_ (Re.group "seconds" m)); simpl; [|discriminate].
  intros H; inversion H; eauto.
Qed.

(** X2.  Once a line of the stream is a duration report, the
    [end_time] argument has no part in the result: the reported
    duration replaces it. *)
Theorem duration_report_overrides_end_time
        (start_time end_time1 end_time2 : option float)
        (lines : list string) (line : string) (m : Re.groups) :
  In line lines ->
  Re.search silence_start_re line = None ->
  Re.search silence_end_re line = None ->
  Re.search total_duration_re line = Some m ->
  chunk_times_of_lines start_time end_time1 lines
  = chunk_times_of_lines start_time end_time2 lines.
Proof.
  intros Hin H1 H2 H3.
  destruct (classify_all lines) as [evs|e] eqn:C.
  - rewrite !(chunk_times_events _ _ _ _ C).
    destruct (classify_all_line _ _ _ C Hin) as [ev L].
    destruct (classify_duration_line _ _ _ H1 H2 H3 L) as (h & mi & s & ->).
    pose proof (reported_in _ _ _ _ (classify_all_in _ _ _ _ C Hin L)) as R.
    unfold reported_end.
    rewrite (last_nonempty_any_default _ end_time1 end_time2); [reflexivity|].
    destruct (reported evs); [congruence|discriminate].
  - unfold chunk_times_of_lines.
    destruct (scan_lines_raises (default_start start_time) lines
                {| chunk_starts := []; chunk_ends := []; end_time := end_time1 |} e C)
      as [e' E].
    rewrite E.
    rewrite (scan_lines_error_any_state _ _ _ _
               {| chunk_starts := []; chunk_ends := []; end_time := end_time2 |} E).
    reflexivity.
Qed.

Lemma duration_report_overrides_end_time_witness :
  chunk_times_of_lines None (Some (PyFloat.of_decimal 2 0))
                       ["size=N/A time=00:00:08.00 bitrate=N/A"]
  = chunk_times_of_lines None None ["size=N/A time=00:00:08.00 bitrate=N/A"].
Proof.
  apply (duration_report_overrides_end_time
           None (Some (PyFloat.of_decimal 2 0)) None
           ["size=N/A time=00:00:08.00 bitrate=N/A"]
           "size=N/A time=00:00:08.00 bitrate=N/A"
           [("seconds", "08.00"); ("minutes", "00"); ("hours", "00")]);
    [left; reflexivity|reflexivity|reflexivity|reflexivity].
Defined.

(** X3.  When [get_chunk_times] returns, it returns at least one
    interval. *)
Theorem chunk_times_never_empty
        (start_time end_time : option float) (lines : list string)
        (chunks : list (float * float)) :
  chunk_times_of_lines start_time end_time lines = Ok chunks ->
  chunks <> [].
Proof.
  intros H.
  destruct (chunk_times_returns _ _ _ _ H) as [evs C].
  destruct (interval_count start_time end_time lines evs C) as (chunks' & H' & L).
  rewrite H in H'. inversion H'; subst chunks'; clear H'.
  intros ->. simpl in L.
  unfold starts_with_silence_end in L.
  destruct (first_marker evs) as [[t|t|h m s]|] eqn:F; try discriminate.
  destruct (first_marker_end _ _ F) as [r Hr].
  pose proof (end_times_length evs) as E. rewrite Hr in E. simpl in E.
  rewrite <- E in L. simpl in L. discriminate.
Qed.

Lemma chunk_times_never_empty_witness :
  chunk_times_of_lines None None [] = Ok [(PyFloat.zero, sentinel)]
  /\ [(PyFloat.zero, sentinel)] <> [].
Proof.
  split; [reflexivity|].
  exact (chunk_times_never_empty None None [] [(PyFloat.zero, sentinel)] eq_refl).
Defined.

(** X4.  When the first silence marker of a stream is a silence end at
    [t], the first interval starts at [t]: what comes before the end
    of the first silence belongs to no interval, whatever the start
    time. *)
Theorem leading_silence_is_dropped
        (start_time end_time : option float) (lines : list string)
        (evs : list silence_event) (t : float) :
  classify_all lines = Ok evs ->
  first_marker evs = Some (SilenceEnd t) ->
  exists e rest,
    chunk_times_of_lines start_time end_time lines = Ok ((t, e) :: rest).
Proof.
  intros C F.
  rewrite (chunk_times_events _ _ _ _ C).
  unfold pair_chunks, patch_starts, patch_ends, lead. project_state.
  rewrite F.
  destruct (first_marker_end _ _ F) as [r ->].
  cbn [app List.length Nat.eqb].
  destruct (start_times evs) as [|b bs]; cbn;
    repeat match goal with
           | |- context [if ?c then _ else _] => destruct c
           end; cbn; eauto.
Qed.

Lemma leading_silence_is_dropped_witness :
  classify_all [" silence_end: 0.5 |"; " silence_start: 3.2"]
  = Ok [SilenceEnd (PyFloat.of_decimal 5 1); SilenceStart (PyFloat.of_decimal 32 1)]
  /\ exists e rest,
      chunk_times_of_lines None None [" silence_end: 0.5 |"; " silence_start: 3.2"]
      = Ok ((PyFloat.of_decimal 5 1, e) :: rest).
Proof.
  split; [reflexivity|].
  exact (leading_silence_is_dropped
           None None [" silence_end: 0.5 |"; " silence_start: 3.2"]
           [SilenceEnd (PyFloat.of_decimal 5 1); SilenceStart (PyFloat.of_decimal 32 1)]
           (PyFloat.of_decimal 5 1) eq_refl eq_refl).
Defined.

(** X5.  When the scan and the first patch leave more starts than
    ends, the last interval ends at the value of
    [end_time or 10000000.]: at the end time in force when that is a
    number other than zero, at [10000000.] when it is [None] or zero. *)
Theorem final_interval_end
        (start_time given_end : option float) (lines : list string) (st : scan_state) :
  scan_lines (default_start start_time)
             {| chunk_starts := []; chunk_ends := []; end_time := given_end |} lines
  = Ok st ->
  (List.length (chunk_ends st)
   < List.length (patch_starts (default_start start_time) st))%nat ->
  exists before a stop,
    chunk_times_of_lines start_time given_end lines = Ok (before ++ [(a, stop)]) /\
    stop = or_none (end_time st) sentinel /\
    match end_time st with
    | Some e => if PyFloat.truthy e then stop = e else stop = sentinel
    | None => stop = sentinel
    end.
Proof.
  intros S L. unfold chunk_times_of_lines. rewrite S. simpl.
  unfold pair_chunks, patch_ends.
  apply Nat.ltb_lt in L. rewrite L.
  apply Nat.ltb_lt in L.
  destruct (combine_longer_left _ _ (or_none (end_time st) sentinel) L)
    as (pre & x & E).
  exists pre, x, (or_none (end_time st) sentinel).
  rewrite E. repeat split.
  pose proof (or_none_cases (end_time st)) as O.
  destruct (end_time st) as [e|]; [|exact O].
  destruct (PyFloat.truthy e); exact O.
Qed.

Lemma final_interval_end_witness :
  exists before a stop,
    chunk_times_of_lines None None [" silence_end: 5.0 |"; "size=N/A time=00:00:08.00 bitrate=N/A"]
    = Ok (before ++ [(a, stop)]) /\
    stop = PyFloat.of_decimal 8 0 /\ stop = PyFloat.of_decimal 8 0.
Proof.
  exact (final_interval_end
           None None [" silence_end: 5.0 |"; "size=N/A time=00:00:08.00 bitrate=N/A"]
           {| chunk_starts := [PyFloat.of_decimal 5 0]; chunk_ends := [];
              end_time := Some (PyFloat.of_decimal 8 0) |}
           eq_refl (Nat.lt_0_succ 0)).
Defined.

(** X6.  No time is invented: every interval starts at the start time
    in force ([start_time], or the value of [start_time or 0.]) or at
    the time of a silence end of the stream, and ends at the time of a
    silence start of the stream or at the value of
    [end_time or 10000000.]. *)
Theorem interval_times_come_from_the_stream
        (start_time end_time : option float) (lines : list string)
        (evs : list silence_event) (chunks : list (float * float)) (a b : float) :
  classify_all lines = Ok evs ->
  chunk_times_of_lines start_time end_time lines = Ok chunks ->
  In (a, b) chunks ->
  (a = default_start start_time \/
   a = or_ (default_start start_time) PyFloat.zero \/
   In a (end_times evs))
  /\ (In b (start_times evs) \/
      b = or_none (reported_end end_time evs) sentinel).
Proof.
  intros C H Hin.
  rewrite (chunk_times_events _ _ _ _ C) in H. inversion H; subst chunks; clear H.
  unfold pair_chunks in Hin.
  pose proof (in_combine_l _ _ _ _ Hin) as Ha.
  pose proof (in_combine_r _ _ _ _ Hin) as Hb.
  split.
  - clear Hb Hin. unfold patch_starts, lead in Ha. cbn [chunk_starts] in Ha.
    match type of Ha with
    | context [if ?c then _ else _] => destruct c
    end.
    + apply in_app_or in Ha. destruct Ha as [Ha|[Ha|[]]]; [|auto].
      apply in_app_or in Ha. destruct Ha as [Ha|Ha]; [|auto].
      destruct (first_marker evs) as [[]|]; simpl in Ha; intuition.
    + apply in_app_or in Ha. destruct Ha as [Ha|Ha]; [|auto].
      destruct (first_marker evs) as [[]|]; simpl in Ha; intuition.
  - clear Ha Hin. unfold patch_ends in Hb. project_state_in Hb.
    match type of Hb with
    | context [if ?c then _ else _] => destruct c
    end; [|auto].
    apply in_app_or in Hb. destruct Hb as [Hb|[Hb|[]]]; auto.
Qed.

Lemma interval_times_come_from_the_stream_witness :
  (PyFloat.zero = default_start None \/
   PyFloat.zero = or_ (default_start None) PyFloat.zero \/
   In PyFloat.zero (end_times [SilenceStart (PyFloat.of_decimal 32 1)]))
  /\ (In (PyFloat.of_decimal 32 1) (start_times [SilenceStart (PyFloat.of_decimal 32 1)]) \/
      PyFloat.of_decimal 32 1
      = or_none (reported_end None [SilenceStart (PyFloat.of_decimal 32 1)]) sentinel).
Proof.
  exact (interval_times_come_from_the_stream
           None None [" silence_start: 3.2"] [SilenceStart (PyFloat.of_decimal 32 1)]
           [(PyFloat.zero, PyFloat.of_decimal 32 1)]
           PyFloat.zero (PyFloat.of_decimal 32 1)
           eq_refl eq_refl (or_introl eq_refl)).
Defined.

(* ================================================================== *)
(** * The one exception of the scan *)

Lemma take_digits_and_points (i : nat) (s : string) :
  (i <= Re.run Re.digit_or_point s)%nat ->
  String.length (Re.take i s) = i /\ digits_and_points (Re.take i s) = true.
Proof.
  revert s; induction i as [|i IH]; intros s H.
  - destruct s; split; reflexivity.
  - destruct s as [|c s]; simpl in H; [lia|].
    destruct (Re.digit_or_point c) eqn:C; [|lia].
    destruct (IH s) as [L A]; [lia|].
    split; simpl; [congruence|]. rewrite C. exact A.
Qed.

(** The seconds of a duration line: five characters, digits or
    points. *)
Lemma total_duration_seconds (line : string) (m : Re.groups) :
  Re.search total_duration_re line = Some m ->
  digits_and_points (Re.group "seconds" m) = true /\
  String.length (Re.group "seconds" m) = 5%nat.
Proof.
  intros H. apply search_sound in H. destruct H as (s0 & s' & M).
  unfold total_duration_re, Re.named in M.
  repeat match goal with
         | M : matches (Re.Cat _ _) _ _ _ _ |- _ => inversion M; subst; clear M
         | M : matches (Re.Lit _) _ _ _ _ |- _ => inversion M; subst; clear M
         | M : matches (Re.plus _) _ _ _ _ |- _ => inversion M; subst; clear M
         | M : matches (Re.Grp _ _) _ _ _ _ |- _ => inversion M; subst; clear M
         end.
  repeat match goal with
         | M : matches (Re.times _ Re.digit) _ _ _ _ |- _ =>
             inversion M; subst; clear M
         end.
  match goal with
  | M : matches (Re.times _ Re.digit_or_point) ?s _ _ _ |- _ =>
      inversion M as [|? ? ? ? ? k Hk1 Hk2 Hk3| | |]; subst; clear M;
      pose proof (Hk3 5%nat eq_refl) as Hk4;
      pose proof (run_length Re.digit_or_point s) as R;
      destruct (take_digits_and_points k s Hk2) as [L D]
  end.
  cbn [Re.bind_group Re.group String.eqb Ascii.eqb Bool.eqb].
  rewrite drop_length.
  match goal with
  | |- context [Re.take ?n ?s] => replace n with k by lia
  end.
  split; [exact D|lia].
Qed.

Lemma digits_value_digits (s : string) :
  forall acc, (exists n, PyFloat.digits_value acc s = Some n) <-> all_digits s = true.
Proof.
  induction s as [|c s IH]; intros acc; simpl.
  - split; eauto.
  - destruct (PyFloat.is_digit c); simpl; [apply IH|].
    split; [intros [n H]; discriminate|discriminate].
Qed.

Lemma split_point_spec (s : string) :
  digits_and_points s = true ->
  let '(i, f) := PyFloat.split_point s in
  all_digits i = true /\
  match f with
  | None => points s = 0%nat /\ s = i
  | Some f' => points s = S (points f') /\ digits_and_points f' = true /\
               String.length s = S (String.length i + String.length f')
  end.
Proof.
  induction s as [|c s IH]; simpl; intros H; [auto|].
  apply andb_true_iff in H. destruct H as [Hc Hs].
  destruct (Ascii.eqb_spec c ".") as [->|N].
  - simpl. auto.
  - specialize (IH Hs). destruct (PyFloat.split_point s) as [i f].
    destruct IH as [Di Hf]. simpl.
    unfold Re.digit_or_point, Re.point, Re.digit in Hc.
    destruct (Ascii.eqb_spec c "."); [contradiction|].
    rewrite orb_false_r in Hc. rewrite Hc. split; [exact Di|].
    destruct f as [f'|].
    + destruct Hf as (P & D & L). repeat split; auto.
    + destruct Hf as [P E]. split; [exact P|congruence].
Qed.

Lemma points_zero_digits (s : string) :
  digits_and_points s = true -> (points s = 0%nat <-> all_digits s = true).
Proof.
  induction s as [|c s IH]; simpl; intros H; [tauto|].
  apply andb_true_iff in H. destruct H as [Hc Hs].
  unfold Re.digit_or_point, Re.point, Re.digit in Hc.
  destruct (Ascii.eqb_spec c ".") as [->|N]; simpl.
  - split; [discriminate|]. intros H. discriminate.
  - rewrite orb_false_r in Hc. rewrite Hc. simpl. apply IH. exact Hs.
Qed.

(** [float] of five digits and points fails exactly on two or more
    points. *)
Lemma float_seconds (text : string) :
  digits_and_points text = true ->
  String.length text = 5%nat ->
  (float_ text = Err ValueError <-> (2 <= points text)%nat) /\
  (forall e, float_ text = Err e -> e = ValueError).
Proof.
  intros D L. split.
  2: { unfold float_. destruct (PyFloat.of_string text); intros e H; inversion H; reflexivity. }
  unfold float_, PyFloat.of_string.
  pose proof (split_point_spec text D) as S.
  destruct (PyFloat.split_point text) as [i f].
  destruct S as [Di Hf].
  destruct (proj2 (digits_value_digits i 0) Di) as [a Ha]. rewrite Ha.
  destruct f as [f'|].
  - destruct Hf as (P & Df & Lf).
    destruct (Nat.eqb_spec (String.length i + String.length f') 0) as [Z|NZ]; [lia|].
    destruct (PyFloat.digits_value a f') as [n|] eqn:V.
    + split; [discriminate|]. intros H.
      assert (A : all_digits f' = true) by (apply (digits_value_digits f' a); eauto).
      apply (points_zero_digits f' Df) in A. lia.
    + split; [|reflexivity]. intros _.
      destruct (points f') eqn:Pf; [|lia].
      apply (points_zero_digits f' Df) in Pf.
      destruct (proj2 (digits_value_digits f' a) Pf) as [n Hn]. congruence.
  - destruct Hf as [P E]. subst i.
    destruct (Nat.eqb_spec (String.length text + String.length "") 0) as [Z|NZ];
      [simpl in Z; lia|].
    simpl. split; [discriminate|lia].
Qed.

Lemma scan_lines_error_line (start_time : float) (lines : list string) (e : exn) :
  forall st : scan_state,
    scan_lines start_time st lines = Err e ->
    exists line, In line lines /\ classify line = Err e.
Proof.
  induction lines as [|l rest IH]; intros st; simpl; [discriminate|].
  rewrite scan_line_classify.
  destruct (classify l) as [ev|e'] eqn:C; simpl.
  - intros H. destruct (IH _ H) as (line & Hin & Hc). eauto.
  - intros H. inversion H; subst. eauto.
Qed.

Lemma classify_all_error (lines : list string) (line : string) (e : exn) :
  In line lines -> classify line = Err e -> exists e', classify_all lines = Err e'.
Proof.
  induction lines as [|l rest IH]; intros Hin Hc; [contradiction|].
  simpl. destruct Hin as [->|Hin].
  - rewrite Hc. simpl. eauto.
  - destruct (classify l); simpl; [|eauto].
    destruct (IH Hin Hc) as [e' ->]. simpl. eauto.
Qed.

(** X7.  The scan raises exactly when some line is matched by the
    duration pattern alone and has two or more points among the five
    characters of its seconds; the exception is then the [ValueError]
    of [float].  Silence markers never make it raise. *)
Theorem scan_raises_on_malformed_seconds
        (start_time end_time : option float) (lines : list string) :
  ((exists e, chunk_times_of_lines start_time end_time lines = Err e) <->
   (exists line m,
       In line lines /\
       Re.search silence_start_re line = None /\
       Re.search silence_end_re line = None /\
       Re.search total_duration_re line = Some m /\
       (2 <= points (Re.group "seconds" m))%nat))
  /\ (forall e, chunk_times_of_lines start_time end_time lines = Err e -> e = ValueError).
Proof.
  assert (Fwd : forall e, chunk_times_of_lines start_time end_time lines = Err e ->
                          e = ValueError /\
                          exists line m,
                            In line lines /\
                            Re.search silence_start_re line = None /\
                            Re.search silence_end_re line = None /\
                            Re.search total_duration_re line = Some m /\
                            (2 <= points (Re.group "seconds" m))%nat).
  { intros e H. unfold chunk_times_of_lines in H.
    destruct (scan_lines _ _ lines) as [st|e'] eqn:S; simpl in H; [discriminate|].
    inversion H; subst e'; clear H.
    destruct (scan_lines_error_line _ _ _ _ S) as (line & Hin & Hc).
    destruct (classify_raises _ _ Hc) as (H1 & H2 & m & H3 & F).
    destruct (total_duration_seconds _ _ H3) as [D L].
    destruct (float_seconds _ D L) as [I V].
    pose proof (V _ F) as ->. split; [reflexivity|].
    exists line, m. repeat split; auto. apply I. exact F. }
  split; [split|].
  - intros [e H]. exact (proj2 (Fwd e H)).
  - intros (line & m & Hin & H1 & H2 & H3 & P).
    destruct (total_duration_seconds _ _ H3) as [D L].
    destruct (float_seconds _ D L) as [I _].
    assert (C : classify line = Err ValueError).
    { unfold classify. rewrite H1, H2, H3.
      destruct (total_duration_hours_minutes _ _ H3) as (h & mi & -> & ->). simpl.
      rewrite (proj2 I P). reflexivity. }
    destruct (classify_all_error _ _ _ Hin C) as [e' E].
    unfold chunk_times_of_lines.
    destruct (scan_lines_raises (default_start start_time) lines
                {| chunk_starts := []; chunk_ends := []; end_time := end_time |} e' E)
      as [e'' ->].
    simpl. eauto.
  - intros e H. exact (proj1 (Fwd e H)).
Qed.

Lemma scan_raises_on_malformed_seconds_witness :
  chunk_times_of_lines None None ["size=N/A time=00:00:1.2.3 bitrate=N/A"] = Err ValueError
  /\ ValueError = ValueError.
Proof.
  split; [reflexivity|].
  exact (proj2 (scan_raises_on_malformed_seconds
                  None None ["size=N/A time=00:00:1.2.3 bitrate=N/A"])
               ValueError eq_refl).
Defined.

(* ================================================================== *)
(** * Intervals in time order *)

Lemma flatten_combine (xs ys : list float) :
  List.length xs = List.length ys ->
  flatten (combine xs ys) = interleave xs ys.
Proof.
  revert ys; induction xs as [|x xs IH]; intros [|y ys] H; simpl in *;
    try discriminate; [reflexivity|].
  rewrite IH by lia. reflexivity.
Qed.

Lemma interleave_last (xs ys : list float) (e : float) :
  List.length xs = S (List.length ys) ->
  interleave xs (ys ++ [e]) = interleave xs ys ++ [e].
Proof.
  revert ys; induction xs as [|x xs IH]; intros [|y ys] H; simpl in *;
    try discriminate.
  - destruct xs; [reflexivity|discriminate].
  - rewrite IH by lia. reflexivity.
Qed.

(** Alternating markers that open with a silence end: their times are
    the ends and the starts taken in turn, with as many ends as starts
    or one more. *)
Lemma alternating_interleave (n : nat) :
  forall ms : list silence_event,
    (List.length ms <= n)%nat ->
    Forall (fun e => is_marker e = true) ms ->
    alternating ms = true ->
    (forall t, hd_error ms <> Some (SilenceStart t)) ->
    marker_times ms = interleave (end_times ms) (start_times ms) /\
    (List.length (end_times ms) = List.length (start_times ms) \/
     List.length (end_times ms) = S (List.length (start_times ms))).
Proof.
  induction n as [|n IH]; intros ms Hn Hm Ha Hh.
  - destruct ms; [split; [reflexivity|left; reflexivity]|simpl in Hn; lia].
  - destruct ms as [|[a|a|h m s] ms].
    + split; [reflexivity|left; reflexivity].
    + exfalso. apply (Hh a). reflexivity.
    + destruct ms as [|[b|b|h m s] ms].
      * split; [reflexivity|right; reflexivity].
      * destruct (IH ms) as [T L].
        -- simpl in Hn. lia.
        -- inversion Hm as [|? ? ? Hm']; inversion Hm'; assumption.
        -- simpl in Ha. destruct ms; [reflexivity|].
           apply andb_true_iff in Ha. destruct Ha as [_ Ha]. exact Ha.
        -- intros t Ht. destruct ms as [|[c|c|h m s] ms]; simpl in Ha, Ht; discriminate.
        -- cbn [marker_times end_times start_times interleave List.length].
           rewrite T. split; [reflexivity|lia].
      * simpl in Ha. discriminate.
      * inversion Hm as [|? ? ? Hm']; inversion Hm'; discriminate.
    + inversion Hm; discriminate.
Qed.

Lemma increasing_or_zero (x : float) (l : list float) :
  increasing (or_ x PyFloat.zero :: l) = increasing (x :: l).
Proof.
  destruct l as [|y l]; [reflexivity|].
  cbn [increasing]. rewrite ltb_or_zero. reflexivity.
Qed.

Lemma increasing_front (l : list float) (x : float) :
  increasing (l ++ [x]) = true -> increasing l = true.
Proof. apply increasing_app_l. Qed.

(** X8.  For a stream whose markers alternate and whose start time,
    marker times in stream order and end time in force increase
    strictly, the times of the intervals, start, end, start, end and
    so on, increase strictly: every interval starts before it ends and
    ends before the next one starts.  This holds however many markers
    of each kind there are. *)
Theorem intervals_ordered_and_disjoint
        (start_time end_time : option float) (lines : list string)
        (evs : list silence_event) :
  classify_all lines = Ok evs ->
  alternating (markers evs) = true ->
  increasing (default_start start_time :: marker_times evs
                ++ [or_none (reported_end end_time evs) sentinel]) = true ->
  exists chunks,
    chunk_times_of_lines start_time end_time lines = Ok chunks /\
    increasing (flatten chunks) = true.
Proof.
  intros C Ha Hi.
  eexists. split; [apply chunk_times_events; exact C|].
  set (start := default_start start_time) in *.
  set (stop := or_none (reported_end end_time evs) sentinel) in *.
  unfold pair_chunks, patch_starts, patch_ends, lead, first_marker.
  project_state. fold stop.
  rewrite <- (start_times_markers evs), <- (end_times_markers evs).
  rewrite <- (marker_times_markers evs) in Hi.
  pose proof (markers_all evs) as Hm.
  destruct (markers evs) as [|[b|a|h m s] ms] eqn:M.
  - (* no marker *)
    exact Hi.
  - (* a silence start first *)
    cbn [hd_error start_times end_times app List.length Nat.eqb marker_times] in *.
    destruct (alternating_interleave (List.length ms) ms) as [T L].
    + lia.
    + inversion Hm; assumption.
    + simpl in Ha. destruct ms; [reflexivity|].
      apply andb_true_iff in Ha. apply Ha.
    + intros t Ht. destruct ms as [|[c|c|h m s] ms']; simpl in Ha, Ht; discriminate.
    + rewrite T in Hi.
      match goal with
      | |- context [(?x <? ?y)%nat] => destruct (Nat.ltb_spec x y) as [Hlt|Hge]
      end.
      * cbn [combine flatten].
        rewrite flatten_combine by (rewrite length_app; cbn [List.length]; lia).
        rewrite interleave_last by lia.
        rewrite (increasing_or_zero start). exact Hi.
      * cbn [combine flatten].
        rewrite flatten_combine by lia.
        rewrite (increasing_or_zero start).
        apply (increasing_front _ stop). exact Hi.
  - (* a silence end first *)
    cbn [hd_error app].
    destruct (alternating_interleave (S (List.length ms)) (SilenceEnd a :: ms))
      as [T L].
    + reflexivity.
    + exact Hm.
    + exact Ha.
    + discriminate.
    + rewrite T in Hi. apply increasing_tail in Hi.
      destruct (Nat.eqb_spec (List.length (end_times (SilenceEnd a :: ms))) 0) as [Z|_];
        [discriminate|].
      match goal with
      | |- context [(?x <? ?y)%nat] => destruct (Nat.ltb_spec x y) as [Hlt|Hge]
      end.
      * rewrite flatten_combine by (rewrite length_app; cbn [List.length]; lia).
        rewrite interleave_last by lia. exact Hi.
      * rewrite flatten_combine by lia.
        apply (increasing_front _ stop). exact Hi.
  - inversion Hm; discriminate.
Qed.

Lemma intervals_ordered_and_disjoint_witness :
  exists chunks,
    chunk_times_of_lines None None
      [" silence_start: 1.5"; " silence_end: 2.5 |"; " silence_start: 4";
       "size=N/A time=00:00:08.00 bitrate=N/A"]
    = Ok chunks /\
    increasing (flatten chunks) = true.
Proof.
  exact (intervals_ordered_and_disjoint
           None None
           [" silence_start: 1.5"; " silence_end: 2.5 |"; " silence_start: 4";
            "size=N/A time=00:00:08.00 bitrate=N/A"]
           [SilenceStart (PyFloat.of_decimal 15 1); SilenceEnd (PyFloat.of_decimal 25 1);
            SilenceStart (PyFloat.of_decimal 4 0);
            DurationReport 0 0 (PyFloat.of_decimal 8 0)]
           eq_refl eq_refl eq_refl).
Defined.

(* ================================================================== *)
(** * The lines the marker patterns accept *)

Lemma sapp_assoc (a b c : string) : ((a ++ b) ++ c = a ++ b ++ c)%string.
Proof. induction a as [|x a IH]; simpl; congruence. Qed.

Lemma sapp_nil_r (a : string) : (a ++ "" = a)%string.
Proof. induction a as [|x a IH]; simpl; congruence. Qed.

Lemma slength_app (a b : string) :
  String.length (a ++ b) = (String.length a + String.length b)%nat.
Proof. induction a as [|x a IH]; simpl; congruence. Qed.

Lemma strip_prefix_spec (p s s' : string) :
  Re.strip_prefix p s = Some s' <-> s = (p ++ s')%string.
Proof.
  revert s; induction p as [|a p IH]; intros s; simpl.
  - split; [intros H; inversion H; reflexivity|intros ->; reflexivity].
  - destruct s as [|b s]; [split; discriminate|].
    destruct (Ascii.eqb_spec a b) as [->|N].
    + rewrite IH. split; [intros ->; reflexivity|intros H; inversion H; reflexivity].
    + split; [discriminate|intros H; inversion H; congruence].
Qed.

Lemma take_app_drop (i : nat) (s : string) : (Re.take i s ++ Re.drop i s)%string = s.
Proof.
  revert s; induction i as [|i IH]; intros [|c s]; simpl; try reflexivity.
  rewrite IH. reflexivity.
Qed.

Lemma take_app_exact (w s : string) : Re.take (String.length w) (w ++ s) = w.
Proof. induction w as [|c w IH]; simpl; [destruct s; reflexivity|congruence]. Qed.

(** What a match consumes is a head of the text, and what it leaves is
    the rest. *)
Lemma matches_split (r : Re.regex) (s s' : string) (g g' : Re.groups) :
  matches r s g s' g' ->
  s = (Re.take (String.length s - String.length s') s ++ s')%string.
Proof.
  intros M.
  assert (W : exists w, s = (w ++ s')%string).
  { induction M.
    - exists p. apply strip_prefix_spec. assumption.
    - exists (Re.take i s). symmetry. apply take_app_drop.
    - destruct IHM1 as [w1 E1]. destruct IHM2 as [w2 E2].
      exists (w1 ++ w2)%string. rewrite sapp_assoc. congruence.
    - assumption.
    - exists EmptyString. reflexivity. }
  destruct W as [w E]. rewrite E at 2 3.
  rewrite slength_app.
  replace (String.length w + String.length s' - String.length s')%nat
    with (String.length w) by lia.
  rewrite take_app_exact. exact E.
Qed.

Lemma search_position (r : Re.regex) (s : string) (m : Re.groups) :
  Re.search r s = Some m ->
  exists pre s0, s = (pre ++ s0)%string /\ Re.match_here r s0 = Some m.
Proof.
  induction s as [|c s IH]; simpl; intros H.
  - destruct (Re.match_here r EmptyString) as [g|] eqn:E; [|discriminate].
    inversion H; subst. exists EmptyString, EmptyString. auto.
  - destruct (Re.match_here r (String c s)) as [g|] eqn:E.
    + inversion H; subst. exists EmptyString, (String c s). auto.
    + destruct (IH H) as (pre & s0 & -> & M).
      exists (String c pre), s0. auto.
Qed.

Lemma search_finds (r : Re.regex) (pre s0 : string) (g0 : Re.groups) :
  Re.match_here r s0 = Some g0 ->
  exists g, Re.search r (pre ++ s0) = Some g.
Proof.
  intros H. induction pre as [|c pre IH]; simpl.
  - destruct s0; simpl; rewrite H; eauto.
  - destruct (Re.match_here r (String c (pre ++ s0))); eauto.
Qed.

(** The text the number pattern consumes starts with a digit. *)
Lemma number_re_text (s s' : string) (g g' : Re.groups) :
  matches number_re s g s' g' ->
  g' = g /\ number_text (Re.take (String.length s - String.length s') s).
Proof.
  unfold number_re, Re.plus, Re.opt, Re.star.
  intros M.
  inversion M as [| |? ? ? s1 ? ? g1 ? M1 M2| |]; subst; clear M.
  inversion M1 as [|? ? ? ? ? i Hi1 Hi2 Hi3| | |]; subst; clear M1.
  inversion M2 as [| | |? ? ? ? ? g2 M3|]; subst; clear M2.
  inversion M3 as [| |? ? ? s2 ? ? g3 ? M4 M5| |]; subst; clear M3.
  inversion M4 as [|? ? ? ? ? j Hj1 Hj2 Hj3| | |]; subst; clear M4.
  inversion M5 as [|? ? ? ? ? k Hk1 Hk2 Hk3| | |]; subst; clear M5.
  split; [reflexivity|].
  pose proof (run_length Re.digit s) as R1.
  pose proof (run_length Re.point (Re.drop i s)) as R2.
  pose proof (run_length Re.digit (Re.drop j (Re.drop i s))) as R3.
  pose proof (Hj3 1%nat eq_refl) as Hj4.
  rewrite !drop_length in *.
  replace (String.length s - (String.length s - i - j - k))%nat
    with (i + (j + k))%nat by lia.
  rewrite take_drop, take_drop.
  destruct (take_digits i s Hi2) as [L1 D1].
  destruct (take_digits k _ Hk2) as [L3 D3].
  exists (Re.take i s), (Re.take j (Re.drop i s)), (Re.take k (Re.drop j (Re.drop i s))).
  repeat split; auto.
  - intros Z. rewrite Z in L1. simpl in L1. lia.
  - apply take_point; assumption.
Qed.

Lemma number_text_numeral (text : string) : number_text text -> numeral text.
Proof.
  intros (i & p & f & -> & Di & Ni & Hp & Df).
  exists i, p, f. repeat split; auto.
  destruct i; [congruence|simpl; lia].
Qed.

(** The shape of a line the silence-start pattern matches. *)
Lemma silence_start_match_shape (line : string) (m : Re.groups) :
  Re.search silence_start_re line = Some m ->
  exists pre text tail,
    line = (pre ++ " silence_start: " ++ text ++ tail)%string /\
    (tail = EmptyString \/ tail = newline) /\
    number_text text /\
    m = [("start", text)].
Proof.
  intros H. apply search_position in H. destruct H as (pre & s0 & -> & H).
  unfold Re.match_here, silence_start_re, Re.named in H.
  cbn [Re.exec] in H.
  destruct (Re.strip_prefix " silence_start: " s0) as [s1|] eqn:P; [|discriminate].
  apply strip_prefix_spec in P. subst s0.
  apply exec_sound in H. destruct H as (s2 & g2 & M & H).
  destruct (number_re_text _ _ _ _ M) as [-> N].
  pose proof (matches_split _ _ _ _ _ M) as S.
  exists pre, (Re.take (String.length s1 - String.length s2) s1), s2.
  assert (T : (s2 = EmptyString \/ s2 = newline) /\
              m = [("start", Re.take (String.length s1 - String.length s2) s1)]).
  { destruct s2 as [|c [|d s2]]; cbn [Re.exec] in H.
    - inversion H. auto.
    - destruct (Ascii.eqb c "010") eqn:E; [|discriminate].
      apply Ascii.eqb_eq in E. subst c. inversion H. auto.
    - discriminate. }
  destruct T as [T1 T2].
  repeat split; auto.
  rewrite <- S. reflexivity.
Qed.

(** X9.  A line the silence-start pattern matches ends with the
    marker, written with a space before it, and a number; only a line
    feed may follow the number.  The time is that number. *)
Theorem silence_start_line_shape (line : string) (m : Re.groups) :
  Re.search silence_start_re line = Some m ->
  exists pre text tail,
    line = (pre ++ " silence_start: " ++ text ++ tail)%string /\
    (tail = EmptyString \/ tail = newline) /\
    number_text text /\
    m = [("start", text)].
Proof.
  exact (silence_start_match_shape line m).
Qed.

Lemma silence_start_line_shape_witness :
  exists pre text tail,
    "[silencedetect @ 0x55] silence_start: 3.2"
    = (pre ++ " silence_start: " ++ text ++ tail)%string /\
    (tail = EmptyString \/ tail = newline) /\
    number_text text /\
    [("start", "3.2")] = [("start", text)].
Proof.
  exact (silence_start_line_shape "[silencedetect @ 0x55] silence_start: 3.2"
                                  [("start", "3.2")] eq_refl).
Defined.

(** X10.  A line the silence-end pattern matches has the marker,
    written with a space before it, a number and a space after the
    number.  The time is that number. *)
Theorem silence_end_line_shape (line : string) (m : Re.groups) :
  Re.search silence_end_re line = Some m ->
  exists pre text rest,
    line = (pre ++ " silence_end: " ++ text ++ " " ++ rest)%string /\
    number_text text /\
    m = [("end", text)].
Proof.
  intros H. apply search_position in H. destruct H as (pre & s0 & -> & H).
  unfold Re.match_here, silence_end_re, Re.named in H.
  cbn [Re.exec] in H.
  destruct (Re.strip_prefix " silence_end: " s0) as [s1|] eqn:P; [|discriminate].
  apply strip_prefix_spec in P. subst s0.
  apply exec_sound in H. destruct H as (s2 & g2 & M & H).
  destruct (number_re_text _ _ _ _ M) as [-> N].
  pose proof (matches_split _ _ _ _ _ M) as S.
  destruct (Re.strip_prefix " " s2) as [s3|] eqn:P2; [|discriminate].
  apply strip_prefix_spec in P2. subst s2.
  inversion H; subst m; clear H.
  exists pre, (Re.take (String.length s1 - String.length (" " ++ s3)) s1), s3.
  repeat split; auto.
  rewrite <- S. reflexivity.
Qed.

Lemma silence_end_line_shape_witness :
  exists pre text rest,
    "[silencedetect @ 0x55] silence_end: 5.0 | silence_duration: 1.8"
    = (pre ++ " silence_end: " ++ text ++ " " ++ rest)%string /\
    number_text text /\
    [("end", "5.0")] = [("end", text)].
Proof.
  exact (silence_end_line_shape
           "[silencedetect @ 0x55] silence_end: 5.0 | silence_duration: 1.8"
           [("end", "5.0")] eq_refl).
Defined.

Lemma backoff_first {R : Type} (k : nat -> option R) (lo n : nat) (r : R) :
  (lo <= n)%nat -> k n = Some r -> Re.backoff k lo n = Some r.
Proof.
  intros L K. destruct n as [|n]; simpl.
  - destruct (Nat.ltb_spec 0 lo); [lia|]. rewrite K. reflexivity.
  - destruct (Nat.ltb_spec (S n) lo); [lia|]. rewrite K. reflexivity.
Qed.

Lemma run_all_digits (f : string) :
  all_digits f = true -> Re.run Re.digit f = String.length f.
Proof.
  induction f as [|c f IH]; simpl; intros H; [reflexivity|].
  apply andb_true_iff in H. destruct H as [Hc Hf].
  unfold Re.digit at 1. rewrite Hc, (IH Hf). reflexivity.
Qed.

Lemma run_digits_then_point (i f : string) :
  all_digits i = true -> Re.run Re.digit (i ++ String "." f) = String.length i.
Proof.
  induction i as [|c i IH]; simpl; intros H; [reflexivity|].
  apply andb_true_iff in H. destruct H as [Hc Hi].
  unfold Re.digit at 1. rewrite Hc, (IH Hi). reflexivity.
Qed.

Lemma drop_all (s : string) : Re.drop (String.length s) s = EmptyString.
Proof. induction s as [|c s IH]; simpl; auto. Qed.

Lemma drop_app_exact (w s : string) : Re.drop (String.length w) (w ++ s) = s.
Proof. induction w as [|c w IH]; simpl; [destruct s; reflexivity|exact IH]. Qed.

Lemma take_all (s : string) : Re.take (String.length s) s = s.
Proof. induction s as [|c s IH]; simpl; congruence. Qed.

Lemma all_digits_app (a b : string) :
  all_digits (a ++ b) = all_digits a && all_digits b.
Proof.
  induction a as [|c a IH]; simpl; [reflexivity|].
  rewrite IH, andb_assoc. reflexivity.
Qed.

(** The number pattern, left to itself, takes the whole of a number
    text. *)
Lemma exec_number_re_whole {R : Type} (text : string) (g : Re.groups)
      (k : string -> Re.groups -> option R) (r : R) :
  number_text text ->
  k EmptyString g = Some r ->
  Re.exec number_re text g k = Some r.
Proof.
  intros (i & p & f & -> & Di & Ni & Hp & Df) K.
  unfold number_re, Re.plus, Re.opt, Re.star. cbn [Re.exec].
  destruct Hp as [-> | ->].
  - change (i ++ "" ++ f)%string with (i ++ f)%string.
    assert (D : all_digits (i ++ f) = true) by (rewrite all_digits_app, Di, Df; reflexivity).
    rewrite (run_all_digits _ D).
    apply backoff_first.
    + rewrite slength_app. destruct i; [congruence|simpl; lia].
    + rewrite drop_all. cbn. rewrite K. reflexivity.
  - change (i ++ "." ++ f)%string with (i ++ String "." f)%string.
    rewrite (run_digits_then_point i f Di).
    apply backoff_first.
    + destruct i; [congruence|simpl; lia].
    + rewrite drop_app_exact.
      cbn [Re.run]. unfold Re.point at 1. rewrite Ascii.eqb_refl.
      cbn [Nat.min]. apply backoff_first; [lia|].
      cbn [Re.drop].
      rewrite (run_all_digits f Df).
      apply backoff_first; [lia|].
      rewrite drop_all. cbn [Re.bind_group]. exact K.
Qed.

Lemma match_here_silence_start (text : string) :
  number_text text ->
  Re.match_here silence_start_re (" silence_start: " ++ text) = Some [("start", text)].
Proof.
  intros N. unfold Re.match_here, silence_start_re, Re.named. cbn [Re.exec].
  rewrite (proj2 (strip_prefix_spec " silence_start: " _ text) eq_refl).
  apply exec_number_re_whole; [exact N|].
  cbn [Re.exec Re.bind_group String.length]. rewrite Nat.sub_0_r, take_all. reflexivity.
Qed.

Lemma digits_and_points_app (a b : string) :
  digits_and_points (a ++ b) = digits_and_points a && digits_and_points b.
Proof.
  induction a as [|c a IH]; simpl; [reflexivity|].
  rewrite IH, andb_assoc. reflexivity.
Qed.

Lemma all_digits_and_points (s : string) :
  all_digits s = true -> digits_and_points s = true.
Proof.
  induction s as [|c s IH]; simpl; intros H; [reflexivity|].
  apply andb_true_iff in H. destruct H as [Hc Hs].
  unfold Re.digit_or_point, Re.digit. rewrite Hc, (IH Hs). reflexivity.
Qed.

Lemma number_text_chars (text : string) :
  number_text text -> digits_and_points text = true /\ text <> EmptyString.
Proof.
  intros (i & p & f & -> & Di & Ni & Hp & Df). split.
  - rewrite !digits_and_points_app, (all_digits_and_points i Di),
      (all_digits_and_points f Df).
    destruct Hp as [-> | ->]; reflexivity.
  - destruct i; [congruence|discriminate].
Qed.

(** Every character of a text of digits and points, possibly followed
    by a line feed, is a digit, a point or the line feed. *)
Lemma no_other_char (b t u a : string) (c : ascii) :
  digits_and_points b = true ->
  (t = EmptyString \/ t = newline) ->
  Re.digit_or_point c = false ->
  c <> "010"%char ->
  (b ++ t)%string <> (u ++ String c a)%string.
Proof.
  intros Db Ht Hc Hn. revert u.
  induction b as [|x b IH]; intros u E.
  - simpl in E. destruct Ht as [-> | ->].
    + destruct u; discriminate.
    + unfold newline in E. destruct u as [|y u].
      * inversion E. congruence.
      * inversion E. destruct u; discriminate.
  - simpl in Db. apply andb_true_iff in Db. destruct Db as [Hx Db].
    destruct u as [|y u]; simpl in E; inversion E; subst.
    + congruence.
    + exact (IH Db u H1).
Qed.

(** The text of digits and points that ends a line, and the character
    before it, are determined by the line. *)
Lemma trailing_number_unique (u v a b t : string) (c1 c2 : ascii) :
  digits_and_points a = true -> a <> EmptyString ->
  digits_and_points b = true ->
  (t = EmptyString \/ t = newline) ->
  Re.digit_or_point c1 = false -> c1 <> "010"%char ->
  Re.digit_or_point c2 = false ->
  (u ++ String c1 a)%string = (v ++ String c2 (b ++ t))%string ->
  c1 = c2 /\ a = b /\ t = EmptyString.
Proof.
  intros Da Na Db Ht H1 N1 H2. revert v.
  induction u as [|x u IH]; intros v E.
  - destruct v as [|y v]; simpl in E; inversion E; subst.
    + destruct Ht as [-> | ->].
      * rewrite sapp_nil_r. auto.
      * exfalso. rewrite digits_and_points_app in Da.
        apply andb_true_iff in Da. destruct Da as [_ Da]. discriminate.
    + exfalso. rewrite digits_and_points_app in Da.
      apply andb_true_iff in Da. destruct Da as [_ Da].
      simpl in Da. rewrite H2 in Da. discriminate.
  - destruct v as [|y v]; simpl in E; inversion E; subst.
    + exfalso. symmetry in H3. exact (no_other_char _ _ _ _ _ Db Ht H1 N1 H3).
    + exact (IH v H3).
Qed.

(** X11.  Whatever comes before it, a line that ends with the
    silence-start marker, a space before it, and a number text is a
    silence start, and its time is what [float] reads from that
    text. *)
Theorem silence_start_line_recognised (pre text : string) :
  number_text text ->
  exists t,
    float_ text = Ok t /\
    Re.search silence_start_re (pre ++ " silence_start: " ++ text) = Some [("start", text)] /\
    classify (pre ++ " silence_start: " ++ text) = Ok (Some (SilenceStart t)).
Proof.
  intros N.
  destruct (float_numeral _ (number_text_numeral _ N)) as [t F].
  exists t. split; [exact F|].
  assert (S : Re.search silence_start_re (pre ++ " silence_start: " ++ text)
              = Some [("start", text)]).
  { destruct (search_finds silence_start_re pre _ _ (match_here_silence_start text N))
      as [g G].
    rewrite G. f_equal.
    destruct (silence_start_match_shape _ _ G) as (pre' & text' & tail & E & Ht & N' & ->).
    destruct (number_text_chars _ N) as [Da Na].
    destruct (number_text_chars _ N') as [Db _].
    change (pre ++ " silence_start: " ++ text)%string
      with (pre ++ " silence_start:" ++ String " " text)%string in E.
    change (pre' ++ " silence_start: " ++ text' ++ tail)%string
      with (pre' ++ " silence_start:" ++ String " " (text' ++ tail))%string in E.
    rewrite <- !sapp_assoc in E.
    destruct (trailing_number_unique _ _ text text' tail " " " " Da Na Db Ht eq_refl
                                     ltac:(discriminate) eq_refl E) as (_ & -> & _).
    reflexivity. }
  split; [exact S|].
  unfold classify. rewrite S. cbn [Re.group String.eqb Ascii.eqb Bool.eqb].
  rewrite F. reflexivity.
Qed.

Lemma silence_start_line_recognised_witness :
  number_text "12.5"
  /\ exists t,
      float_ "12.5" = Ok t /\
      Re.search silence_start_re ("[silencedetect @ 0x55]" ++ " silence_start: " ++ "12.5")
      = Some [("start", "12.5")] /\
      classify ("[silencedetect @ 0x55]" ++ " silence_start: " ++ "12.5")
      = Ok (Some (SilenceStart t)).
Proof.
  assert (N : number_text "12.5").
  { exists "12", ".", "5". repeat split; auto. discriminate. }
  split; [exact N|].
  exact (silence_start_line_recognised "[silencedetect @ 0x55]" "12.5" N).
Defined.

(** X12.  A silence start with a minus sign before its number is no
    silence start for the pattern: the line carries no silence-start
    event. *)
Theorem negative_silence_start_not_matched (pre text : string) :
  digits_and_points text = true ->
  text <> EmptyString ->
  Re.search silence_start_re (pre ++ " silence_start: -" ++ text) = None.
Proof.
  intros Da Na.
  destruct (Re.search silence_start_re (pre ++ " silence_start: -" ++ text)) as [g|] eqn:G;
    [exfalso|reflexivity].
  destruct (silence_start_match_shape _ _ G) as (pre' & text' & tail & E & Ht & N' & _).
  destruct (number_text_chars _ N') as [Db _].
  change (pre ++ " silence_start: -" ++ text)%string
    with (pre ++ " silence_start: " ++ String "-" text)%string in E.
  change (pre' ++ " silence_start: " ++ text' ++ tail)%string
    with (pre' ++ " silence_start:" ++ String " " (text' ++ tail))%string in E.
  rewrite <- !sapp_assoc in E.
  destruct (trailing_number_unique _ _ text text' tail "-" " " Da Na Db Ht eq_refl
                                   ltac:(discriminate) eq_refl E) as (C & _ & _).
  discriminate.
Qed.

Lemma negative_silence_start_not_matched_witness :
  Re.search silence_start_re ("[silencedetect @ 0x55]" ++ " silence_start: -" ++ "0.0106667")
  = None.
Proof.
  apply (negative_silence_start_not_matched "[silencedetect @ 0x55]" "0.0106667");
    [reflexivity|discriminate].
Defined.

(* ================================================================== *)
(** * More on the effects *)

(** X13.  Whatever the engine answers, [get_chunk_times] launches one
    child, the analysis, and touches no directory and no file.  Output
    that is no UTF-8 ends it with [UnicodeDecodeError] before the
    status is looked at, and nothing is written.  Otherwise the only
    thing it sends to the standard error stream, with the logger at
    its level [INFO], is the text of a failed analysis; a failed
    analysis ends it with [SystemExit(1)], and after a successful one
    its result is that of the scan of the lines of the text. *)
Theorem get_chunk_times_effects
        (rt : runtime) (cmdline : command -> string)
        (in_filename : string) (silence_threshold : Z)
        (silence_duration : float) (start_time end_time : option float) (tr : list event) :
  let analysis :=
    SilenceDetect in_filename start_time
                  (option_map (fun e => PyFloat.sub e (default_start start_time)) end_time)
                  silence_threshold silence_duration in
  let child := wait rt (tr ++ [LogCommand analysis; Popen analysis true]) analysis in
  let run := get_chunk_times rt in_filename silence_threshold silence_duration
                             start_time end_time tr in
  launched (snd run) = launched tr ++ [analysis]
  /\ made (snd run) = made tr
  /\ opened (snd run) = opened tr
  /\ dumps (snd run) = dumps tr
  /\ match decode (stderr_bytes child) with
     | Err e =>
         fst run = Err e
         /\ e = UnicodeDecodeError
         /\ stderr_stream cmdline INFO (snd run) = stderr_stream cmdline INFO tr
     | Ok output =>
         stderr_stream cmdline INFO (snd run)
         = stderr_stream cmdline INFO tr ++ (if returncode child =? 0 then [] else [output])
         /\ (returncode child <> 0 -> fst run = Err (SystemExit 1))
         /\ (returncode child = 0 ->
             fst run = chunk_times_of_lines start_time end_time (splitlines output))
     end.
Proof.
  intros analysis child run. unfold run.
  rewrite get_chunk_times_cases. fold analysis. fold child.
  destruct (stderr_bytes child) as [output|]; cbn [decode].
  - destruct (Z.eqb_spec (returncode child) 0) as [E|N]; cbn [fst snd]; observe;
      cbn [record_text enabled app]; rewrite ?app_nil_r;
      repeat split; try reflexivity; intros Z; contradiction.
  - cbn [fst snd]. observe. cbn [record_text enabled app]. rewrite ?app_nil_r.
    repeat split; reflexivity.
Qed.

Lemma get_chunk_times_effects_witness :
  decode (stderr_bytes
            (example_engine
               [LogCommand (SilenceDetect "in.wav" None None (-30) (PyFloat.of_decimal 3 1));
                Popen (SilenceDetect "in.wav" None None (-30) (PyFloat.of_decimal 3 1)) true]
               (SilenceDetect "in.wav" None None (-30) (PyFloat.of_decimal 3 1))))
  = Ok ("[silencedetect @ 0x55] silence_start: 3.2" ++ newline ++
        "[silencedetect @ 0x55] silence_end: 5 | silence_duration: 1.8" ++ newline ++
        "size=N/A time=00:00:08.00 bitrate=N/A speed= 500x" ++ newline)%string
  /\ fst (get_chunk_times (example_runtime example_engine) "in.wav" (-30)
                          (PyFloat.of_decimal 3 1) None None [])
     = Ok [(PyFloat.zero, PyFloat.of_decimal 32 1);
           (PyFloat.of_decimal 5 0, PyFloat.of_decimal 8 0)].
Proof.
  split; [reflexivity|].
  exact (proj2 (proj2 (proj2 (proj2 (proj2 (proj2
           (get_chunk_times_effects (example_runtime example_engine) (fun _ => "ffmpeg")
                                    "in.wav" (-30) (PyFloat.of_decimal 3 1)
                                    None None []))))))
               eq_refl).
Defined.

Lemma makedirs_trace (rt : runtime) (path : string) (tr : list event) :
  snd (_makedirs rt path tr)
  = tr ++ match path with EmptyString => [] | _ => [Makedirs path] end.
Proof.
  destruct path as [|c path]; [simpl; rewrite app_nil_r; reflexivity|].
  unfold _makedirs, then_, emit.
  destruct (os_makedirs rt _ _) as [errno|]; [|reflexivity].
  destruct (negb (errno =? EEXIST) || negb (os_path_isdir rt _ _)); reflexivity.
Qed.

Lemma makedirs_error (rt : runtime) (path : string) (tr : list event) (e : exn) :
  fst (_makedirs rt path tr) = Err e -> exists errno, e = OSError errno.
Proof.
  destruct path as [|c path]; [discriminate|].
  unfold _makedirs, then_, emit.
  destruct (os_makedirs rt _ _) as [errno|]; [|discriminate].
  destruct (negb (errno =? EEXIST) || negb (os_path_isdir rt _ _)); [|discriminate].
  intros H; inversion H. eauto.
Qed.

Lemma split_chunks_app
      (rt : runtime) (in_filename out_pattern : string) (padding : float) (verbose : bool)
      (l1 l2 : list (float * float)) :
  forall (metadata : list dict) (i : nat) (tr : list event),
    split_chunks rt in_filename out_pattern padding verbose metadata i (l1 ++ l2) tr
    = then_ (split_chunks rt in_filename out_pattern padding verbose metadata i l1)
            (fun metadata' =>
               split_chunks rt in_filename out_pattern padding verbose metadata'
                            (i + List.length l1) l2) tr.
Proof.
  induction l1 as [|c l1 IH]; intros metadata i tr.
  - simpl. unfold then_, ret. rewrite Nat.add_0_r. reflexivity.
  - cbn [app split_chunks List.length]. unfold then_.
    destruct (split_chunk rt in_filename out_pattern padding verbose metadata i c tr)
      as [[md|e] tr1]; [|reflexivity].
    rewrite IH. unfold then_. rewrite Nat.add_succ_r. reflexivity.
Qed.

Lemma dirname_without_separator (name : string) :
  has_sep name = false -> dirname name = EmptyString.
Proof.
  intros H. unfold dirname.
  destruct name as [|c name]; [reflexivity|].
  cbn [upto_last_sep]. rewrite H. reflexivity.
Qed.

(** The loop body on a chunk whose file name formats and whose
    directory can be made, with a child whose output can be decoded
    where the script decodes it: the outcome and the trace. *)
Lemma split_chunk_readable
      (rt : runtime) (in_filename out_pattern : string) (padding : float) (verbose : bool)
      (metadata : list dict) (i : nat) (a b : float) (tr : list event) (name : string) :
  (forall path tr, fst (_makedirs rt path tr) = Ok tt) ->
  str_format rt out_pattern i = Ok name ->
  failures_readable rt verbose ->
  exists tail,
    split_chunk rt in_filename out_pattern padding verbose metadata i (a, b) tr
    = (Ok (metadata ++ [chunk_entry name a b]),
       snd (_makedirs rt (dirname name) tr) ++ tail)
    /\ made tail = [].
Proof.
  intros Hmk Hname Hread.
  rewrite split_chunk_cases, Hname.
  pose proof (Hmk (dirname name) tr) as Hm.
  destruct (_makedirs rt (dirname name) tr) as [r tr1].
  cbn [fst snd] in *. subst r. cbn zeta.
  match goal with
  | |- context [returncode ?ch =? 0] =>
      pose proof (fun V => Hread V _ _ : returncode ch <> 0 -> _) as W;
      destruct (Z.eqb_spec (returncode ch) 0) as [E|N]
  end; cbn [negb andb].
  - eexists. split; reflexivity.
  - destruct verbose; cbn [negb].
    + eexists. split; reflexivity.
    + cbn [negb] in W. destruct (W eq_refl N) as [text ->]. cbn [decode].
      rewrite <- app_assoc. eexists. split; reflexivity.
Qed.

(** X15.  With a file system that raises nothing, a pattern that
    formats and failed children whose output can be decoded where the
    script decodes it, the loop calls [os.makedirs] once for every
    chunk whose file has a directory part, in the order of the chunks:
    for files of one directory the call is repeated for every chunk,
    and all calls but the first rest on [_makedirs] taking an existing
    directory for no error. *)
Theorem directories_made_per_chunk
        (rt : runtime) (in_filename out_pattern : string) (padding : float)
        (verbose : bool) (chunks : list (float * float)) :
  filesystem_ok rt ->
  pattern_ok rt out_pattern ->
  failures_readable rt verbose ->
  forall (metadata : list dict) (i : nat) (tr : list event),
    made (snd (split_chunks rt in_filename out_pattern padding verbose metadata i chunks tr))
    = made tr ++ directories rt out_pattern i chunks.
Proof.
  intros [Hmk _] Hpat Hread.
  induction chunks as [|[a b] rest IH]; intros metadata i tr.
  - simpl. rewrite app_nil_r. reflexivity.
  - cbn [split_chunks directories]. unfold then_ at 1.
    unfold out_name.
    destruct (Hpat i) as [name Hname]. rewrite Hname.
    destruct (split_chunk_readable rt in_filename out_pattern padding verbose
                                   metadata i a b tr name Hmk Hname Hread)
      as (tail & -> & Htail).
    rewrite IH, makedirs_trace. observe. rewrite Htail, app_nil_r.
    destruct (dirname name); observe; rewrite <- ?app_assoc; reflexivity.
Qed.

Lemma directories_made_per_chunk_witness :
  filesystem_ok (example_runtime failing_extraction)
  /\ pattern_ok (example_runtime failing_extraction) "out/chunk_"
  /\ failures_readable (example_runtime failing_extraction) false
  /\ made (snd (split_chunks (example_runtime failing_extraction) "in.wav" "out/chunk_"
                             PyFloat.zero false [] 0
                             [(PyFloat.of_decimal 5 1, PyFloat.of_decimal 32 1);
                              (PyFloat.of_decimal 5 0, PyFloat.of_decimal 8 0)] []))
     = ["out"; "out"].
Proof.
  split; [apply example_runtime_filesystem_ok|].
  split; [apply example_runtime_pattern_ok|].
  split; [apply failing_extraction_readable|].
  exact (directories_made_per_chunk
           (example_runtime failing_extraction) "in.wav" "out/chunk_" PyFloat.zero false
           [(PyFloat.of_decimal 5 1, PyFloat.of_decimal 32 1);
            (PyFloat.of_decimal 5 0, PyFloat.of_decimal 8 0)]
           (example_runtime_filesystem_ok failing_extraction)
           (example_runtime_pattern_ok failing_extraction "out/chunk_")
           (failing_extraction_readable false)
           [] 0%nat []).
Defined.

(** After its [_makedirs], the loop body makes no directory, opens no
    file and dumps nothing; it goes on to the next chunk or ends with
    an exception. *)
Lemma split_chunk_after_makedirs
      (rt : runtime) (in_filename out_pattern : string) (padding : float) (verbose : bool)
      (metadata : list dict) (i : nat) (a b : float) (tr : list event) :
  exists tail,
    snd (split_chunk rt in_filename out_pattern padding verbose metadata i (a, b) tr)
    = tr ++ match str_format rt out_pattern i with
            | Ok name => match dirname name with
                         | EmptyString => []
                         | _ => [Makedirs (dirname name)]
                         end
            | Err _ => []
            end ++ tail
    /\ made tail = [] /\ opened tail = [] /\ dumps tail = [].
Proof.
  rewrite split_chunk_cases.
  destruct (str_format rt out_pattern i) as [name|e].
  - pose proof (makedirs_trace rt (dirname name) tr) as Ht.
    destruct (_makedirs rt (dirname name) tr) as [[[]|e] tr1]; cbn [snd] in Ht; subst tr1.
    + cbn zeta.
      match goal with
      | |- context [if ?c then _ else _] => destruct c
      end; [match goal with
            | |- context [decode ?x] => destruct (decode x)
            end|]; cbn [snd]; rewrite <- ?app_assoc;
        eexists; (split; [reflexivity|]); repeat split; reflexivity.
    + cbn [snd]. exists []. rewrite app_nil_r. repeat split; reflexivity.
  - cbn [snd app]. exists []. rewrite app_nil_r. repeat split; reflexivity.
Qed.

(** X16.  When the pattern gives file names without a [/], the loop
    never calls [os.makedirs], whatever the engine and the file system
    do. *)
Theorem no_directory_for_plain_names
        (rt : runtime) (in_filename out_pattern : string) (padding : float)
        (verbose : bool) (chunks : list (float * float)) :
  (forall i name, str_format rt out_pattern i = Ok name -> has_sep name = false) ->
  forall (metadata : list dict) (i : nat) (tr : list event),
    made (snd (split_chunks rt in_filename out_pattern padding verbose metadata i chunks tr))
    = made tr.
Proof.
  intros Hn.
  induction chunks as [|[a b] rest IH]; intros metadata i tr; [reflexivity|].
  cbn [split_chunks]. unfold then_ at 1.
  destruct (split_chunk_after_makedirs rt in_filename out_pattern padding verbose
                                       metadata i a b tr) as (tail & S & M & _).
  assert (T : made (snd (split_chunk rt in_filename out_pattern padding verbose
                                     metadata i (a, b) tr)) = made tr).
  { rewrite S. destruct (str_format rt out_pattern i) as [name|e] eqn:F.
    - rewrite (dirname_without_separator name (Hn i name F)).
      observe. rewrite M, app_nil_r. reflexivity.
    - observe. rewrite M, app_nil_r. reflexivity. }
  destruct (split_chunk rt in_filename out_pattern padding verbose metadata i (a, b) tr)
    as [[md|e] tr1]; cbn [snd] in T |- *; [|exact T].
  rewrite IH. exact T.
Qed.

Lemma no_directory_for_plain_names_witness :
  made (snd (split_chunks (example_runtime failing_extraction) "in.wav" "chunk_"
                          PyFloat.zero false [] 0
                          [(PyFloat.of_decimal 5 1, PyFloat.of_decimal 32 1)] []))
  = [].
Proof.
  apply (no_directory_for_plain_names
           (example_runtime failing_extraction) "in.wav" "chunk_" PyFloat.zero false
           [(PyFloat.of_decimal 5 1, PyFloat.of_decimal 32 1)]).
  intros i name H. inversion H; subst. clear H.
  change (has_sep ("chunk_" ++ PyFloat.decimal (Z.of_nat i)) = false).
  cbn [append has_sep]. 
  assert (D : forall s, all_digits s = true -> has_sep s = false).
  { induction s as [|c s IHs]; simpl; intros A; [reflexivity|].
    apply andb_true_iff in A. destruct A as [Hc Hs]. rewrite (IHs Hs).
    destruct (Ascii.eqb_spec c "/") as [->|]; [discriminate|reflexivity]. }
  cbn. apply D. apply decimal_digits.
Defined.

(** The loop opens no file and dumps nothing. *)
Lemma split_chunks_quiet
      (rt : runtime) (in_filename out_pattern : string) (padding : float)
      (verbose : bool) (chunks : list (float * float)) :
  forall (metadata : list dict) (i : nat) (tr : list event),
    let run := split_chunks rt in_filename out_pattern padding verbose metadata i chunks tr in
    dumps (snd run) = dumps tr /\
    opened (snd run) = opened tr.
Proof.
  induction chunks as [|[a b] rest IH]; intros metadata i tr; [simpl; auto|].
  cbn [split_chunks]. unfold then_.
  destruct (split_chunk_after_makedirs rt in_filename out_pattern padding verbose
                                       metadata i a b tr) as (tail & Hs & _ & O & D).
  assert (T : dumps (snd (split_chunk rt in_filename out_pattern padding verbose
                                      metadata i (a, b) tr)) = dumps tr /\
              opened (snd (split_chunk rt in_filename out_pattern padding verbose
                                       metadata i (a, b) tr)) = opened tr).
  { rewrite Hs. destruct (str_format rt out_pattern i) as [name|e];
      [destruct (dirname name)|]; observe; rewrite O, D, ?app_nil_r; split; reflexivity. }
  destruct (split_chunk rt in_filename out_pattern padding verbose metadata i (a, b) tr)
    as [[md|e] tr1]; cbn [snd] in T |- *; [|exact T].
  destruct (IH md (S i) tr1) as (D2 & O2). cbn zeta in D2, O2.
  cbn zeta. rewrite D2, O2. exact T.
Qed.

(** X17.  [split_audio], once the chunk times are known, dumps the
    metadata at most once: exactly when it is given a path and nothing
    before raised, and then the entries of all the chunks.  Without a
    path it opens no file. *)
Theorem metadata_dumped_once_at_the_end
        (rt : runtime) (in_filename out_pattern : string) (padding : float)
        (verbose : bool) (metadata_filename : option string)
        (chunks : list (float * float)) (tr : list event) :
  let run := split_audio_chunks rt in_filename out_pattern padding verbose
                                metadata_filename chunks tr in
  dumps (snd run)
  = dumps tr ++ match metadata_filename, fst run with
                | Some path, Ok _ => [(path, entries rt out_pattern 0 chunks)]
                | _, _ => []
                end
  /\ (metadata_filename = None -> opened (snd run) = opened tr).
Proof.
  cbn zeta. unfold split_audio_chunks, then_.
  destruct (split_chunks_quiet rt in_filename out_pattern padding verbose chunks [] 0 tr)
    as (D & O). cbn zeta in D, O.
  destruct (split_chunks rt in_filename out_pattern padding verbose [] 0 chunks tr)
    as [[md|e] tr1] eqn:E; cbn [fst snd] in *.
  - apply split_chunks_returns in E. simpl in E. subst md.
    destruct metadata_filename as [path|]; cbn [write_metadata].
    + unfold then_, emit.
      pose proof (makedirs_trace rt (dirname path) tr1) as Ht.
      destruct (_makedirs rt (dirname path) tr1) as [[[]|e] tr2]; cbn [snd] in Ht; subst tr2.
      * destruct (open_w rt _ path); cbn [fst snd];
          (split; [|discriminate]);
          destruct (dirname path); observe; rewrite D; reflexivity.
      * cbn [fst snd]. split; [|discriminate].
        destruct (dirname path); observe; rewrite D; reflexivity.
    + unfold ret. cbn [fst snd]. rewrite D, app_nil_r. auto.
  - rewrite D. destruct metadata_filename; rewrite app_nil_r; auto.
Qed.

(** What the loop sends to the standard error stream when no child's
    output is written: the records of the chunks it got to. *)
Lemma split_chunks_stream
      (rt : runtime) (cmdline : command -> string) (threshold : level)
      (in_filename out_pattern : string) (padding : float)
      (verbose : bool) (chunks : list (float * float)) :
  verbose = true \/ (forall tr c, returncode (wait rt tr c) = 0) ->
  forall (metadata : list dict) (i : nat) (tr : list event),
    let run := split_chunks rt in_filename out_pattern padding verbose metadata i chunks tr in
    stderr_writes (snd run) = stderr_writes tr /\
    exists k,
      (k <= List.length chunks)%nat /\
      stderr_stream cmdline threshold (snd run)
      = stderr_stream cmdline threshold tr
          ++ progress rt cmdline threshold in_filename out_pattern padding i (firstn k chunks)
      /\ (forall result, fst run = Ok result -> k = List.length chunks).
Proof.
  intros Q.
  induction chunks as [|[a b] rest IH]; intros metadata i tr.
  - cbn. split; [reflexivity|]. exists 0%nat. rewrite app_nil_r. auto.
  - cbn [split_chunks]. unfold then_. rewrite split_chunk_cases.
    destruct (str_format rt out_pattern i) as [name|e] eqn:F.
    + pose proof (makedirs_trace rt (dirname name) tr) as Ht.
      destruct (_makedirs rt (dirname name) tr) as [[[]|e] tr1]; cbn [snd] in Ht; subst tr1.
      * cbn zeta.
        match goal with
        | |- context [negb (returncode ?ch =? 0) && negb verbose] =>
            assert (C : negb (returncode ch =? 0) && negb verbose = false)
        end.
        { destruct Q as [->|Q]; [apply andb_false_r|]. rewrite Q. reflexivity. }
        rewrite C.
        match goal with
        | |- context [split_chunks _ _ _ _ _ ?md _ _ ?t] =>
            destruct (IH md (S i) t) as (W & k & Hk & St & R)
        end.
        cbn zeta in W, St, R. cbn zeta.
        split.
        -- rewrite W. destruct (dirname name); observe; reflexivity.
        -- exists (S k). split; [simpl; lia|]. split.
           ++ rewrite St. cbn [firstn progress]. unfold out_name. rewrite F.
              destruct (dirname name); observe; rewrite <- ?app_assoc; reflexivity.
           ++ intros result H. rewrite (R result H). reflexivity.
      * cbn [fst snd]. split; [destruct (dirname name); observe; reflexivity|].
        exists 0%nat. split; [lia|]. split; [|discriminate].
        cbn [firstn progress]. destruct (dirname name); observe; reflexivity.
    + cbn [fst snd]. split; [reflexivity|].
      exists 0%nat. split; [lia|]. split; [|discriminate].
      cbn [firstn progress]. rewrite app_nil_r. reflexivity.
Qed.

(** X18.  In verbose mode, and also when every child returns zero,
    [split_audio] never calls [sys.stderr.write] once the chunk times
    are known, and what it sends to the standard error stream is its
    log alone: for every chunk it gets to, the line with the file name
    and the three texts and, when the logger is at [DEBUG], the
    command line of the extraction.  A run that returns has got to
    every chunk. *)
Theorem quiet_extractions_log_only
        (rt : runtime) (cmdline : command -> string) (threshold : level)
        (in_filename out_pattern : string) (padding : float)
        (verbose : bool) (metadata_filename : option string)
        (chunks : list (float * float)) (tr : list event) :
  verbose = true \/ (forall tr c, returncode (wait rt tr c) = 0) ->
  let run := split_audio_chunks rt in_filename out_pattern padding verbose
                                metadata_filename chunks tr in
  stderr_writes (snd run) = stderr_writes tr /\
  exists k,
    (k <= List.length chunks)%nat /\
    stderr_stream cmdline threshold (snd run)
    = stderr_stream cmdline threshold tr
        ++ progress rt cmdline threshold in_filename out_pattern padding 0 (firstn k chunks)
    /\ (fst run = Ok tt -> k = List.length chunks).
Proof.
  intros Q. cbn zeta. unfold split_audio_chunks, then_.
  destruct (split_chunks_stream rt cmdline threshold in_filename out_pattern padding
                                verbose chunks Q [] 0%nat tr) as (W & k & Hk & S & R).
  cbn zeta in W, S, R.
  destruct (split_chunks rt in_filename out_pattern padding verbose [] 0 chunks tr)
    as [[md|e] tr1]; cbn [fst snd] in *.
  - specialize (R md eq_refl).
    assert (T : stderr_writes
                  (snd (write_metadata rt metadata_filename md tr1)) = stderr_writes tr1
                /\ stderr_stream cmdline threshold
                     (snd (write_metadata rt metadata_filename md tr1))
                   = stderr_stream cmdline threshold tr1).
    { destruct metadata_filename as [path|]; cbn [write_metadata]; [|split; reflexivity].
      unfold then_, emit.
      pose proof (makedirs_trace rt (dirname path) tr1) as Ht.
      destruct (_makedirs rt (dirname path) tr1) as [[[]|e] tr2]; cbn [snd] in Ht; subst tr2.
      - destruct (open_w rt _ path); cbn [snd];
          destruct (dirname path); observe; split; reflexivity.
      - cbn [snd]. destruct (dirname path); observe; split; reflexivity. }
    destruct T as [T1 T2]. rewrite T1, T2. split; [exact W|].
    exists k. split; [exact Hk|]. split; [exact S|]. intros _. exact R.
  - split; [exact W|]. exists k. split; [exact Hk|]. split; [exact S|]. discriminate.
Qed.

Lemma quiet_extractions_log_only_witness :
  stderr_writes (snd (split_audio_chunks (example_runtime failing_extraction) "in.wav"
                                         "out/chunk_" PyFloat.zero true None
                                         [(PyFloat.of_decimal 5 1, PyFloat.of_decimal 32 1)]
                                         []))
  = []
  /\ exists k,
      (k <= 1)%nat /\
      stderr_stream (fun _ => "ffmpeg") INFO
        (snd (split_audio_chunks (example_runtime failing_extraction) "in.wav"
                                 "out/chunk_" PyFloat.zero true None
                                 [(PyFloat.of_decimal 5 1, PyFloat.of_decimal 32 1)] []))
      = [] ++ progress (example_runtime failing_extraction) (fun _ => "ffmpeg") INFO
                       "in.wav" "out/chunk_" PyFloat.zero 0
                       (firstn k [(PyFloat.of_decimal 5 1, PyFloat.of_decimal 32 1)])
      /\ (fst (split_audio_chunks (example_runtime failing_extraction) "in.wav"
                                  "out/chunk_" PyFloat.zero true None
                                  [(PyFloat.of_decimal 5 1, PyFloat.of_decimal 32 1)] [])
          = Ok tt -> k = 1%nat).
Proof.
  exact (quiet_extractions_log_only
           (example_runtime failing_extraction) (fun _ => "ffmpeg") INFO
           "in.wav" "out/chunk_" PyFloat.zero true None
           [(PyFloat.of_decimal 5 1, PyFloat.of_decimal 32 1)] [] (or_introl eq_refl)).
Defined.

(** The stream of that run, piece by piece, at both levels of the
    logger. *)
Lemma quiet_extraction_stream :
  stderr_stream (fun _ => "ffmpeg") INFO
    (snd (split_audio_chunks (example_runtime failing_extraction) "in.wav"
                             "out/chunk_" PyFloat.zero true None
                             [(PyFloat.of_decimal 5 1, PyFloat.of_decimal 32 1)] []))
  = [("out/chunk_0: start=0.5000, end=3.2000, duration=2.7000" ++ newline)%string]
  /\ stderr_stream (fun _ => "ffmpeg") DEBUG
       (snd (split_audio_chunks (example_runtime failing_extraction) "in.wav"
                                "out/chunk_" PyFloat.zero true None
                                [(PyFloat.of_decimal 5 1, PyFloat.of_decimal 32 1)] []))
     = [("out/chunk_0: start=0.5000, end=3.2000, duration=2.7000" ++ newline)%string;
        ("Running command: ffmpeg" ++ newline)%string].
Proof.
  split; vm_compute; reflexivity.
Qed.

(** A loop that returns has launched the extractions of its chunks. *)
Lemma split_chunks_returns_launched
      (rt : runtime) (in_filename out_pattern : string) (padding : float)
      (verbose : bool) (chunks : list (float * float)) :
  forall (metadata : list dict) (i : nat) (tr tr' : list event) (result : list dict),
    split_chunks rt in_filename out_pattern padding verbose metadata i chunks tr
    = (Ok result, tr') ->
    launched tr' = launched tr ++ extractions rt in_filename out_pattern padding i chunks.
Proof.
  induction chunks as [|[a b] rest IH]; intros metadata i tr tr' result H.
  - simpl in H. unfold ret in H. inversion H. simpl. rewrite app_nil_r. reflexivity.
  - cbn [split_chunks] in H. unfold then_ in H.
    destruct (split_chunk rt in_filename out_pattern padding verbose metadata i (a, b) tr)
      as [[md|e] tr1] eqn:E; [|discriminate].
    apply IH in H. rewrite H. cbn [extractions]. clear H IH.
    rewrite split_chunk_cases in E. unfold out_name.
    destruct (str_format rt out_pattern i) as [name|e]; [|discriminate].
    pose proof (makedirs_launched rt (dirname name) tr) as L.
    destruct (_makedirs rt (dirname name) tr) as [[[]|e] tr2]; [|discriminate].
    cbn [snd] in L. cbn zeta in E.
    match type of E with
    | context [if ?c then _ else _] => destruct c
    end; [match type of E with
          | context [decode ?x] => destruct (decode x)
          end|]; inversion E; subst; clear E;
      observe; rewrite L, <- ?app_assoc; reflexivity.
Qed.

Lemma entries_describe (rt : runtime) (in_filename out_pattern : string) (padding : float)
      (chunks : list (float * float)) :
  forall i, Forall2 describes (entries rt out_pattern i chunks)
                    (extractions rt in_filename out_pattern padding i chunks).
Proof.
  induction chunks as [|[a b] rest IH]; intros i; simpl; constructor; [|apply IH].
  repeat split.
Qed.

(** X19.  When the loop returns, the entries it added and the
    extractions it launched go together one to one, in order: each
    entry names the file its extraction writes, and gives, with four
    decimals, the start and the duration the extraction was asked
    for. *)
Theorem entries_describe_extractions
        (rt : runtime) (in_filename out_pattern : string) (padding : float)
        (verbose : bool) (chunks : list (float * float))
        (metadata : list dict) (i : nat) (tr tr' : list event) (result : list dict) :
  split_chunks rt in_filename out_pattern padding verbose metadata i chunks tr
  = (Ok result, tr') ->
  exists added cmds,
    result = metadata ++ added /\
    launched tr' = launched tr ++ cmds /\
    List.length added = List.length chunks /\
    Forall2 describes added cmds.
Proof.
  intros H.
  exists (entries rt out_pattern i chunks),
         (extractions rt in_filename out_pattern padding i chunks).
  split; [exact (split_chunks_returns _ _ _ _ _ _ _ _ _ _ _ H)|].
  split; [exact (split_chunks_returns_launched _ _ _ _ _ _ _ _ _ _ _ H)|].
  split; [apply entries_length|apply entries_describe].
Qed.

Lemma entries_describe_extractions_witness :
  exists added cmds,
    [[("filename", "out/chunk_0"); ("start", "0.5000"); ("end", "3.2000");
      ("duration", "2.7000")]] = [] ++ added /\
    launched (snd (split_chunks (example_runtime failing_extraction) "in.wav" "out/chunk_"
                                PyFloat.zero false [] 0
                                [(PyFloat.of_decimal 5 1, PyFloat.of_decimal 32 1)] []))
    = launched [] ++ cmds /\
    List.length added = 1%nat /\
    Forall2 describes added cmds.
Proof.
  apply (entries_describe_extractions
           (example_runtime failing_extraction) "in.wav" "out/chunk_" PyFloat.zero false
           [(PyFloat.of_decimal 5 1, PyFloat.of_decimal 32 1)] [] 0%nat []).
  vm_compute. reflexivity.
Defined.

(** X20.  When the analysis succeeds but the scan of its text raises,
    [split_audio] ends with that exception, a [ValueError], and exit
    status 1, right after the analysis: nothing is extracted and
    nothing is written. *)
Theorem malformed_duration_aborts_the_run
        (rt : runtime) (in_filename out_pattern : string) (padding : float)
        (verbose : bool) (silence_threshold : Z) (silence_duration : float)
        (start_time end_time : option float) (metadata_filename : option string)
        (tr : list event) (output : string) (e : exn) :
  let analysis :=
    SilenceDetect in_filename start_time
                  (option_map (fun x => PyFloat.sub x (default_start start_time)) end_time)
                  silence_threshold silence_duration in
  let child := wait rt (tr ++ [LogCommand analysis; Popen analysis true]) analysis in
  returncode child = 0 ->
  decode (stderr_bytes child) = Ok output ->
  chunk_times_of_lines start_time end_time (splitlines output) = Err e ->
  split_audio rt in_filename out_pattern padding verbose silence_threshold
              silence_duration start_time end_time metadata_filename tr
  = (Err e, tr ++ [LogCommand analysis; Popen analysis true; Log DEBUG output])
  /\ e = ValueError
  /\ exit_status (@Err unit e) = 1.
Proof.
  intros analysis child R D S.
  assert (V : e = ValueError).
  { destruct (classify_all (splitlines output)) as [evs|e'] eqn:C.
    - rewrite (chunk_times_events _ _ _ _ C) in S. discriminate.
    - unfold chunk_times_of_lines in S.
      destruct (scan_lines _ _ (splitlines output)) as [st|e''] eqn:L;
        simpl in S; [discriminate|].
      inversion S; subst e''.
      destruct (scan_lines_error_line _ _ _ _ L) as (line & _ & Hc).
      destruct (classify_raises _ _ Hc) as (_ & _ & m & _ & F).
      unfold float_ in F. destruct (PyFloat.of_string _); inversion F; reflexivity. }
  split; [|split; [exact V|subst e; reflexivity]].
  unfold split_audio, then_. rewrite get_chunk_times_cases.
  fold analysis. fold child. rewrite D, R. cbn [Z.eqb]. rewrite S. reflexivity.
Qed.

Lemma malformed_duration_aborts_the_run_witness :
  split_audio (example_runtime example_engine_malformed) "in.wav" "out/chunk_"
              PyFloat.zero false (-30) (PyFloat.of_decimal 3 1) None None None []
  = (Err ValueError,
     [LogCommand (SilenceDetect "in.wav" None None (-30) (PyFloat.of_decimal 3 1));
      Popen (SilenceDetect "in.wav" None None (-30) (PyFloat.of_decimal 3 1)) true;
      Log DEBUG "size=N/A time=00:00:1.2.3 bitrate=N/A"]).
Proof.
  exact (proj1 (malformed_duration_aborts_the_run
                  (example_runtime example_engine_malformed) "in.wav" "out/chunk_"
                  PyFloat.zero false (-30) (PyFloat.of_decimal 3 1) None None None []
                  "size=N/A time=00:00:1.2.3 bitrate=N/A"
                  ValueError eq_refl eq_refl eq_refl)).
Defined.

(** With a file system that raises nothing, a pattern that formats
    and failed children whose output can be decoded, the loop
    returns. *)
Lemma split_chunks_complete
      (rt : runtime) (in_filename out_pattern : string) (padding : float)
      (verbose : bool) (chunks : list (float * float)) :
  filesystem_ok rt ->
  pattern_ok rt out_pattern ->
  failures_readable rt verbose ->
  forall (metadata : list dict) (i : nat) (tr : list event),
  exists result tr',
    split_chunks rt in_filename out_pattern padding verbose metadata i chunks tr
    = (Ok result, tr').
Proof.
  intros [Hmk Hop] Hpat Hread.
  induction chunks as [|[a b] rest IH]; intros metadata i tr.
  - simpl. unfold ret. eauto.
  - destruct (split_chunk_runs rt in_filename out_pattern padding verbose
                               metadata i a b tr Hmk (Hpat i) Hread) as (tr1 & E1 & _).
    cbn [split_chunks]. unfold then_. rewrite E1. apply IH.
Qed.

(** X21.  When the analysis succeeds, its output is UTF-8 and scans to
    [chunks], the file system raises nothing, the pattern formats and
    the output of failed extractions can be decoded where the script
    decodes it, [split_audio] returns, having launched the analysis
    and then one extraction per interval, in order, and nothing else;
    with a metadata path it has dumped the entries of all the
    intervals, once. *)
Theorem successful_run
        (rt : runtime) (in_filename out_pattern : string) (padding : float)
        (verbose : bool) (silence_threshold : Z) (silence_duration : float)
        (start_time end_time : option float) (metadata_filename : option string)
        (tr : list event) (output : string) (chunks : list (float * float)) :
  let analysis :=
    SilenceDetect in_filename start_time
                  (option_map (fun x => PyFloat.sub x (default_start start_time)) end_time)
                  silence_threshold silence_duration in
  let child := wait rt (tr ++ [LogCommand analysis; Popen analysis true]) analysis in
  let run := split_audio rt in_filename out_pattern padding verbose silence_threshold
                         silence_duration start_time end_time metadata_filename tr in
  returncode child = 0 ->
  decode (stderr_bytes child) = Ok output ->
  chunk_times_of_lines start_time end_time (splitlines output) = Ok chunks ->
  filesystem_ok rt ->
  pattern_ok rt out_pattern ->
  failures_readable rt verbose ->
  fst run = Ok tt
  /\ launched (snd run)
     = launched tr ++ analysis :: extractions rt in_filename out_pattern padding 0 chunks
  /\ dumps (snd run)
     = dumps tr ++ match metadata_filename with
                   | Some path => [(path, entries rt out_pattern 0 chunks)]
                   | None => []
                   end.
Proof.
  intros analysis child run R D S Hfs Hpat Hread. unfold run, split_audio, then_.
  rewrite get_chunk_times_cases. fold analysis. fold child.
  rewrite D, R. cbn [Z.eqb]. rewrite S.
  set (tr0 := tr ++ [LogCommand analysis; Popen analysis true; Log DEBUG output]).
  assert (L0 : launched tr0 = launched tr ++ [analysis]) by (unfold tr0; observe; reflexivity).
  assert (D0 : dumps tr0 = dumps tr) by (unfold tr0; observe; reflexivity).
  unfold split_audio_chunks, then_.
  destruct (split_chunks_complete rt in_filename out_pattern padding verbose chunks
                                  Hfs Hpat Hread [] 0%nat tr0) as (md & tr1 & E).
  rewrite E.
  pose proof (split_chunks_returns_launched _ _ _ _ _ _ _ _ _ _ _ E) as L1.
  pose proof (split_chunks_returns _ _ _ _ _ _ _ _ _ _ _ E) as M1. simpl in M1. subst md.
  destruct (split_chunks_quiet rt in_filename out_pattern padding verbose chunks [] 0 tr0)
    as (D1 & _). cbn zeta in D1. rewrite E in D1. cbn [snd] in D1.
  destruct Hfs as [Hmk Hop].
  destruct metadata_filename as [path|]; cbn [write_metadata].
  - unfold then_, emit.
    pose proof (Hmk (dirname path) tr1) as Hm.
    pose proof (makedirs_trace rt (dirname path) tr1) as Ht.
    destruct (_makedirs rt (dirname path) tr1) as [r tr2]. cbn [fst snd] in Hm, Ht.
    subst r tr2. rewrite Hop. cbn [fst snd].
    split; [reflexivity|].
    split; destruct (dirname path); observe; rewrite ?L1, ?D1, ?L0, ?D0, <- ?app_assoc;
      reflexivity.
  - unfold ret. cbn [fst snd].
    split; [reflexivity|].
    rewrite L1, D1, L0, D0, <- app_assoc, app_nil_r. split; reflexivity.
Qed.

Lemma successful_run_witness :
  chunk_times_of_lines
    None None
    (splitlines ("[silencedetect @ 0x55] silence_start: 3.2" ++ newline ++
                 "[silencedetect @ 0x55] silence_end: 5 | silence_duration: 1.8" ++ newline ++
                 "size=N/A time=00:00:08.00 bitrate=N/A speed= 500x" ++ newline)%string)
  = Ok [(PyFloat.zero, PyFloat.of_decimal 32 1); (PyFloat.of_decimal 5 0, PyFloat.of_decimal 8 0)]
  /\ fst (split_audio (example_runtime example_engine) "in.wav" "out/chunk_" PyFloat.zero
                      false (-30) (PyFloat.of_decimal 3 1) None None (Some "out/meta.json") [])
     = Ok tt
  /\ launched (snd (split_audio (example_runtime example_engine) "in.wav" "out/chunk_"
                                PyFloat.zero false (-30) (PyFloat.of_decimal 3 1) None None
                                (Some "out/meta.json") []))
     = [SilenceDetect "in.wav" None None (-30) (PyFloat.of_decimal 3 1);
        Extract "in.wav" PyFloat.zero (PyFloat.sub (PyFloat.of_decimal 32 1) PyFloat.zero)
                None "out/chunk_0";
        Extract "in.wav" (PyFloat.of_decimal 5 0)
                (PyFloat.sub (PyFloat.of_decimal 8 0) (PyFloat.of_decimal 5 0))
                None "out/chunk_1"]
  /\ dumps (snd (split_audio (example_runtime example_engine) "in.wav" "out/chunk_"
                             PyFloat.zero false (-30) (PyFloat.of_decimal 3 1) None None
                             (Some "out/meta.json") []))
     = [("out/meta.json",
         [[("filename", "out/chunk_0"); ("start", "0.0000"); ("end", "3.2000");
           ("duration", "3.2000")];
          [("filename", "out/chunk_1"); ("start", "5.0000"); ("end", "8.0000");
           ("duration", "3.0000")]])].
Proof.
  split; [vm_compute; reflexivity|].
  exact (successful_run
           (example_runtime example_engine) "in.wav" "out/chunk_" PyFloat.zero false
           (-30) (PyFloat.of_decimal 3 1) None None (Some "out/meta.json") []
           ("[silencedetect @ 0x55] silence_start: 3.2" ++ newline ++
            "[silencedetect @ 0x55] silence_end: 5 | silence_duration: 1.8" ++ newline ++
            "size=N/A time=00:00:08.00 bitrate=N/A speed= 500x" ++ newline)%string
           [(PyFloat.zero, PyFloat.of_decimal 32 1);
            (PyFloat.of_decimal 5 0, PyFloat.of_decimal 8 0)]
           eq_refl eq_refl eq_refl
           (example_runtime_filesystem_ok example_engine)
           (example_runtime_pattern_ok example_engine "out/chunk_")
           (example_engine_readable false)).
Defined.

(** X22.  When the chunks before one were processed and the directory
    of that one cannot be made, [split_audio] ends there with the
    [OSError] of [os.makedirs] and exit status 1: the chunks before it
    were extracted, that chunk and the ones after it are not, and no
    metadata is dumped. *)
Theorem directory_failure_stops_the_batch
        (rt : runtime) (in_filename out_pattern : string) (padding : float)
        (verbose : bool) (metadata_filename : option string)
        (before after : list (float * float)) (chunk : float * float)
        (tr tr1 tr2 : list event) (metadata : list dict) (name : string) (e : exn) :
  split_chunks rt in_filename out_pattern padding verbose [] 0 before tr
  = (Ok metadata, tr1) ->
  str_format rt out_pattern (List.length before) = Ok name ->
  _makedirs rt (dirname name) tr1 = (Err e, tr2) ->
  split_audio_chunks rt in_filename out_pattern padding verbose metadata_filename
                     (before ++ chunk :: after) tr
  = (Err e, tr2)
  /\ launched tr2 = launched tr ++ extractions rt in_filename out_pattern padding 0 before
  /\ dumps tr2 = dumps tr
  /\ (exists errno, e = OSError errno)
  /\ exit_status (@Err unit e) = 1.
Proof.
  intros B F M.
  assert (E : exists errno, e = OSError errno).
  { apply (makedirs_error rt (dirname name) tr1). rewrite M. reflexivity. }
  split; [|split; [|split; [|split; [exact E|destruct E as [n ->]; reflexivity]]]].
  - unfold split_audio_chunks, then_. rewrite split_chunks_app. unfold then_.
    rewrite B. cbn [split_chunks Nat.add]. unfold then_.
    destruct chunk as [a b]. rewrite split_chunk_cases, F, M. reflexivity.
  - pose proof (makedirs_launched rt (dirname name) tr1) as L. rewrite M in L.
    cbn [snd] in L. rewrite L.
    exact (split_chunks_returns_launched _ _ _ _ _ _ _ _ _ _ _ B).
  - pose proof (makedirs_trace rt (dirname name) tr1) as T. rewrite M in T.
    cbn [snd] in T. subst tr2.
    destruct (split_chunks_quiet rt in_filename out_pattern padding verbose before [] 0 tr)
      as (D & _). cbn zeta in D. rewrite B in D. cbn [snd] in D.
    destruct (dirname name); observe; exact D.
Qed.

Lemma directory_failure_stops_the_batch_witness :
  split_audio_chunks (example_runtime_without "out1" 13 failing_extraction) "in.wav" "out"
                     PyFloat.zero true (Some "meta.json")
                     ([(PyFloat.of_decimal 5 1, PyFloat.of_decimal 32 1)]
                        ++ (PyFloat.of_decimal 5 0, PyFloat.of_decimal 8 0)
                        :: [(PyFloat.of_decimal 9 0, PyFloat.of_decimal 10 0)]) []
  = (Err (OSError 13),
     [Makedirs "out0";
      Log INFO "out0/a.wav: start=0.5000, end=3.2000, duration=2.7000";
      LogCommand (Extract "in.wav" (PyFloat.of_decimal 5 1)
                          (PyFloat.sub (PyFloat.of_decimal 32 1) (PyFloat.of_decimal 5 1))
                          None "out0/a.wav");
      Popen (Extract "in.wav" (PyFloat.of_decimal 5 1)
                     (PyFloat.sub (PyFloat.of_decimal 32 1) (PyFloat.of_decimal 5 1))
                     None "out0/a.wav") false;
      Makedirs "out1"]).
Proof.
  refine (proj1 (directory_failure_stops_the_batch
                   (example_runtime_without "out1" 13 failing_extraction) "in.wav" "out"
                   PyFloat.zero true (Some "meta.json")
                   [(PyFloat.of_decimal 5 1, PyFloat.of_decimal 32 1)]
                   [(PyFloat.of_decimal 9 0, PyFloat.of_decimal 10 0)]
                   (PyFloat.of_decimal 5 0, PyFloat.of_decimal 8 0)
                   [] _ _ _ "out1/a.wav" (OSError 13) _ _ _));
    vm_compute; reflexivity.
Defined.
